(** * Grocery price tracker: a shallow embedding of [app.py]

    The development follows the source file top to bottom: Python values
    ([float], exceptions, insertion-ordered [dict]), the [GroceryPrice]
    dataclass, [read_prices_from_sheet], [get_cheapest_item_from_sorted]
    and the parts of [app] that filter, rank and write back to the sheet. *)

From Stdlib Require Import ZArith QArith Qpower List String Ascii Bool Lia.
From Stdlib Require Import Floats.SpecFloat Floats.PrimFloat Floats.FloatOps.
From stdpp Require Import gmap strings sorting.
Import ListNotations.

Local Open Scope Z_scope.
Local Open Scope string_scope.
Local Open Scope list_scope.

(** ** Python exceptions and results

    Only the exceptions that the modelled code can raise are listed. *)

Inductive exception : Type :=
  | ZeroDivisionError
  | OverflowError
  | ValueError
  | IndexError
  | KeyError.

Inductive result (A : Type) : Type :=
  | Ok (a : A)
  | Raise (e : exception).

Arguments Ok {A} a.
Arguments Raise {A} e.

Definition bind {A B : Type} (r : result A) (k : A -> result B) : result B :=
  match r with
  | Ok a => k a
  | Raise e => Raise e
  end.

Notation "x <- r ;; k" := (bind r (fun x => k))
  (at level 100, r at next level, right associativity, only parsing).

Definition of_option {A : Type} (e : exception) (o : option A) : result A :=
  match o with
  | Some a => Ok a
  | None => Raise e
  end.

(** ** Python [float]: IEEE 754 binary64

    A Python [float] is a binary64 number.  It is modelled by the
    executable IEEE 754 specification of the standard library
    ([spec_float] at precision 53 and maximal exponent 1024), so that
    rounding, infinities and NaN behave as they do in the interpreter. *)

Module PyFloat.

Definition prec : Z := 53.
Definition emax : Z := 1024.

Definition float : Type := spec_float.

Definition zero : float := S754_zero false.
Definition nan : float := S754_nan.
Definition inf : float := S754_infinity false.

(** [x == y] on floats. *)
Definition eqb (x y : float) : bool := SFeqb x y.
Definition ltb (x y : float) : bool := SFltb x y.
Definition leb (x y : float) : bool := SFleb x y.

Definition is_nan (x : float) : bool :=
  match x with S754_nan => true | _ => false end.

(** [float(n)] for a Python [int]: the nearest binary64 number, ties to
    even; an [int] beyond the range of binary64 raises [OverflowError]. *)
Definition of_int (n : Z) : result float :=
  match binary_normalize prec emax n 0 false with
  | S754_infinity _ => Raise OverflowError
  | f => Ok f
  end.

(** [x * n] with [x] a float and [n] an int: [n] is converted first. *)
Definition mul_int (x : float) (n : Z) : result float :=
  y <- of_int n ;; Ok (SFmul prec emax x y).

(** [x / y] on floats: a zero divisor raises [ZeroDivisionError]. *)
Definition div (x y : float) : result float :=
  if eqb y zero then Raise ZeroDivisionError
  else Ok (SFdiv prec emax x y).

(** The float nearest to [n / 10^k]: what [float] returns on a decimal
    literal with digits [n] and [k] digits after the point. *)
Definition of_decimal (neg : bool) (n : Z) (k : nat) : float :=
  match n with
  | Z0 => S754_zero neg
  | _ =>
      let '(mz, ez, lz) :=
        SFdiv_core_binary prec emax (Z.abs n) 0 (10 ^ Z.of_nat k) 0 in
      binary_round_aux prec emax neg mz ez lz
  end.

(** The rational number denoted by a float (0 for infinities and NaN,
    which denote no number). *)
Definition to_Q (x : float) : Q :=
  match x with
  | S754_finite s m e =>
      let v := (inject_Z (Z.pos m) * Qpower 2 e)%Q in
      if s then Qopp v else v
  | _ => 0%Q
  end.

(** A value that a binary64 variable can hold. *)
Definition valid (x : float) : bool := valid_binary prec emax x.

(** [x] with its exponent moved by [k]: the number [x * 2^k], written
    with the mantissa of [x].  The result need not be a binary64 number
    (the exponent can leave the range, and the mantissa of a subnormal
    number is kept as it is); it is used in proofs about scaling, where
    the binary64 number of the same value takes its place. *)
Definition scale2 (k : Z) (x : float) : float :=
  match x with
  | S754_finite s m e => S754_finite s m (e + k)
  | _ => x
  end.

End PyFloat.

Abbreviation float := PyFloat.float.

(** ** The [GroceryPrice] dataclass *)

Module GroceryPrice.

Record t : Type := Build {
  name : string;
  tags : list string;
  size : float;
  denominator : Z;
  unit : string;
  branch : string;
  price : float;
  unit_price : float
}.

(** [self.unit_price = self.price * self.denominator / self.size]:
    the value assigned by [__post_init__], or the exception it raises. *)
Definition __post_init__ (price : float) (denominator : Z) (size : float)
  : result float :=
  num <- PyFloat.mul_int price denominator ;;
  PyFloat.div num size.

(** The generated [__init__]: stores the seven fields, then runs
    [__post_init__]. *)
Definition __init__ (name : string) (tags : list string) (size : float)
    (denominator : Z) (unit branch : string) (price : float) : result t :=
  up <- __post_init__ price denominator size ;;
  Ok (Build name tags size denominator unit branch price up).

End GroceryPrice.

(** ** Python sequences, strings and loops *)

(** [l[i]] on a list: [IndexError] out of range. *)
Definition subscript {A : Type} (l : list A) (i : nat) : result A :=
  of_option IndexError (nth_error l i).

(** [for x in l: s = body(x, s)], stopping at the first exception. *)
Fixpoint for_each {A S : Type} (l : list A) (body : A -> S -> result S)
    (s : S) : result S :=
  match l with
  | [] => Ok s
  | x :: l' => s' <- body x s ;; for_each l' body s'
  end.

(** [s.split(sep)] for a one-character separator: the empty string splits
    into one empty field. *)
Fixpoint split (sep : ascii) (s : string) : list string :=
  match s with
  | EmptyString => [EmptyString]
  | String c s' =>
      if Ascii.eqb c sep then EmptyString :: split sep s'
      else match split sep s' with
           | [] => [String c EmptyString]
           | w :: ws => String c w :: ws
           end
  end.

(** The ASCII characters for which [str.isspace] holds: tab, line feed,
    vertical tab, form feed, carriage return, the four separators 28 to
    31, and the space. *)
Definition isspace (c : ascii) : bool :=
  let n := nat_of_ascii c in
  ((9 <=? n) && (n <=? 13) || (28 <=? n) && (n <=? 32))%nat.

Fixpoint lstrip (s : string) : string :=
  match s with
  | String c s' => if isspace c then lstrip s' else s
  | EmptyString => EmptyString
  end.

Fixpoint rstrip (s : string) : string :=
  match s with
  | EmptyString => EmptyString
  | String c s' =>
      match rstrip s' with
      | EmptyString => if isspace c then EmptyString else String c EmptyString
      | t => String c t
      end
  end.

(** [s.strip()] on a string of ASCII characters.  Python also strips the
    white space beyond ASCII (U+00A0, U+2003, ...), which this definition
    leaves in place: statements about stripped input are made for ASCII
    strings. *)
Definition strip (s : string) : string := rstrip (lstrip s).

(** ** The catalog: a Python [dict] from item name to a list of records

    A [dict] iterates in insertion order, and [app] relies on that order
    when it builds [filtered_items]; the catalog is an association list
    with one pair per key, in insertion order. *)

Definition catalog : Type := list (string * list GroceryPrice.t).

(** [k in prices]. *)
Definition contains (prices : catalog) (k : string) : bool :=
  existsb (fun kv => String.eqb (fst kv) k) prices.

(** [prices[k]]: [KeyError] when the key is absent. *)
Fixpoint getitem (prices : catalog) (k : string) : result (list GroceryPrice.t) :=
  match prices with
  | [] => Raise KeyError
  | (k', v) :: rest => if String.eqb k' k then Ok v else getitem rest k
  end.

(** [prices[k] = v]: replaces in place, or inserts at the end. *)
Fixpoint setitem (prices : catalog) (k : string) (v : list GroceryPrice.t)
  : catalog :=
  match prices with
  | [] => [(k, v)]
  | (k', v') :: rest =>
      if String.eqb k' k then (k', v) :: rest
      else (k', v') :: setitem rest k v
  end.

(** [list(prices.keys())]. *)
Definition keys (prices : catalog) : list string := map fst prices.

(** ** [read_prices_from_sheet]

    [data] is what [sheet.get_all_values()] returns: the cells of the
    sheet as strings, row by row, the header first.  The Python builtins
    [float] and [int] applied to a cell are parameters of the model
    ([None] stands for [ValueError]). *)

Section ReadPrices.

Variable float_of_str : string -> option float.
Variable int_of_str : string -> option Z.

(** The body of the inner loop, [for i in range(len(row) - 5)]. *)
Definition read_cell (header row : list string) (grocery_item : string)
    (options : list string) (i : nat) (prices : catalog) : result catalog :=
  price <- subscript row (5 + i) ;;
  if String.eqb price "" then Ok prices
  else
    items <- getitem prices grocery_item ;;
    size_cell <- subscript row 2 ;;
    size <- of_option ValueError (float_of_str size_cell) ;;
    denominator_cell <- subscript row 3 ;;
    denominator <- of_option ValueError (int_of_str denominator_cell) ;;
    unit <- subscript row 4 ;;
    branch <- subscript header (5 + i) ;;
    price <- of_option ValueError (float_of_str price) ;;
    item <- GroceryPrice.__init__ grocery_item options size denominator
              unit branch price ;;
    Ok (setitem prices grocery_item (items ++ [item])).

(** The body of the outer loop, [for row in data[1:]]. *)
Definition read_row (header row : list string) (prices : catalog)
  : result catalog :=
  grocery_item <- subscript row 0 ;;
  options_cell <- subscript row 1 ;;
  let options := split "|" options_cell in
  let prices :=
    if contains prices grocery_item then prices
    else setitem prices grocery_item [] in
  for_each (seq 0 (List.length row - 5))
    (read_cell header row grocery_item options) prices.

Definition read_prices_from_sheet (data : list (list string)) : result catalog :=
  header <- subscript data 0 ;;
  for_each (skipn 1 data) (read_row header) [].

End ReadPrices.

(** ** [get_cheapest_item_from_sorted]

    [[i for i in sorted_list if i.unit_price == sorted_list[0].unit_price]]:
    the subscript [sorted_list[0]] is evaluated once per element of the
    list, and would raise [IndexError] on an empty list. *)

Fixpoint comprehension {A : Type} (cond : A -> result bool) (l : list A)
  : result (list A) :=
  match l with
  | [] => Ok []
  | i :: rest =>
      c <- cond i ;;
      tl <- comprehension cond rest ;;
      Ok (if c then i :: tl else tl)
  end.

Definition get_cheapest_item_from_sorted (sorted_list : list GroceryPrice.t)
  : result (list GroceryPrice.t) :=
  comprehension
    (fun i =>
       first <- subscript sorted_list 0 ;;
       Ok (PyFloat.eqb (GroceryPrice.unit_price i)
                       (GroceryPrice.unit_price first)))
    sorted_list.

(** ** Ranking in [app]

    [cheapest_items = get_cheapest_item_from_sorted(filtered_items)] and
    [other_items = filtered_items[len(cheapest_items):]]. *)

Definition rank (filtered_items : list GroceryPrice.t)
  : result (list GroceryPrice.t * list GroceryPrice.t) :=
  cheapest_items <- get_cheapest_item_from_sorted filtered_items ;;
  let other_items := skipn (List.length cheapest_items) filtered_items in
  Ok (cheapest_items, other_items).

(** ** The search part of [app]

    [np.intersect1d(ar1, ar2)] returns the sorted, unique values that are
    in both of its arguments. *)

Definition intersect1d (ar1 ar2 : list string) : list string :=
  merge_sort String.le (remove_dups (filter (fun x => x ∈ ar2) ar1)).

(** [len(np.intersect1d(item.tags, selected_tags)) == len(selected_tags)]. *)
Definition tags_match (item : GroceryPrice.t) (selected_tags : list string)
  : bool :=
  Nat.eqb (List.length (intersect1d (GroceryPrice.tags item) selected_tags))
          (List.length selected_tags).

(** The body of [for k, items in prices.items()], acting on
    [filtered_items]. *)
Definition filter_group (selected_item : string) (selected_tags : list string)
    (filtered_items : list GroceryPrice.t)
    (entry : string * list GroceryPrice.t) : list GroceryPrice.t :=
  let '(k, items) := entry in
  if negb (String.eqb selected_item "") && negb (String.eqb k selected_item)
  then filtered_items
  else
    match selected_tags with
    | [] => filtered_items ++ items
    | _ :: _ =>
        fold_left
          (fun acc item =>
             if tags_match item selected_tags then acc ++ [item] else acc)
          items filtered_items
    end.

Definition filtered_items (prices : catalog) (selected_item : string)
    (selected_tags : list string) : list GroceryPrice.t :=
  fold_left (filter_group selected_item selected_tags) prices [].

(** The [else] branch of [app] up to the two lists it displays. *)
Definition search (prices : catalog) (selected_item : string)
    (selected_tags : list string)
  : result (list GroceryPrice.t * list GroceryPrice.t) :=
  rank (filtered_items prices selected_item selected_tags).

(** [grocery_items = list(prices.keys())] and the options of the item
    select box, [[""] + grocery_items]. *)
Definition grocery_items (prices : catalog) : list string := keys prices.

Definition selectbox_options (prices : catalog) : list string :=
  "" :: grocery_items prices.

(** ** The two forms of [app] and the worksheet

    The worksheet is the backing store.  [records] is the frame that the
    sheet was last given; [reads] and [writes] count the calls issued so
    far. *)

Inductive cell : Type :=
  | CStr (s : string)
  | CFloat (f : float)
  | CInt (n : Z).

Record DataFrame : Type := {
  columns : list string;
  rows : list (list cell)
}.

Record Worksheet : Type := {
  records : DataFrame;
  reads : nat;
  writes : nat
}.

Inductive message : Type :=
  | st_error (text : string)
  | st_success (text : string).

(** What a form handler works on: the worksheet, the local [df] and the
    messages shown to the user so far. *)
Record session : Type := {
  worksheet : Worksheet;
  df : DataFrame;
  shown : list message
}.

(** [pd.DataFrame(worksheet.get_all_records())], counted as a read.  The
    frame is returned as the sheet was given it.  A real sheet gives back
    an empty string for NaN and no column at all when it holds no data
    row, so the statements read the frame handed to [set_with_dataframe]
    and the counters, not the frame that comes back. *)
Definition get_all_records (w : Worksheet) : DataFrame * Worksheet :=
  (records w, {| records := records w; reads := S (reads w); writes := writes w |}).

(** [set_with_dataframe(worksheet, df)]. *)
Definition set_with_dataframe (w : Worksheet) (d : DataFrame) : Worksheet :=
  {| records := d; reads := reads w; writes := S (writes w) |}.

Definition show (m : message) (s : session) : session :=
  {| worksheet := worksheet s; df := df s; shown := shown s ++ [m] |}.

Definition set_df (d : DataFrame) (s : session) : session :=
  {| worksheet := worksheet s; df := d; shown := shown s |}.

(** The three statements that end both forms: write [df] to the sheet,
    report success, and read the sheet back into [df]. *)
Definition write_back (s : session) : session :=
  let w := set_with_dataframe (worksheet s) (df s) in
  let s := show (st_success "Sheet updated successfully!")
             {| worksheet := w; df := df s; shown := shown s |} in
  let '(d, w) := get_all_records (worksheet s) in
  {| worksheet := w; df := d; shown := shown s |}.

(** [pd.Series(data=..., index=df.columns)] followed by [df.append] (pandas
    before 2.0): [ValueError] when the row and the columns differ in
    length, one more row otherwise.  pandas may change the type of a column
    on the way (an integer column that receives a float), which the cells
    here do not show: the statements count the rows. *)
Definition append_row (d : DataFrame) (new_row : list cell) : result DataFrame :=
  if Nat.eqb (List.length new_row) (List.length (columns d))
  then Ok {| columns := columns d; rows := rows d ++ [new_row] |}
  else Raise ValueError.

(** [df[name] = pd.Series(dtype=float)]: a new column without values. *)
Definition add_column (d : DataFrame) (name : string) : DataFrame :=
  {| columns := columns d ++ [name];
     rows := map (fun r => r ++ [CFloat PyFloat.nan]) (rows d) |}.

(** The form [new_item_form]. *)
Definition new_item_form (submit_button : bool) (name options : string)
    (size : float) (denominator : Z) (unit : string) (s : session)
  : result session :=
  if submit_button then
    s <- (if String.eqb name "" then
            Ok (show (st_error "Item name cannot be empty!") s)
          else if String.eqb unit "" then
            Ok (show (st_error "Unit cannot be empty!") s)
          else
            let new_row :=
              [CStr name; CStr (strip options); CFloat size; CInt denominator;
               CStr unit]
              ++ repeat (CStr "") (List.length (columns (df s)) - 5) in
            d <- append_row (df s) new_row ;;
            Ok (set_df d s)) ;;
    Ok (write_back s)
  else Ok s.

(** The form [new_branch_form]. *)
Definition new_branch_form (submit_button : bool) (name : string)
    (s : session) : session :=
  if submit_button then
    let s :=
      if String.eqb name "" then
        show (st_error "Branch name cannot be empty!") s
      else
        let name := strip name in
        if bool_decide (name ∈ columns (df s)) then
          show (st_error (name ++ " already exists!")) s
        else set_df (add_column (df s) (strip name)) s in
    write_back s
  else s.

(** ** The unit price in exact arithmetic

    The specification reads [price * denominator / size] over the real
    numbers.  [normalize_exact] is that reading, over the rationals: the
    expression of [GroceryPrice.__post_init__] without rounding. *)


(** ** A parser for plain decimal numerals

    [decimal_float] and [decimal_int] read an optional sign followed by
    digits (and, for a float, at most one point).  They agree with the
    Python builtins on such cells and serve to run the model on sheets
    written that way. *)

Definition digit (c : ascii) : option Z :=
  let n := nat_of_ascii c in
  if ((48 <=? n) && (n <=? 57))%nat then Some (Z.of_nat (n - 48)) else None.

(** Reads digits into [(value, digits after the point)]. *)
Fixpoint read_digits (s : string) (acc : Z) (seen_point : bool) (frac : nat)
    (any : bool) : option (Z * nat) :=
  match s with
  | EmptyString => if any then Some (acc, frac) else None
  | String c s' =>
      if Ascii.eqb c "."%char then
        if seen_point then None else read_digits s' acc true frac any
      else
        match digit c with
        | Some d =>
            read_digits s' (10 * acc + d) seen_point
              (if seen_point then S frac else frac) true
        | None => None
        end
  end.

Definition decimal_float (s : string) : option float :=
  let '(neg, body) :=
    match s with
    | String "-"%char s' => (true, s')
    | String "+"%char s' => (false, s')
    | _ => (false, s)
    end in
  match read_digits body 0 false 0 false with
  | Some (n, k) => Some (PyFloat.of_decimal neg n k)
  | None => None
  end.

Definition decimal_int (s : string) : option Z :=
  let '(neg, body) :=
    match s with
    | String "-"%char s' => (true, s')
    | String "+"%char s' => (false, s')
    | _ => (false, s)
    end in
  match read_digits body 0 true 0 false with
  | Some (n, _) => Some (if neg then - n else n)
  | None => None
  end.

(** ** Predicates used in the statements *)

(** The records that compare equal to [first] on [unit_price]. *)
Definition same_unit_price (first i : GroceryPrice.t) : bool :=
  PyFloat.eqb (GroceryPrice.unit_price i) (GroceryPrice.unit_price first).

(** The stored [unit_price] is what [__post_init__] computes from the
    stored [price], [denominator] and [size]. *)
Definition derived (r : GroceryPrice.t) : Prop :=
  GroceryPrice.__post_init__ (GroceryPrice.price r)
    (GroceryPrice.denominator r) (GroceryPrice.size r)
  = Ok (GroceryPrice.unit_price r).

Definition catalog_derived (prices : catalog) : Prop :=
  forall k items r, (k, items) ∈ prices -> r ∈ items -> derived r.

(** Every branch cell of the row (column 5 onwards) is blank. *)
Definition blank_prices (row : list string) : Prop :=
  forall i cell, nth_error row (5 + i) = Some cell -> cell = "".

(** The order that [sorted(filtered_items)] would establish: the
    dataclass compares records on [unit_price] alone. *)
Definition ascending (l : list GroceryPrice.t) : Prop :=
  StronglySorted
    (fun a b =>
       PyFloat.leb (GroceryPrice.unit_price a) (GroceryPrice.unit_price b)
       = true)
    l.

(** Floats other than NaN, placed in the lexicographic order of integer
    triples: sign class, then exponent, then mantissa. *)
Definition float_key (x : float) : Z * Z * Z :=
  match x with
  | S754_infinity true => (-2, 0, 0)
  | S754_finite true m e => (-1, - e, Z.neg m)
  | S754_zero _ => (0, 0, 0)
  | S754_finite false m e => (1, e, Z.pos m)
  | S754_infinity false => (2, 0, 0)
  | S754_nan => (3, 0, 0)
  end.

Definition lex3 (a b : Z * Z * Z) : comparison :=
  let '(a1, a2, a3) := a in
  let '(b1, b2, b3) := b in
  match (a1 ?= b1)%Z with
  | Eq => match (a2 ?= b2)%Z with
          | Eq => (a3 ?= b3)%Z
          | c => c
          end
  | c => c
  end.




(** If the catalog has the key, its list is empty. *)
Definition no_records (prices : catalog) (g : string) : Prop :=
  forall v, getitem prices g = Ok v -> v = [].

(** ** Rounding to binary64

    [SFmul] and [SFdiv] round an exact product or quotient.  The
    definitions of this part describe that rounding on a fraction
    [a / B] scaled by [2^e]; the operations are proved equal to them
    further down, and the order of the results is read off them. *)

Section Rounding.
Local Open Scope Z_scope.

(** The quotient [a / B], with the round bit and the sticky bit of its
    remainder: the state of a right shift that has dropped the bits of
    [a mod B]. *)
Definition rec_of (a B : Z) : shr_record :=
  Build_shr_record (a / B) (B <=? 2 * (a mod B))
    (negb (a mod B =? 0) && negb (2 * (a mod B) =? B)).

(** Where [a / B] lies between its floor and the next integer. *)
Definition loc_of (a B : Z) : location := loc_of_shr_record (rec_of a B).

(** The fraction [a / B] rounded to the nearest integer, ties to even. *)
Definition rne (a B : Z) : Z := round_nearest_even (a / B) (loc_of a B).

(** The exponent of the last place of a binary64 number whose leading bit
    has weight [2^(e-1)]. *)
Definition fexp64 (e : Z) : Z := Z.max (e - 53) (-1074).

(** The float of mantissa [m] and exponent [e], or an infinity when the
    exponent is out of range. *)
Definition fin_or_inf (s : bool) (m e : Z) : spec_float :=
  match m with
  | Z0 => S754_zero s
  | Zpos p => if e <=? 971 then S754_finite s p e else S754_infinity s
  | Zneg _ => S754_nan
  end.

(** The number [(a / B) * 2^e] rounded to binary64: the quotient is
    brought to 53 bits (fewer in the subnormal range), and a mantissa
    that rounds up to [2^53] moves to the next exponent. *)
Definition round_frac (s : bool) (a B e : Z) : spec_float :=
  let E := fexp64 (Zdigits2 (a / B) + e) in
  let m1 := rne a (B * 2 ^ (E - e)) in
  if m1 =? 2 ^ 53 then fin_or_inf s (2 ^ 52) (E + 1) else fin_or_inf s m1 E.


(** The exponent at which [SFdiv] computes the integer quotient of two
    finite floats. *)
Definition div_exp (mx : positive) (ex : Z) (my : positive) (ey : Z) : Z :=
  Z.min (fexp64 (Zdigits2 (Z.pos mx) + ex - (Zdigits2 (Z.pos my) + ey))) (ex - ey).

(** [x >= 0]: a zero, a finite float of positive sign, or [+inf]. *)
Definition nonneg (x : float) : Prop :=
  match x with
  | S754_zero _ | S754_finite false _ _ | S754_infinity false => True
  | _ => False
  end.

(** [x > 0] and finite. *)
Definition positive_finite (x : float) : Prop :=
  match x with
  | S754_finite false _ _ => True
  | _ => False
  end.

End Rounding.

(** ** Sheets and records used as running examples *)

(** The two rows of milk prices: 1.20 for 1000 ml at Tesco, 0.50 for
    500 ml at Aldi, both per 1000 ml. *)
Definition milk_sheet : list (list string) :=
  [ ["Grocery Item"; "Options"; "Size"; "Denominator"; "Unit"; "Tesco"; "Aldi"];
    ["Milk"; "dairy"; "1000"; "1000"; "ml"; "1.20"; ""];
    ["Milk"; "dairy"; "500"; "1000"; "ml"; ""; "0.50"] ].

Definition tesco_milk : GroceryPrice.t :=
  GroceryPrice.Build "Milk" ["dairy"] (PyFloat.of_decimal false 1000 0) 1000
    "ml" "Tesco" (PyFloat.of_decimal false 120 2) (PyFloat.of_decimal false 12 1).

Definition aldi_milk : GroceryPrice.t :=
  GroceryPrice.Build "Milk" ["dairy"] (PyFloat.of_decimal false 500 0) 1000
    "ml" "Aldi" (PyFloat.of_decimal false 50 2) (PyFloat.of_decimal false 1 0).

(** The milk sheet with a row for eggs that has no price yet; its size
    and denominator cells are not even numbers. *)
Definition eggs_sheet : list (list string) :=
  milk_sheet ++ [ ["Eggs"; ""; "a dozen"; "-"; "each"; ""; ""] ].

(** A row of 500 ml at 0.50 whose size was typed with a minus sign. *)
Definition negative_size_sheet : list (list string) :=
  [ ["Grocery Item"; "Options"; "Size"; "Denominator"; "Unit"; "Aldi"];
    ["Milk"; "dairy"; "-500"; "1000"; "ml"; "0.50"] ].

(** The same row with size 0. *)
Definition zero_size_sheet : list (list string) :=
  [ ["Grocery Item"; "Options"; "Size"; "Denominator"; "Unit"; "Aldi"];
    ["Milk"; "dairy"; "0"; "1000"; "ml"; "0.50"] ].

(** Three items tagged noodles and udon, noodles, and rice. *)
Definition tagged (name : string) (tags : list string) : GroceryPrice.t :=
  GroceryPrice.Build name tags (PyFloat.of_decimal false 1 0) 1 "pack" "Tesco"
    (PyFloat.of_decimal false 99 2) (PyFloat.of_decimal false 99 2).

Definition noodle_catalog : catalog :=
  [ ("Udon", [tagged "Udon" ["noodles"; "udon"]]);
    ("Ramen", [tagged "Ramen" ["noodles"]]);
    ("Rice", [tagged "Rice" ["rice"]]) ].

(** A sheet with a Tesco column, as [app] holds it after reading it. *)
Definition tesco_table : DataFrame :=
  {| columns := ["Grocery Item"; "Options"; "Size"; "Denominator"; "Unit";
                 "Tesco"];
     rows := [[CStr "Milk"; CStr "dairy"; CInt 1000; CInt 1000; CStr "ml";
               CFloat (PyFloat.of_decimal false 120 2)]] |}.

Definition tesco_session : session :=
  {| worksheet := {| records := tesco_table; reads := 1; writes := 0 |};
     df := tesco_table;
     shown := [] |}.

(** One litre of milk at 1.00, 2.00 and 1.00 in three branches. *)
Definition litre_sheet : list (list string) :=
  [ ["Grocery Item"; "Options"; "Size"; "Denominator"; "Unit";
     "Tesco"; "Asda"; "Aldi"];
    ["Milk"; "dairy"; "1"; "1"; "l"; "1.00"; "2.00"; "1.00"] ].

(** A record of one litre at a given price in pence, per litre. *)
Definition litre (branch : string) (pence : Z) : GroceryPrice.t :=
  GroceryPrice.Build "Milk" ["dairy"] (PyFloat.of_decimal false 1 0) 1
    "l" branch (PyFloat.of_decimal false pence 2)
    (PyFloat.of_decimal false pence 2).

(** * More of [app.py]

    The functions and the parts of [app] that the definitions above leave
    out: the list of tags offered in the search box,
    [write_prices_to_sheet], [chunk] and the two grids of metrics. *)

(** ** The tags offered in the search box

    [tags = list(set(chain.from_iterable(item.tags for item in ...)))]:
    the tags of all records of the catalog.  The order of a [list(set(...))]
    is not fixed; the tags are kept as a set. *)

Definition all_tags (prices : catalog) : gset string :=
  list_to_set (flat_map GroceryPrice.tags (flat_map snd prices)).

(** ** [write_prices_to_sheet]

    The argument [prices] is a [dict] of [dict]s: item name, then option,
    then column name, to the value of the cell.  A [dict] is an
    association list in insertion order; a subscript finds the first pair
    with the key and raises [KeyError] when there is none. *)

Definition dict (V : Type) : Type := list (string * V).

Fixpoint dict_getitem {V : Type} (d : dict V) (k : string) : result V :=
  match d with
  | [] => Raise KeyError
  | (k', v) :: rest => if String.eqb k' k then Ok v else dict_getitem rest k
  end.

Definition dict_keys {V : Type} (d : dict V) : list string := map fst d.

Definition nested_prices : Type := dict (dict (dict cell)).

(** [["Grocery Item", ..., "Unit Price"] +
     list(prices[list(prices.keys())[0]][list(prices[...].keys())[0]].keys())]:
    the subscripted [dict] is evaluated before the subscript. *)
Definition write_header (prices : nested_prices) : result (list string) :=
  item0 <- subscript (dict_keys prices) 0 ;;
  options0 <- dict_getitem prices item0 ;;
  item0' <- subscript (dict_keys prices) 0 ;;
  options0' <- dict_getitem prices item0' ;;
  option0 <- subscript (dict_keys options0') 0 ;;
  columns0 <- dict_getitem options0 option0 ;;
  Ok (["Grocery Item"; "Options"; "Size"; "Denominator"; "Unit"; "Unit Price"]
      ++ dict_keys columns0).

(** [[prices[grocery_item][option][col] for col in cols]]. *)
Definition lookup_columns (prices : nested_prices) (grocery_item option : string)
    (cols : list string) : result (list cell) :=
  for_each cols
    (fun col acc =>
       options <- dict_getitem prices grocery_item ;;
       columns <- dict_getitem options option ;;
       v <- dict_getitem columns col ;;
       Ok (acc ++ [v]))
    [].

(** The body of [for option in prices[grocery_item]]: the row is built
    and appended to [data]. *)
Definition write_row (prices : nested_prices) (header : list string)
    (grocery_item option : string) (data : list (list cell))
  : result (list (list cell)) :=
  attributes <- lookup_columns prices grocery_item option
                  ["Size"; "Denominator"; "Unit"; "Unit Price"] ;;
  chains <- lookup_columns prices grocery_item option (skipn 6 header) ;;
  Ok (data ++ [[CStr grocery_item; CStr option] ++ attributes ++ chains]).

(** [data], as it is when [sheet.update(data)] is reached. *)
Definition write_data (prices : nested_prices) : result (list (list cell)) :=
  header <- write_header prices ;;
  for_each (dict_keys prices)
    (fun grocery_item data =>
       options <- dict_getitem prices grocery_item ;;
       for_each (dict_keys options) (write_row prices header grocery_item) data)
    [map CStr header].

(** The cells of the sheet after the call, and the outcome of the call:
    [sheet.clear()] comes first, [sheet.update(data)] last. *)
Definition write_prices_to_sheet (prices : nested_prices)
    (sheet : list (list cell)) : list (list cell) * result unit :=
  let sheet : list (list cell) := [] in
  match write_data prices with
  | Ok data => (data, Ok tt)
  | Raise e => (sheet, Raise e)
  end.

(** ** [chunk]

    [iter(lambda: tuple(islice(arr_range, arr_size)), ())]: each call takes
    the next [arr_size] elements of the iterator, and the iteration stops
    at the first empty tuple.  [fuel] bounds the number of calls; [None]
    means that the bound was reached before the empty tuple.  The size is
    a natural number: [islice] refuses a negative one. *)

Fixpoint chunk_calls {A : Type} (fuel : nat) (arr_range : list A)
    (arr_size : nat) : option (list (list A)) :=
  match fuel with
  | O => None
  | S fuel' =>
      match firstn arr_size arr_range with
      | [] => Some []
      | row =>
          match chunk_calls fuel' (skipn arr_size arr_range) arr_size with
          | Some rows => Some (row :: rows)
          | None => None
          end
      end
  end.

(** The tuples that [chunk(arr_range, arr_size)] yields: one call more
    than there are elements always reaches the empty tuple. *)
Definition chunk {A : Type} (arr_range : list A) (arr_size : nat)
  : list (list A) :=
  match chunk_calls (S (List.length arr_range)) arr_range arr_size with
  | Some rows => rows
  | None => []
  end.

(** ** The two grids of metrics

    A metric is what [col.metric] is given: a label, a value and a delta.
    The formatting of numbers in an f-string is a parameter of the model:
    [format_2f x] stands for [f"{x:,.2f}"], [str_float x] and [str_int n]
    for [f"{x}"] on a float and on an int. *)

Module Metric.

Record t : Type := Build {
  label : string;
  value : string;
  delta : string
}.

End Metric.

(** The pound sign, as the two bytes of its UTF-8 encoding. *)
Definition pound : string :=
  String (ascii_of_nat 194) (String (ascii_of_nat 163) EmptyString).

(** [sep.join(l)]. *)
Fixpoint join (sep : string) (l : list string) : string :=
  match l with
  | [] => ""
  | [x] => x
  | x :: l' => x ++ sep ++ join sep l'
  end.

Section Display.

Variable format_2f : float -> string.
Variable str_float : float -> string.
Variable str_int : Z -> string.

(** The arguments of [col.metric] for one record. *)
Definition item_metric (item : GroceryPrice.t) : Metric.t :=
  {| Metric.label :=
       GroceryPrice.name item ++ " - " ++ GroceryPrice.branch item;
     Metric.value :=
       pound ++ " " ++ format_2f (GroceryPrice.unit_price item) ++ " / "
       ++ (if (GroceryPrice.denominator item =? 1)%Z then ""
           else str_int (GroceryPrice.denominator item))
       ++ GroceryPrice.unit item;
     Metric.delta :=
       join ", " (GroceryPrice.tags item) ++ " "
       ++ str_float (GroceryPrice.size item) ++ " "
       ++ GroceryPrice.unit item ++ " " ++ pound
       ++ format_2f (GroceryPrice.price item) |}.

(** [for row in chunk(items, 3): cols = container.columns(3);
     for item, col in zip(row, cols): col.metric(...)]: the metrics placed
    in each row of the grid, each with the number of its column. *)
Definition display (items : list GroceryPrice.t)
  : list (list (nat * Metric.t)) :=
  map (fun row =>
         map (fun '(item, col) => (col, item_metric item))
             (combine row (seq 0 3)))
      (chunk items 3).

End Display.

(** ** Predicates used in the further statements *)

(** The elements of [l] without repetition, each at its first occurrence:
    the order in which a [dict] lists keys inserted in the order of [l]. *)
Definition first_occurrences (l : list string) : list string :=
  fold_left (fun acc x => if bool_decide (x ∈ acc) then acc else acc ++ [x])
    l [].

(** [r] is the record that the price cell [row[5 + i]] stands for: the
    cell is not blank, and the fields of [r] are read from the row, the
    branch from the header cell above the price. *)
Definition cell_record (float_of_str : string -> option float)
    (int_of_str : string -> option Z) (header row : list string) (i : nat)
    (r : GroceryPrice.t) : Prop :=
  exists cell options_cell size_cell denominator_cell,
    nth_error row (5 + i) = Some cell /\ cell <> "" /\
    nth_error row 0 = Some (GroceryPrice.name r) /\
    nth_error row 1 = Some options_cell /\
    GroceryPrice.tags r = split "|" options_cell /\
    nth_error row 2 = Some size_cell /\
    float_of_str size_cell = Some (GroceryPrice.size r) /\
    nth_error row 3 = Some denominator_cell /\
    int_of_str denominator_cell = Some (GroceryPrice.denominator r) /\
    nth_error row 4 = Some (GroceryPrice.unit r) /\
    nth_error header (5 + i) = Some (GroceryPrice.branch r) /\
    float_of_str cell = Some (GroceryPrice.price r).

(** Every record of the catalog is listed under its own name and stands
    for a price cell of one of [rows]. *)
Definition from_rows (float_of_str : string -> option float)
    (int_of_str : string -> option Z) (header : list string)
    (rows : list (list string)) (prices : catalog) : Prop :=
  forall k items r,
    (k, items) ∈ prices -> r ∈ items ->
    GroceryPrice.name r = k /\
    exists row i,
      row ∈ rows /\ cell_record float_of_str int_of_str header row i r.

(** The price cell [row[5 + i]] is not blank and cannot be turned into a
    record: its text, the size or the denominator of the row is not a
    number, or the header has no cell above it. *)
Definition unreadable_cell (float_of_str : string -> option float)
    (int_of_str : string -> option Z) (header row : list string) (i : nat)
  : Prop :=
  exists cell,
    nth_error row (5 + i) = Some cell /\ cell <> "" /\
    (float_of_str cell = None \/
     (exists size_cell,
        nth_error row 2 = Some size_cell /\ float_of_str size_cell = None) \/
     (exists denominator_cell,
        nth_error row 3 = Some denominator_cell /\
        int_of_str denominator_cell = None) \/
     nth_error header (5 + i) = None).

(** The catalog lists [r] under the key [g]. *)
Definition has_record (prices : catalog) (g : string) (r : GroceryPrice.t)
  : Prop :=
  exists items, getitem prices g = Ok items /\ r ∈ items.

(** The price cell [row[5 + i]] exists and is not blank. *)
Definition is_priced (row : list string) (i : nat) : bool :=
  match nth_error row (5 + i) with
  | Some cell => negb (String.eqb cell "")
  | None => false
  end.

(** The numbers of the price cells of [row] that are not blank, from left
    to right. *)
Definition priced_cells (row : list string) : list nat :=
  List.filter (is_priced row) (seq 0 (List.length row - 5)).

(** The price cells that are not blank in the rows named [g], row after
    row and, in a row, from left to right. *)
Definition item_cells (rows : list (list string)) (g : string)
  : list (list string * nat) :=
  flat_map
    (fun row =>
       match nth_error row 0 with
       | Some g' => if String.eqb g' g then map (pair row) (priced_cells row)
                    else []
       | None => []
       end)
    rows.

(** The list of the item [g], empty when the catalog has no such key. *)
Definition items_of (prices : catalog) (g : string) : list GroceryPrice.t :=
  match getitem prices g with
  | Ok items => items
  | Raise _ => []
  end.

(** The records of [g] stand, one by one and in order, for [cells]. *)
Definition lists_cells (float_of_str : string -> option float)
    (int_of_str : string -> option Z) (header : list string)
    (prices : catalog) (g : string) (cells : list (list string * nat))
  : Prop :=
  Forall2
    (fun r c => cell_record float_of_str int_of_str header (fst c) (snd c) r)
    (items_of prices g) cells.

(** The four columns that [write_prices_to_sheet] reads from every option
    besides the columns of the header. *)
Definition attribute_columns : list string :=
  ["Size"; "Denominator"; "Unit"; "Unit Price"].

(** [data] is the header followed by rows of the length of the header. *)
Definition rectangular (header : list string) (data : list (list cell))
  : Prop :=
  exists rows,
    data = map CStr header :: rows /\
    Forall (fun row => List.length row = List.length header) rows.

(** A string of ASCII characters: on these [strip] is [str.strip]. *)
Definition is_ascii (s : string) : bool :=
  forallb (fun c => (nat_of_ascii c <? 128)%nat) (list_ascii_of_string s).

(** ** Further examples *)

(** The milk sheet with a price that is not a number. *)
Definition unpriced_sheet : list (list string) :=
  [ ["Grocery Item"; "Options"; "Size"; "Denominator"; "Unit"; "Tesco"; "Aldi"];
    ["Milk"; "dairy"; "1000"; "1000"; "ml"; "n/a"; ""] ].

(** A record whose price and size are both infinite: its unit price is
    NaN. *)
Definition priceless : GroceryPrice.t :=
  GroceryPrice.Build "Gold" ["metal"] PyFloat.inf 1 "g" "Bank" PyFloat.inf
    PyFloat.nan.

(** One item with one option, as [write_prices_to_sheet] expects it. *)
Definition nested_milk : nested_prices :=
  [ ("Milk",
     [ ("dairy",
        [ ("Size", CInt 1000); ("Denominator", CInt 1000); ("Unit", CStr "ml");
          ("Unit Price", CFloat (PyFloat.of_decimal false 12 1));
          ("Tesco", CFloat (PyFloat.of_decimal false 120 2)) ]) ]) ].

(** The same without the unit price of the option. *)
Definition nested_milk_incomplete : nested_prices :=
  [ ("Milk",
     [ ("dairy",
        [ ("Size", CInt 1000); ("Denominator", CInt 1000); ("Unit", CStr "ml");
          ("Tesco", CFloat (PyFloat.of_decimal false 120 2)) ]) ]) ].

(** * Properties *)

(** ** Results *)

Lemma bind_Ok {A B : Type} (r : result A) (k : A -> result B) (b : B) :
  bind r k = Ok b -> exists a, r = Ok a /\ k a = Ok b.
Proof. destruct r as [a|e]; simpl; [eauto | discriminate]. Qed.

Ltac inv_bind H :=
  let a := fresh "a" in
  let Ha := fresh "Ha" in
  apply bind_Ok in H; destruct H as (a & Ha & H).

(** ** Comparison of floats *)

Lemma SFcompare_refl (x : float) :
  PyFloat.is_nan x = false -> SFcompare x x = Some Eq.
Proof.
  destruct x as [s|s| |s m e]; simpl; try discriminate; intros _.
  - reflexivity.
  - destruct s; reflexivity.
  - rewrite Z.compare_refl, Pos.compare_cont_refl. destruct s; reflexivity.
Qed.

Lemma eqb_refl (x : float) : PyFloat.is_nan x = false -> PyFloat.eqb x x = true.
Proof. intros H. unfold PyFloat.eqb, SFeqb. rewrite SFcompare_refl; auto. Qed.

Lemma eqb_nan_r (x y : float) : PyFloat.is_nan y = true -> PyFloat.eqb x y = false.
Proof.
  destruct y; try discriminate. intros _.
  unfold PyFloat.eqb, SFeqb. destruct x; reflexivity.
Qed.

Lemma SFcompare_key (x y : float) :
  PyFloat.is_nan x = false -> PyFloat.is_nan y = false ->
  SFcompare x y = Some (lex3 (float_key x) (float_key y)).
Proof.
  destruct x as [sx|sx| |sx mx ex], y as [sy|sy| |sy my ey];
    simpl; try discriminate; intros _ _;
    try destruct sx; try destruct sy; try reflexivity.
  unfold lex3. change (-1 ?= -1)%Z with Eq. cbv iota.
  rewrite Z.compare_opp, (Z.compare_antisym ex ey).
  destruct (ex ?= ey)%Z; reflexivity.
Qed.

Lemma lex3_Eq a b : lex3 a b = Eq <-> a = b.
Proof.
  destruct a as [[a1 a2] a3], b as [[b1 b2] b3]. unfold lex3.
  destruct (Z.compare_spec a1 b1); [|split; [discriminate|intros [=]; lia]..].
  destruct (Z.compare_spec a2 b2); [|split; [discriminate|intros [=]; lia]..].
  rewrite Z.compare_eq_iff. split; [intros; subst; reflexivity|intros [=]; lia].
Qed.

Lemma lex3_not_Gt a b :
  lex3 a b <> Gt <->
  (a.1.1 < b.1.1 \/
   (a.1.1 = b.1.1 /\ (a.1.2 < b.1.2 \/ (a.1.2 = b.1.2 /\ a.2 <= b.2))))%Z.
Proof.
  destruct a as [[a1 a2] a3], b as [[b1 b2] b3]. unfold lex3. simpl.
  destruct (Z.compare_spec a1 b1); [|split; [lia|discriminate]|split; [congruence|lia]].
  destruct (Z.compare_spec a2 b2); [|split; [lia|discriminate]|split; [congruence|lia]].
  rewrite <- Z.compare_le_iff. unfold Z.le. split; [auto|].
  intros [?|[_ [?|[_ ?]]]]; [lia..|assumption].
Qed.

Lemma leb_key (x y : float) :
  PyFloat.leb x y = true <->
  PyFloat.is_nan x = false /\ PyFloat.is_nan y = false /\
  lex3 (float_key x) (float_key y) <> Gt.
Proof.
  unfold PyFloat.leb, SFleb.
  destruct (PyFloat.is_nan x) eqn:Ex.
  { destruct x; try discriminate. simpl. split; [discriminate|intros [? _]; discriminate]. }
  destruct (PyFloat.is_nan y) eqn:Ey.
  { destruct y; try discriminate. destruct x; simpl;
      (split; [discriminate|intros (_ & ? & _); discriminate]). }
  rewrite SFcompare_key by assumption.
  destruct (lex3 (float_key x) (float_key y));
    split; try discriminate; try congruence; auto; intros (_ & _ & H); congruence.
Qed.

Lemma eqb_key (x y : float) :
  PyFloat.eqb x y = true <->
  PyFloat.is_nan x = false /\ PyFloat.is_nan y = false /\
  float_key x = float_key y.
Proof.
  unfold PyFloat.eqb, SFeqb.
  destruct (PyFloat.is_nan x) eqn:Ex.
  { destruct x; try discriminate. simpl. split; [discriminate|intros [? _]; discriminate]. }
  destruct (PyFloat.is_nan y) eqn:Ey.
  { destruct y; try discriminate. destruct x; simpl;
      (split; [discriminate|intros (_ & ? & _); discriminate]). }
  rewrite SFcompare_key by assumption. rewrite <- lex3_Eq.
  destruct (lex3 (float_key x) (float_key y));
    split; try discriminate; auto; intros (_ & _ & H); congruence.
Qed.

(** A float between two floats that compare equal is equal to them. *)
Lemma eqb_between (h a b : float) :
  PyFloat.leb h a = true -> PyFloat.leb a b = true ->
  PyFloat.eqb b h = true -> PyFloat.eqb a h = true.
Proof.
  rewrite !leb_key, !eqb_key, !lex3_not_Gt.
  intros (Hh & Ha & H1) (_ & Hb & H2) (_ & _ & H3).
  split; [exact Ha|]. split; [exact Hh|].
  destruct (float_key h) as [[h1 h2] h3], (float_key a) as [[a1 a2] a3],
    (float_key b) as [[b1 b2] b3].
  simpl in *. injection H3 as -> -> ->. f_equal; [f_equal|]; lia.
Qed.

(** The decimal numerals of the examples are binary64 values, the ones
    that the interpreter prints as 0.07, 0.35000000000000003, 1.2, 0.5,
    0.99, 250, 1250, 1000, -500, 0.028000000000000004 and 0.028. *)
Lemma example_floats :
  Forall (fun xy : float * PrimFloat.float =>
            PyFloat.valid xy.1 = true /\ SF2Prim xy.1 = xy.2)
    [ (PyFloat.of_decimal false 7 2, 0x1.1eb851eb851ecp-4%float);
      (PyFloat.of_decimal false 35000000000000003 17, 0x1.6666666666667p-2%float);
      (PyFloat.of_decimal false 120 2, 0x1.3333333333333p+0%float);
      (PyFloat.of_decimal false 50 2, 0x1p-1%float);
      (PyFloat.of_decimal false 99 2, 0x1.fae147ae147aep-1%float);
      (PyFloat.of_decimal false 250 0, 0x1.f4p+7%float);
      (PyFloat.of_decimal false 1250 0, 0x1.388p+10%float);
      (PyFloat.of_decimal false 1000 0, 0x1.f4p+9%float);
      (PyFloat.of_decimal true 500 0, (-0x1.f4p+8)%float);
      (PyFloat.of_decimal false 28000000000000004 18, 0x1.cac083126e97ap-6%float);
      (PyFloat.of_decimal false 28 3, 0x1.cac083126e979p-6%float) ].
Proof. repeat constructor; vm_compute; reflexivity. Qed.

(** ** The ranking *)

Lemma comprehension_pure {A : Type} (p : A -> bool) (cond : A -> result bool)
    (l : list A) :
  (forall i, cond i = Ok (p i)) -> comprehension cond l = Ok (List.filter p l).
Proof.
  intros Hc. induction l as [|i l IH]; simpl; [reflexivity|].
  rewrite Hc, IH. simpl. destruct (p i); reflexivity.
Qed.

Lemma get_cheapest_nil : get_cheapest_item_from_sorted [] = Ok [].
Proof. reflexivity. Qed.

Lemma get_cheapest_cons first rest :
  get_cheapest_item_from_sorted (first :: rest) =
  Ok (List.filter (same_unit_price first) (first :: rest)).
Proof.
  unfold get_cheapest_item_from_sorted.
  apply comprehension_pure. intros i. reflexivity.
Qed.

(** [get_cheapest_item_from_sorted] never raises. *)
Lemma get_cheapest_total l : exists c, get_cheapest_item_from_sorted l = Ok c.
Proof.
  destruct l as [|first rest]; [exists []; reflexivity|].
  eexists. apply get_cheapest_cons.
Qed.

Lemma rank_cons first rest :
  rank (first :: rest) =
  let cheapest := List.filter (same_unit_price first) (first :: rest) in
  Ok (cheapest, skipn (List.length cheapest) (first :: rest)).
Proof. unfold rank. rewrite get_cheapest_cons. reflexivity. Qed.

Lemma rank_total l : exists cheapest others, rank l = Ok (cheapest, others).
Proof.
  destruct l as [|first rest]; [exists [], []; reflexivity|].
  rewrite rank_cons. eauto.
Qed.

Lemma filter_all_false {A : Type} (p : A -> bool) (l : list A) :
  (forall x, p x = false) -> List.filter p l = [].
Proof.
  intros H. induction l as [|x l IH]; simpl; [reflexivity|].
  rewrite H. exact IH.
Qed.

Lemma filter_idem {A : Type} (p : A -> bool) (l : list A) :
  List.filter p (List.filter p l) = List.filter p l.
Proof.
  induction l as [|x l IH]; simpl; [reflexivity|].
  destruct (p x) eqn:E; simpl; [rewrite E, IH|]; auto.
Qed.

Lemma filter_none {A : Type} (p : A -> bool) (l : list A) :
  (forall x, x ∈ l -> p x = false) -> List.filter p l = [].
Proof.
  induction l as [|x l IH]; intros H; simpl; [reflexivity|].
  rewrite (H x) by left. apply IH. intros y Hy. apply H. right. exact Hy.
Qed.

Lemma leb_refl (x : float) : PyFloat.is_nan x = false -> PyFloat.leb x x = true.
Proof.
  intros H. apply leb_key. repeat split; try exact H.
  rewrite (proj2 (lex3_Eq _ _) eq_refl). discriminate.
Qed.

(** On input in ascending order, the records equal to [first] form a
    prefix: taking them out and skipping as many splits the input. *)
Lemma ascending_prefix (first : GroceryPrice.t) (l : list GroceryPrice.t) :
  (forall x, x ∈ l ->
     PyFloat.leb (GroceryPrice.unit_price first) (GroceryPrice.unit_price x)
     = true) ->
  ascending l ->
  let cheapest := List.filter (same_unit_price first) l in
  cheapest ++ skipn (List.length cheapest) l = l /\
  List.filter (same_unit_price first) (skipn (List.length cheapest) l) = [].
Proof.
  cbv zeta. induction l as [|a l IH]; intros Hmin Hasc; [split; reflexivity|].
  apply StronglySorted_inv in Hasc as [Hasc Ha].
  rewrite Forall_forall in Ha.
  cbn [List.filter]. destruct (same_unit_price first a) eqn:Hpa.
  - cbn [List.length skipn]. destruct IH as [IH1 IH2]; [|exact Hasc|].
    + intros x Hx. apply Hmin. right. exact Hx.
    + split; [|exact IH2]. rewrite <- app_comm_cons. f_equal. exact IH1.
  - assert (Hnone : List.filter (same_unit_price first) l = []).
    { apply filter_none. intros x Hx.
      destruct (same_unit_price first x) eqn:Hpx; [|reflexivity].
      rewrite <- Hpa. symmetry. unfold same_unit_price in *.
      apply (eqb_between _ _ (GroceryPrice.unit_price x)); auto.
      apply Hmin. left. }
    rewrite Hnone. cbn [List.length skipn app List.filter].
    rewrite Hpa, Hnone. split; reflexivity.
Qed.

(** What the ranking does on input in ascending order of unit price, the
    order that the name [get_cheapest_item_from_sorted] asks for: the
    first record has the least unit price, [cheapest] holds exactly the
    records with that unit price, and [others] is the rest, so that the
    two outputs split the input. *)
Lemma rank_ascending (first : GroceryPrice.t) (rest : list GroceryPrice.t) :
  ascending (first :: rest) ->
  exists cheapest others,
    rank (first :: rest) = Ok (cheapest, others) /\
    cheapest ++ others = first :: rest /\
    (forall x, x ∈ rest ->
       PyFloat.leb (GroceryPrice.unit_price first) (GroceryPrice.unit_price x)
       = true) /\
    (forall x, x ∈ cheapest <->
       x ∈ first :: rest /\
       PyFloat.eqb (GroceryPrice.unit_price x) (GroceryPrice.unit_price first)
       = true) /\
    (forall x, x ∈ others ->
       PyFloat.eqb (GroceryPrice.unit_price x) (GroceryPrice.unit_price first)
       = false).
Proof.
  intros Hasc. rewrite rank_cons. cbv zeta.
  pose proof Hasc as Hinv. apply StronglySorted_inv in Hinv as [_ Hmin].
  rewrite Forall_forall in Hmin.
  set (l := first :: rest) in *.
  set (cheapest := List.filter (same_unit_price first) l).
  assert (Hsplit :
    cheapest ++ skipn (List.length cheapest) l = l /\
    List.filter (same_unit_price first) (skipn (List.length cheapest) l) = []).
  { destruct (PyFloat.is_nan (GroceryPrice.unit_price first)) eqn:Hnan.
    - assert (Hc : cheapest = []).
      { apply filter_all_false. intros x. apply eqb_nan_r, Hnan. }
      rewrite Hc. cbn [List.length skipn app]. split; [reflexivity|exact Hc].
    - apply ascending_prefix; [|exact Hasc].
      intros x Hx. apply elem_of_cons in Hx as [->|Hx];
        [apply leb_refl, Hnan|auto]. }
  destruct Hsplit as [Happ Hnone].
  exists cheapest, (skipn (List.length cheapest) l).
  split; [reflexivity|]. split; [exact Happ|]. split; [exact Hmin|]. split.
  - intros x. unfold cheapest.
    rewrite !list_elem_of_In, filter_In. reflexivity.
  - intros x Hx.
    destruct (PyFloat.eqb (GroceryPrice.unit_price x)
                (GroceryPrice.unit_price first)) eqn:E; [|reflexivity].
    assert (Hin : In x (List.filter (same_unit_price first)
                          (skipn (List.length cheapest) l))).
    { apply filter_In. split; [apply list_elem_of_In, Hx|exact E]. }
    rewrite Hnone in Hin. destruct Hin.
Qed.

(** C7: applied to the empty sequence, the ranking returns two empty
    sequences and raises nothing, although [sorted_list[0]] does not
    exist. *)
Theorem rank_empty :
  rank [] = Ok ([], []) /\
  get_cheapest_item_from_sorted [] = Ok [] /\
  subscript (@nil GroceryPrice.t) 0 = Raise IndexError.
Proof. repeat split; reflexivity. Qed.

(** C8: the ranking always returns, and ranking its [cheapest] output
    again gives that whole sequence as [cheapest] and no [others]. *)
Theorem rank_idempotent (filtered : list GroceryPrice.t) :
  exists cheapest others,
    rank filtered = Ok (cheapest, others) /\
    rank cheapest = Ok (cheapest, []).
Proof.
  destruct filtered as [|first rest].
  { exists [], []. split; reflexivity. }
  rewrite rank_cons. cbv zeta.
  set (cheapest := List.filter (same_unit_price first) (first :: rest)).
  exists cheapest, (skipn (List.length cheapest) (first :: rest)).
  split; [reflexivity|].
  destruct (same_unit_price first first) eqn:Hfirst.
  - assert (Hc : cheapest = first :: List.filter (same_unit_price first) rest).
    { unfold cheapest. simpl. rewrite Hfirst. reflexivity. }
    rewrite Hc at 1. rewrite rank_cons. cbv zeta. rewrite <- Hc.
    unfold cheapest at 1 2. rewrite filter_idem. fold cheapest.
    rewrite skipn_all. reflexivity.
  - assert (Hnan : PyFloat.is_nan (GroceryPrice.unit_price first) = true).
    { destruct (PyFloat.is_nan (GroceryPrice.unit_price first)) eqn:E; auto.
      unfold same_unit_price in Hfirst. rewrite eqb_refl in Hfirst; auto. }
    assert (Hc : cheapest = []).
    { apply filter_all_false. intros x. apply eqb_nan_r, Hnan. }
    rewrite Hc. reflexivity.
Qed.

(** The milk sheet loads into one group of two records, Tesco first, with
    unit prices 1.2 (the binary64 number 0x1.3333333333333p+0) and 1.0. *)
Lemma milk_sheet_loads :
  read_prices_from_sheet decimal_float decimal_int milk_sheet =
  Ok [("Milk", [tesco_milk; aldi_milk])].
Proof. vm_compute. reflexivity. Qed.

Lemma milk_unit_prices :
  SF2Prim (GroceryPrice.unit_price tesco_milk) = 0x1.3333333333333p+0%float /\
  SF2Prim (GroceryPrice.unit_price aldi_milk) = 1%float.
Proof. split; vm_compute; reflexivity. Qed.

(** C1, as the code behaves: the milk sheet loads with the Tesco record
    (unit price 1.2) before the Aldi record (unit price 1.0), the search
    for Milk hands them to the ranking in that order, and the ranking
    compares with the first record, not with the minimum: [cheapest] is
    the Tesco record, and the cheaper Aldi record lands in [others]. *)
Theorem rank_milk_compares_with_first :
  exists prices,
    read_prices_from_sheet decimal_float decimal_int milk_sheet = Ok prices /\
    filtered_items prices "Milk" [] = [tesco_milk; aldi_milk] /\
    PyFloat.ltb (GroceryPrice.unit_price aldi_milk)
                (GroceryPrice.unit_price tesco_milk) = true /\
    search prices "Milk" [] = Ok ([tesco_milk], [aldi_milk]).
Proof. eexists. repeat split; vm_compute; reflexivity. Qed.

(** C2, as the code behaves: with unit prices 1.00, 2.00, 1.00 in that
    order, [cheapest] holds the first and third records and [others] is
    the input without its first two records: the second record is in
    neither output and the third is in both. *)
Theorem rank_drops_and_repeats :
  let a := litre "Tesco" 100 in
  let b := litre "Asda" 200 in
  let c := litre "Aldi" 100 in
  read_prices_from_sheet decimal_float decimal_int litre_sheet
    = Ok [("Milk", [a; b; c])] /\
  search [("Milk", [a; b; c])] "Milk" [] = Ok ([a; c], [c]) /\
  (b ∉ [a; c]) /\ (b ∉ [c]) /\ (c ∈ [a; c]) /\ (c ∈ [c]).
Proof.
  cbv zeta. split; [vm_compute; reflexivity|].
  split; [vm_compute; reflexivity|].
  repeat split; rewrite ?elem_of_cons, ?elem_of_nil; try tauto;
    intros H; repeat destruct H as [H|H]; try discriminate H; auto.
Qed.

(** ** The tag filter *)

(** What one catalog entry contributes to [filtered_items]. *)
Lemma filter_group_app selected_item selected_tags acc k items :
  filter_group selected_item selected_tags acc (k, items) =
  acc ++
  (if negb (String.eqb selected_item "") && negb (String.eqb k selected_item)
   then []
   else match selected_tags with
        | [] => items
        | _ :: _ =>
            List.filter (fun item => tags_match item selected_tags) items
        end).
Proof.
  unfold filter_group.
  destruct (negb (String.eqb selected_item "") &&
            negb (String.eqb k selected_item));
    [symmetry; apply app_nil_r|].
  destruct selected_tags as [|t ts]; [reflexivity|].
  generalize (t :: ts) as sel. intros sel. revert acc.
  induction items as [|item items IH]; intros acc; simpl.
  - symmetry; apply app_nil_r.
  - rewrite IH. destruct (tags_match item sel); simpl.
    + rewrite <- app_assoc. reflexivity.
    + reflexivity.
Qed.

Lemma fold_filter_group_elem selected_item selected_tags prices acc item :
  item ∈ fold_left (filter_group selected_item selected_tags) prices acc <->
  item ∈ acc \/
  exists k items,
    (k, items) ∈ prices /\ item ∈ filter_group selected_item selected_tags [] (k, items).
Proof.
  revert acc.
  induction prices as [|[k items] prices IH]; intros acc; cbn [fold_left].
  - split; [auto|]. intros [H|(k & items & H & _)]; [exact H|].
    apply elem_of_nil in H. contradiction.
  - rewrite IH, filter_group_app, elem_of_app. split.
    + intros [[H|H]|(k' & items' & Hin & H)]; auto.
      * right. exists k, items. split; [left|].
        rewrite filter_group_app. exact H.
      * right. exists k', items'. split; [right; exact Hin|exact H].
    + intros [H|(k' & items' & Hin & H)]; auto.
      apply elem_of_cons in Hin as [Heq|Hin].
      * injection Heq as -> ->. rewrite filter_group_app in H. auto.
      * right. exists k', items'. auto.
Qed.

(** The number of values that [intersect1d] returns is the cardinality of
    the intersection of its arguments, taken as sets. *)
Lemma length_intersect1d (ar1 ar2 : list string) :
  List.length (intersect1d ar1 ar2) =
  size (list_to_set ar1 ∩ list_to_set ar2 : gset string).
Proof.
  unfold intersect1d.
  rewrite (Permutation_length (merge_sort_Permutation String.le _)).
  rewrite <- (size_list_to_set (C := gset string))
    by apply NoDup_remove_dups.
  f_equal. apply set_eq. intros x.
  rewrite elem_of_list_to_set, elem_of_remove_dups, list_elem_of_filter.
  rewrite elem_of_intersection, !elem_of_list_to_set. tauto.
Qed.

Lemma tags_match_size item selected_tags :
  tags_match item selected_tags = true <->
  size (list_to_set (GroceryPrice.tags item) ∩ list_to_set selected_tags
        : gset string) = List.length selected_tags.
Proof.
  unfold tags_match. rewrite Nat.eqb_eq, length_intersect1d. reflexivity.
Qed.

(** When no required tag is listed twice, the test says that every
    required tag is among the tags of the record. *)
Lemma tags_match_superset item selected_tags :
  NoDup selected_tags ->
  tags_match item selected_tags = true <->
  (forall t, t ∈ selected_tags -> t ∈ GroceryPrice.tags item).
Proof.
  intros Hnd. rewrite tags_match_size.
  rewrite <- (size_list_to_set (C := gset string) selected_tags Hnd).
  set (T := list_to_set (GroceryPrice.tags item) : gset string).
  set (R := list_to_set selected_tags : gset string).
  split.
  - intros Hsize t Ht.
    assert (Heq : T ∩ R = R).
    { apply set_subseteq_size_eq; [apply intersection_subseteq_r|lia]. }
    assert (HtR : t ∈ R) by (apply elem_of_list_to_set; exact Ht).
    rewrite <- Heq in HtR. apply elem_of_intersection in HtR as [HtT _].
    apply elem_of_list_to_set in HtT. exact HtT.
  - intros Hall. f_equal. apply set_eq. intros t.
    rewrite elem_of_intersection. unfold T, R.
    rewrite !elem_of_list_to_set. split; [tauto|auto].
Qed.

Lemma elem_of_filter_group selected_item selected_tags k items item :
  selected_tags <> [] ->
  item ∈ filter_group selected_item selected_tags [] (k, items) <->
  (selected_item = "" \/ k = selected_item) /\ item ∈ items /\
  tags_match item selected_tags = true.
Proof.
  intros Hne. rewrite filter_group_app. simpl.
  destruct (String.eqb_spec selected_item "") as [Hs|Hs];
    destruct (String.eqb_spec k selected_item) as [Hk|Hk]; simpl;
    destruct selected_tags as [|t ts]; try contradiction;
    rewrite ?list_elem_of_In, ?filter_In, <- ?list_elem_of_In;
    try (split; [intros [? ?]; auto | intros (_ & ? & ?); auto]).
  split; [intros H; apply elem_of_nil in H; contradiction|].
  intros ([?|?] & _); congruence.
Qed.

(** C4: with a non-empty list of required tags, a record is kept exactly
    when it belongs to a scanned group and the intersection of its tags
    with the required tags, as sets, has as many elements as there are
    required tags; so with required tags A and B, a record that matches A
    alone is never returned. *)
Theorem tag_filter_requires_all_tags (prices : catalog)
    (selected_item : string) (selected_tags : list string)
    (item : GroceryPrice.t) :
  selected_tags <> [] ->
  (item ∈ filtered_items prices selected_item selected_tags <->
   exists k items,
     (k, items) ∈ prices /\
     (selected_item = "" \/ k = selected_item) /\
     item ∈ items /\
     size (list_to_set (GroceryPrice.tags item) ∩ list_to_set selected_tags
           : gset string) = List.length selected_tags) /\
  (forall A B : string,
     A <> B -> selected_tags = [A; B] ->
     (list_to_set (GroceryPrice.tags item) ∩ {[A; B]} : gset string) = {[A]} ->
     item ∉ filtered_items prices selected_item selected_tags).
Proof.
  intros Hne.
  assert (Hiff :
    item ∈ filtered_items prices selected_item selected_tags <->
    exists k items,
      (k, items) ∈ prices /\
      (selected_item = "" \/ k = selected_item) /\
      item ∈ items /\
      size (list_to_set (GroceryPrice.tags item) ∩ list_to_set selected_tags
            : gset string) = List.length selected_tags).
  { unfold filtered_items. rewrite fold_filter_group_elem. split.
    - intros [H|(k & items & Hin & H)]; [apply elem_of_nil in H; contradiction|].
      apply elem_of_filter_group in H as (Hk & Hi & Hm); [|exact Hne].
      exists k, items. rewrite <- tags_match_size. auto.
    - intros (k & items & Hin & Hk & Hi & Hm). right. exists k, items.
      split; [exact Hin|]. apply elem_of_filter_group; [exact Hne|].
      rewrite tags_match_size. auto. }
  split; [exact Hiff|].
  intros A B HAB -> Honly Hin.
  apply Hiff in Hin as (k & items & _ & _ & _ & Hsize).
  rewrite !list_to_set_cons, list_to_set_nil, (right_id_L ∅ (∪)) in Hsize.
  rewrite Honly, size_singleton in Hsize. discriminate.
Qed.

Lemma tag_filter_requires_all_tags_witness :
  ["noodles"; "udon"] <> [] /\
  (tagged "Ramen" ["noodles"]
     ∉ filtered_items noodle_catalog "" ["noodles"; "udon"]).
Proof.
  assert (Hne : ["noodles"; "udon"] <> []) by discriminate.
  split; [exact Hne|].
  apply (proj2 (tag_filter_requires_all_tags noodle_catalog ""
                  ["noodles"; "udon"] (tagged "Ramen" ["noodles"]) Hne)
           "noodles" "udon"); [discriminate|reflexivity|].
  apply set_eq. intros x.
  change (GroceryPrice.tags (tagged "Ramen" ["noodles"])) with ["noodles"].
  rewrite elem_of_intersection, elem_of_list_to_set, elem_of_union,
    !elem_of_singleton, list_elem_of_singleton.
  split; [tauto|intros ->; auto].
Defined.

(** The tags noodles select the first two items of the noodle catalog,
    and the two records, at the same unit price 0.99, are both cheapest. *)
Lemma noodles_search :
  search noodle_catalog "" ["noodles"] =
  Ok ([tagged "Udon" ["noodles"; "udon"]; tagged "Ramen" ["noodles"]], []).
Proof. vm_compute. reflexivity. Qed.

(** ** Loops and the catalog *)

Lemma for_each_invariant {A S : Type} (P : S -> Prop) (Q : A -> Prop)
    (body : A -> S -> result S) (l : list A) :
  (forall x s s', Q x -> P s -> body x s = Ok s' -> P s') ->
  forall s s', Forall Q l -> P s -> for_each l body s = Ok s' -> P s'.
Proof.
  intros Hstep. induction l as [|x l IH]; intros s s' HQ HP H; simpl in H.
  - injection H as <-. exact HP.
  - inv_bind H. inversion HQ as [|? ? Hx Hl]; subst. eauto.
Qed.

Lemma for_each_raises {A S : Type} (body : A -> S -> result S) (l : list A)
    (x : A) :
  x ∈ l -> (forall s, exists e, body x s = Raise e) ->
  forall s, exists e, for_each l body s = Raise e.
Proof.
  intros Hin Hx. induction l as [|y l IH]; intros s.
  - apply elem_of_nil in Hin. contradiction.
  - simpl. apply elem_of_cons in Hin as [<-|Hin].
    + destruct (Hx s) as [e ->]. eauto.
    + destruct (body y s) as [s1|e]; simpl; eauto.
Qed.

Lemma contains_keys (prices : catalog) (k : string) :
  contains prices k = true <-> k ∈ keys prices.
Proof.
  unfold contains, keys. induction prices as [|[k' v] prices IH]; simpl.
  - split; [discriminate|]. intros H. apply elem_of_nil in H. contradiction.
  - rewrite orb_true_iff, IH, elem_of_cons, String.eqb_eq.
    split; intros [H|H]; auto.
Qed.

Lemma getitem_setitem_eq (prices : catalog) k v :
  getitem (setitem prices k v) k = Ok v.
Proof.
  induction prices as [|[k' v'] prices IH]; simpl.
  - rewrite String.eqb_refl. reflexivity.
  - destruct (String.eqb k' k) eqn:E; simpl; rewrite E; auto.
Qed.

Lemma getitem_setitem_ne (prices : catalog) k k' v :
  k <> k' -> getitem (setitem prices k v) k' = getitem prices k'.
Proof.
  intros Hne. induction prices as [|[k0 v0] prices IH]; simpl.
  - destruct (String.eqb_spec k k'); [contradiction|reflexivity].
  - destruct (String.eqb_spec k0 k) as [->|Hk]; simpl.
    + destruct (String.eqb_spec k k'); [contradiction|reflexivity].
    + rewrite IH. reflexivity.
Qed.

Lemma getitem_elem (prices : catalog) k v :
  getitem prices k = Ok v -> (k, v) ∈ prices.
Proof.
  induction prices as [|[k' v'] prices IH]; simpl; [discriminate|].
  destruct (String.eqb_spec k' k) as [->|Hk].
  - intros [= ->]. left.
  - intros H. right. auto.
Qed.

Lemma elem_of_setitem (prices : catalog) k v k' v' :
  (k', v') ∈ setitem prices k v -> (k', v') ∈ prices \/ (k' = k /\ v' = v).
Proof.
  induction prices as [|[k0 v0] prices IH]; simpl.
  - intros H. apply list_elem_of_singleton in H. injection H as -> ->. auto.
  - destruct (String.eqb_spec k0 k) as [->|Hk];
      intros H; apply elem_of_cons in H as [H|H].
    + injection H as -> ->. auto.
    + left. right. exact H.
    + left. rewrite H. left.
    + destruct (IH H) as [H'|H']; [left; right; exact H'|auto].
Qed.

Lemma keys_setitem (prices : catalog) k v k' :
  k' ∈ keys (setitem prices k v) <-> k' ∈ keys prices \/ k' = k.
Proof.
  unfold keys. induction prices as [|[k0 v0] prices IH]; simpl.
  - rewrite list_elem_of_singleton, elem_of_nil. tauto.
  - destruct (String.eqb_spec k0 k) as [->|Hk]; simpl;
      rewrite !elem_of_cons; [|rewrite IH]; tauto.
Qed.

(** ** Records keep the unit price they were built with *)

Lemma init_derived name tags size denominator unit branch price r :
  GroceryPrice.__init__ name tags size denominator unit branch price = Ok r ->
  r = GroceryPrice.Build name tags size denominator unit branch price
        (GroceryPrice.unit_price r) /\
  derived r.
Proof.
  unfold GroceryPrice.__init__, derived. intros H. inv_bind H.
  injection H as <-. simpl. auto.
Qed.

Section ReadPricesFacts.

Variable float_of_str : string -> option float.
Variable int_of_str : string -> option Z.

Local Abbreviation read_cell := (read_cell float_of_str int_of_str).
Local Abbreviation read_row := (read_row float_of_str int_of_str).
Local Abbreviation read_prices_from_sheet :=
  (read_prices_from_sheet float_of_str int_of_str).

Lemma read_cell_derived header row g options i prices prices' :
  catalog_derived prices ->
  read_cell header row g options i prices = Ok prices' ->
  catalog_derived prices'.
Proof.
  unfold read_cell. intros Hinv H. inv_bind H.
  destruct (String.eqb a ""); [injection H as <-; exact Hinv|].
  repeat inv_bind H. injection H as <-.
  intros k items r Hin Hr.
  apply elem_of_setitem in Hin as [Hin|[-> ->]]; [eauto|].
  apply elem_of_app in Hr as [Hr|Hr].
  - apply getitem_elem in Ha0. eauto.
  - apply list_elem_of_singleton in Hr as ->.
    eapply init_derived; eauto.
Qed.

Lemma read_row_derived header row prices prices' :
  catalog_derived prices ->
  read_row header row prices = Ok prices' ->
  catalog_derived prices'.
Proof.
  unfold read_row. intros Hinv H. do 2 inv_bind H.
  revert H.
  apply (for_each_invariant catalog_derived (fun _ => True)).
  - intros x s s' _. apply read_cell_derived.
  - apply Forall_forall. auto.
  - destruct (contains prices a); [exact Hinv|].
    intros k items r Hin Hr.
    apply elem_of_setitem in Hin as [Hin|[-> ->]]; [eauto|].
    apply elem_of_nil in Hr. contradiction.
Qed.

Lemma read_prices_derived data prices :
  read_prices_from_sheet data = Ok prices -> catalog_derived prices.
Proof.
  unfold read_prices_from_sheet. intros H. inv_bind H. revert H.
  apply (for_each_invariant catalog_derived (fun _ => True)).
  - intros x s s' _. apply read_row_derived.
  - apply Forall_forall. auto.
  - intros k items r Hin. apply elem_of_nil in Hin. contradiction.
Qed.

(** Rows never remove a key, and a row adds its own item name. *)
Lemma read_cell_keys header row g options i prices prices' k :
  read_cell header row g options i prices = Ok prices' ->
  k ∈ keys prices -> k ∈ keys prices'.
Proof.
  unfold read_cell. intros H Hk. inv_bind H.
  destruct (String.eqb a ""); [injection H as <-; exact Hk|].
  repeat inv_bind H. injection H as <-.
  apply keys_setitem. auto.
Qed.

Lemma read_row_keys header row prices prices' :
  read_row header row prices = Ok prices' ->
  (forall k, k ∈ keys prices -> k ∈ keys prices') /\
  (exists g, nth_error row 0 = Some g /\ g ∈ keys prices').
Proof.
  unfold read_row. intros H. do 2 inv_bind H.
  assert (Hmono : forall p p' k,
            for_each (seq 0 (List.length row - 5))
              (read_cell header row a (split "|" a0)) p = Ok p' ->
            k ∈ keys p -> k ∈ keys p').
  { intros p p' k Hp Hk. revert Hp.
    apply (for_each_invariant (fun p => k ∈ keys p) (fun _ => True)); auto.
    - intros x s s' _ Hs Hb. eapply read_cell_keys; eauto.
    - apply Forall_forall. auto. }
  split.
  - intros k Hk. eapply Hmono; [exact H|].
    destruct (contains prices a); [exact Hk|]. apply keys_setitem. auto.
  - exists a. split.
    + unfold subscript in Ha. destruct (nth_error row 0); [|discriminate].
      injection Ha as ->. reflexivity.
    + eapply Hmono; [exact H|].
      destruct (contains prices a) eqn:E; [apply contains_keys, E|].
      apply keys_setitem. auto.
Qed.

Lemma read_rows_keys header rows prices prices' row :
  for_each rows (read_row header) prices = Ok prices' ->
  (forall k, k ∈ keys prices -> k ∈ keys prices') /\
  (row ∈ rows -> exists g, nth_error row 0 = Some g /\ g ∈ keys prices').
Proof.
  revert prices. induction rows as [|r rows IH]; intros prices H; simpl in H.
  - injection H as <-. split; [auto|].
    intros Hin. apply elem_of_nil in Hin. contradiction.
  - inv_bind H. destruct (read_row_keys _ _ _ _ Ha) as [Hmono Hown].
    destruct (IH _ H) as [Hmono' Hrest]. split; [auto|].
    intros Hin. apply elem_of_cons in Hin as [->|Hin]; [|auto].
    destruct Hown as (g & Hg & Hk). eauto.
Qed.

(** An item whose rows all have blank prices keeps an empty list. *)
Lemma read_cell_no_records header row g0 options i prices prices' g :
  (nth_error row 0 = Some g -> blank_prices row) ->
  nth_error row 0 = Some g0 ->
  no_records prices g ->
  read_cell header row g0 options i prices = Ok prices' ->
  no_records prices' g.
Proof.
  unfold read_cell. intros Hblank Hg0 Hinv H. inv_bind H.
  destruct (String.eqb_spec a "") as [->|Hne]; [injection H as <-; exact Hinv|].
  repeat inv_bind H. injection H as <-.
  destruct (String.eqb_spec g0 g) as [->|Hg].
  - exfalso. apply Hne. unfold subscript in Ha.
    destruct (nth_error row (5 + i)) eqn:E; [|discriminate].
    injection Ha as ->. eapply Hblank; eauto.
  - intros v. rewrite getitem_setitem_ne by exact Hg. apply Hinv.
Qed.

Lemma read_row_no_records header row prices prices' g :
  (nth_error row 0 = Some g -> blank_prices row) ->
  no_records prices g ->
  read_row header row prices = Ok prices' ->
  no_records prices' g.
Proof.
  unfold read_row. intros Hblank Hinv H. do 2 inv_bind H.
  assert (Hg0 : nth_error row 0 = Some a).
  { unfold subscript in Ha. destruct (nth_error row 0); [|discriminate].
    injection Ha as ->. reflexivity. }
  revert H.
  apply (for_each_invariant (fun p => no_records p g) (fun _ => True)).
  - intros x s s' _ Hs Hb. eapply read_cell_no_records; eauto.
  - apply Forall_forall. auto.
  - destruct (contains prices a); [exact Hinv|].
    intros v. destruct (String.eqb_spec a g) as [->|Hg].
    + rewrite getitem_setitem_eq. intros [= <-]. reflexivity.
    + rewrite getitem_setitem_ne by exact Hg. apply Hinv.
Qed.

Lemma read_rows_no_records header rows prices prices' g :
  (forall row, row ∈ rows -> nth_error row 0 = Some g -> blank_prices row) ->
  no_records prices g ->
  for_each rows (read_row header) prices = Ok prices' ->
  no_records prices' g.
Proof.
  revert prices. induction rows as [|r rows IH]; intros prices Hb Hinv H;
    simpl in H.
  - injection H as <-. exact Hinv.
  - inv_bind H. eapply IH; [|eapply read_row_no_records; eauto|exact H].
    + intros row Hin. apply Hb. right. exact Hin.
    + apply Hb. left.
Qed.

Lemma keys_getitem (prices : catalog) g :
  g ∈ keys prices -> exists v, getitem prices g = Ok v.
Proof.
  unfold keys. induction prices as [|[k v] prices IH]; simpl; intros H.
  - apply elem_of_nil in H. contradiction.
  - destruct (String.eqb_spec k g) as [->|Hk]; [eauto|].
    apply elem_of_cons in H as [H|H]; [congruence|auto].
Qed.

(** A row with a priced cell and a size that is zero makes the row, and so
    the whole load, raise. *)
Lemma read_cell_zero_size header row g options i prices cell size_cell size :
  nth_error row (5 + i) = Some cell -> cell <> "" ->
  nth_error row 2 = Some size_cell ->
  float_of_str size_cell = Some size ->
  PyFloat.eqb size PyFloat.zero = true ->
  exists e, read_cell header row g options i prices = Raise e.
Proof.
  intros Hcell Hne Hsc Hsize Hzero. unfold read_cell, subscript.
  rewrite Hcell. cbn [bind of_option].
  destruct (String.eqb_spec cell "") as [?|_]; [contradiction|].
  destruct (getitem prices g) as [items|e]; cbn [bind of_option]; [|eauto].
  rewrite Hsc. cbn [bind of_option]. rewrite Hsize. cbn [bind of_option].
  destruct (nth_error row 3) as [dc|]; cbn [bind of_option]; [|eauto].
  destruct (int_of_str dc) as [den|]; cbn [bind of_option]; [|eauto].
  destruct (nth_error row 4) as [u|]; cbn [bind of_option]; [|eauto].
  destruct (nth_error header (5 + i)) as [b|]; cbn [bind of_option]; [|eauto].
  destruct (float_of_str cell) as [p|]; cbn [bind of_option]; [|eauto].
  unfold GroceryPrice.__init__, GroceryPrice.__post_init__, PyFloat.mul_int.
  destruct (PyFloat.of_int den) as [d|e]; cbn [bind of_option]; [|eauto].
  unfold PyFloat.div. rewrite Hzero. cbn [bind of_option]. eauto.
Qed.

Lemma read_row_zero_size header row i prices cell size_cell size :
  nth_error row (5 + i) = Some cell -> cell <> "" ->
  nth_error row 2 = Some size_cell ->
  float_of_str size_cell = Some size ->
  PyFloat.eqb size PyFloat.zero = true ->
  exists e, read_row header row prices = Raise e.
Proof.
  intros Hcell Hne Hsc Hsize Hzero. unfold read_row.
  destruct (subscript row 0) as [g|e]; simpl; [|eauto].
  destruct (subscript row 1) as [o|e]; simpl; [|eauto].
  apply (for_each_raises _ _ i).
  - apply list_elem_of_In, in_seq.
    assert (5 + i < List.length row)%nat
      by (apply nth_error_Some; rewrite Hcell; discriminate).
    lia.
  - intros s. eapply read_cell_zero_size; eauto.
Qed.

End ReadPricesFacts.

(** ** What the search hands on comes from the catalog *)

Lemma filtered_items_from_catalog prices selected_item selected_tags r :
  r ∈ filtered_items prices selected_item selected_tags ->
  exists k items, (k, items) ∈ prices /\ r ∈ items.
Proof.
  unfold filtered_items. rewrite fold_filter_group_elem.
  intros [H|(k & items & Hin & H)]; [apply elem_of_nil in H; contradiction|].
  exists k, items. split; [exact Hin|].
  rewrite filter_group_app in H. simpl in H.
  destruct (negb (String.eqb selected_item "") &&
            negb (String.eqb k selected_item));
    [apply elem_of_nil in H; contradiction|].
  destruct selected_tags; [exact H|].
  apply list_elem_of_In, filter_In in H as [H _]. apply list_elem_of_In, H.
Qed.

Lemma rank_from_input l cheapest others r :
  rank l = Ok (cheapest, others) -> r ∈ cheapest \/ r ∈ others -> r ∈ l.
Proof.
  destruct l as [|first rest].
  - intros [= <- <-] [H|H]; exact H.
  - rewrite rank_cons. cbv zeta. generalize (first :: rest) as l.
    intros l [= <- <-] [H|H].
    + apply list_elem_of_In, filter_In in H as [H _]. apply list_elem_of_In, H.
    + apply list_elem_of_In. apply list_elem_of_In in H.
      rewrite <- (firstn_skipn
        (List.length (List.filter (same_unit_price first) l)) l).
      apply in_or_app. right. exact H.
Qed.

(** C9: the [unit_price] of a record is the value of
    [price * denominator / size] computed by [__post_init__] when the
    record is built, and it is still that value for every record of the
    loaded catalog and of the sequences that the search displays. *)
Theorem unit_price_is_derived (float_of_str : string -> option float)
    (int_of_str : string -> option Z) :
  (forall name tags size denominator unit branch price r,
     GroceryPrice.__init__ name tags size denominator unit branch price = Ok r ->
     r = GroceryPrice.Build name tags size denominator unit branch price
           (GroceryPrice.unit_price r) /\
     exists d,
       PyFloat.of_int denominator = Ok d /\
       PyFloat.eqb size PyFloat.zero = false /\
       GroceryPrice.unit_price r =
         SFdiv PyFloat.prec PyFloat.emax
           (SFmul PyFloat.prec PyFloat.emax price d) size) /\
  (forall data prices,
     read_prices_from_sheet float_of_str int_of_str data = Ok prices ->
     (forall k items r, (k, items) ∈ prices -> r ∈ items -> derived r) /\
     (forall selected_item selected_tags cheapest others r,
        search prices selected_item selected_tags = Ok (cheapest, others) ->
        r ∈ filtered_items prices selected_item selected_tags \/
        r ∈ cheapest \/ r ∈ others ->
        derived r)).
Proof.
  split.
  - intros name tags size denominator unit branch price r H.
    destruct (init_derived _ _ _ _ _ _ _ _ H) as [Hr Hd]. split; [exact Hr|].
    rewrite Hr in Hd. unfold derived in Hd. cbn in Hd.
    unfold GroceryPrice.__post_init__, PyFloat.mul_int in Hd.
    destruct (PyFloat.of_int denominator) as [d|e]; [|discriminate].
    cbn [bind] in Hd. unfold PyFloat.div in Hd.
    destruct (PyFloat.eqb size PyFloat.zero); [discriminate|].
    injection Hd as Hd. exists d. auto.
  - intros data prices Hload.
    pose proof (read_prices_derived _ _ _ _ Hload) as Hinv.
    split; [exact Hinv|].
    intros selected_item selected_tags cheapest others r Hs Hr.
    assert (Hin : r ∈ filtered_items prices selected_item selected_tags).
    { destruct Hr as [Hr|Hr]; [exact Hr|]. eapply rank_from_input; eauto. }
    apply filtered_items_from_catalog in Hin as (k & items & Hk & Hi).
    eapply Hinv; eauto.
Qed.

Lemma unit_price_is_derived_witness :
  read_prices_from_sheet decimal_float decimal_int milk_sheet
    = Ok [("Milk", [tesco_milk; aldi_milk])] /\
  search [("Milk", [tesco_milk; aldi_milk])] "Milk" []
    = Ok ([tesco_milk], [aldi_milk]) /\
  derived aldi_milk.
Proof.
  assert (Hload : read_prices_from_sheet decimal_float decimal_int milk_sheet
                  = Ok [("Milk", [tesco_milk; aldi_milk])])
    by (vm_compute; reflexivity).
  assert (Hsearch : search [("Milk", [tesco_milk; aldi_milk])] "Milk" []
                    = Ok ([tesco_milk], [aldi_milk]))
    by (vm_compute; reflexivity).
  split; [exact Hload|]. split; [exact Hsearch|].
  apply (proj2 (proj2 (unit_price_is_derived decimal_float decimal_int)
                  milk_sheet _ Hload)
           "Milk" [] [tesco_milk] [aldi_milk] aldi_milk Hsearch).
  right. right. left.
Defined.

(** C10: a data row whose branch cells are all blank still puts its item
    name into the catalog, hence into the item listing and the options of
    the item select box; the name is mapped to the empty list when no row
    of that name has a price. *)
Theorem blank_row_item_is_listed (float_of_str : string -> option float)
    (int_of_str : string -> option Z) (data : list (list string))
    (prices : catalog) (row : list string) :
  read_prices_from_sheet float_of_str int_of_str data = Ok prices ->
  row ∈ skipn 1 data ->
  blank_prices row ->
  exists g,
    nth_error row 0 = Some g /\
    g ∈ grocery_items prices /\
    g ∈ selectbox_options prices /\
    ((forall row', row' ∈ skipn 1 data -> nth_error row' 0 = Some g ->
                   blank_prices row') ->
     getitem prices g = Ok []).
Proof.
  unfold read_prices_from_sheet. intros H Hrow Hblank. inv_bind H.
  destruct (read_rows_keys _ _ _ _ _ _ row H) as [_ Hown].
  destruct (Hown Hrow) as (g & Hg & Hk).
  exists g. split; [exact Hg|]. split; [exact Hk|].
  split; [right; exact Hk|].
  intros Hall. destruct (keys_getitem _ _ Hk) as [v Hv].
  rewrite Hv. f_equal.
  eapply (read_rows_no_records _ _ _ _ _ _ g Hall); [|exact H|exact Hv].
  intros v'. discriminate.
Qed.

Lemma blank_row_item_is_listed_witness :
  let row := ["Eggs"; ""; "a dozen"; "-"; "each"; ""; ""] in
  (exists prices,
     read_prices_from_sheet decimal_float decimal_int eggs_sheet = Ok prices) /\
  row ∈ skipn 1 eggs_sheet /\
  blank_prices row /\
  exists prices g,
    read_prices_from_sheet decimal_float decimal_int eggs_sheet = Ok prices /\
    nth_error row 0 = Some g /\ g ∈ selectbox_options prices.
Proof.
  cbv zeta.
  assert (Hload : read_prices_from_sheet decimal_float decimal_int eggs_sheet
                  = Ok [("Milk", [tesco_milk; aldi_milk]); ("Eggs", [])])
    by (vm_compute; reflexivity).
  assert (Hrow : ["Eggs"; ""; "a dozen"; "-"; "each"; ""; ""] ∈ skipn 1 eggs_sheet)
    by (simpl; right; right; left).
  assert (Hblank : blank_prices ["Eggs"; ""; "a dozen"; "-"; "each"; ""; ""]).
  { intros i cell. destruct i as [|[|i]]; simpl; [congruence..|].
    destruct i; discriminate. }
  split; [eauto|]. split; [exact Hrow|]. split; [exact Hblank|].
  destruct (blank_row_item_is_listed decimal_float decimal_int eggs_sheet _ _
              Hload Hrow Hblank) as (g & Hg & _ & Hopt & _).
  eauto.
Defined.

(** ** Sizes that are zero or negative *)

(** C6, the part that fails: a negative size is not rejected.  The row of
    500 ml at 0.50 with size [-500] loads, and its record has the unit
    price [-1.0]. *)
Lemma negative_size_is_accepted :
  exists r,
    read_prices_from_sheet decimal_float decimal_int negative_size_sheet
      = Ok [("Milk", [r])] /\
    PyFloat.ltb (GroceryPrice.size r) PyFloat.zero = true /\
    PyFloat.ltb (GroceryPrice.unit_price r) PyFloat.zero = true /\
    PyFloat.eqb (GroceryPrice.unit_price r) (PyFloat.of_decimal true 1 0) = true.
Proof. eexists. repeat split; vm_compute; reflexivity. Qed.

(** Every size other than zero is accepted, negative ones included: the
    record is built, and its unit price is the rounded quotient. *)
Lemma nonzero_size_is_accepted name tags size denominator unit branch price d :
  PyFloat.eqb size PyFloat.zero = false ->
  PyFloat.of_int denominator = Ok d ->
  GroceryPrice.__init__ name tags size denominator unit branch price
  = Ok (GroceryPrice.Build name tags size denominator unit branch price
          (SFdiv PyFloat.prec PyFloat.emax
             (SFmul PyFloat.prec PyFloat.emax price d) size)).
Proof.
  intros Hnz Hd.
  unfold GroceryPrice.__init__, GroceryPrice.__post_init__, PyFloat.mul_int,
    PyFloat.div.
  rewrite Hd. cbn [bind]. rewrite Hnz. reflexivity.
Qed.

(** C6, as amended: building a record whose size is zero raises
    ([ZeroDivisionError], or [OverflowError] when the denominator is too
    large for a float), and a sheet with a priced row of size zero does
    not load. *)
Theorem zero_size_is_rejected (float_of_str : string -> option float)
    (int_of_str : string -> option Z) :
  (forall name tags size denominator unit branch price,
     PyFloat.eqb size PyFloat.zero = true ->
     exists e,
       GroceryPrice.__init__ name tags size denominator unit branch price
         = Raise e /\
       (e = ZeroDivisionError \/ e = OverflowError)) /\
  (forall data row i cell size_cell size,
     row ∈ skipn 1 data ->
     nth_error row (5 + i) = Some cell -> cell <> "" ->
     nth_error row 2 = Some size_cell ->
     float_of_str size_cell = Some size ->
     PyFloat.eqb size PyFloat.zero = true ->
     exists e, read_prices_from_sheet float_of_str int_of_str data = Raise e).
Proof.
  split.
  - intros name tags size denominator unit branch price Hzero.
    unfold GroceryPrice.__init__, GroceryPrice.__post_init__, PyFloat.mul_int.
    destruct (PyFloat.of_int denominator) as [d|e] eqn:Hd; cbn [bind].
    + unfold PyFloat.div. rewrite Hzero. cbn [bind]. eauto.
    + exists e. split; [reflexivity|]. right.
      unfold PyFloat.of_int in Hd.
      destruct (binary_normalize _ _ _ _ _); congruence.
  - intros data row i cell size_cell size Hrow Hcell Hne Hsc Hsize Hzero.
    unfold read_prices_from_sheet.
    destruct (subscript data 0) as [header|e]; cbn [bind]; [|eauto].
    apply (for_each_raises _ _ row Hrow). intros s.
    eapply read_row_zero_size; eauto.
Qed.

Lemma zero_size_is_rejected_witness :
  let row := ["Milk"; "dairy"; "0"; "1000"; "ml"; "0.50"] in
  row ∈ skipn 1 zero_size_sheet /\
  nth_error row (5 + 0) = Some "0.50" /\ "0.50" <> "" /\
  nth_error row 2 = Some "0" /\
  decimal_float "0" = Some PyFloat.zero /\
  PyFloat.eqb PyFloat.zero PyFloat.zero = true /\
  exists e,
    read_prices_from_sheet decimal_float decimal_int zero_size_sheet = Raise e.
Proof.
  cbv zeta.
  assert (Hrow : ["Milk"; "dairy"; "0"; "1000"; "ml"; "0.50"]
                 ∈ skipn 1 zero_size_sheet) by (simpl; left).
  assert (Hne : "0.50" <> "") by discriminate.
  repeat (split; [first [exact Hrow | exact Hne | reflexivity]|]).
  exact (proj2 (zero_size_is_rejected decimal_float decimal_int)
           zero_size_sheet _ 0%nat "0.50" "0" PyFloat.zero
           Hrow eq_refl Hne eq_refl eq_refl eq_refl).
Defined.

Lemma zero_size_sheet_raises :
  read_prices_from_sheet decimal_float decimal_int zero_size_sheet
  = Raise ZeroDivisionError.
Proof. vm_compute. reflexivity. Qed.

(** ** The unit price as a function of price and size *)







Lemma to_Q_scale2 k x :
  (PyFloat.to_Q (PyFloat.scale2 k x) == PyFloat.to_Q x * Qpower 2 k)%Q.
Proof.
  destruct x as [s|s| |s m e]; unfold PyFloat.scale2, PyFloat.to_Q; cbv zeta;
    try (rewrite Qmult_0_l; reflexivity).
  assert (E : (Qpower 2 (e + k) == Qpower 2 e * Qpower 2 k)%Q)
    by (apply Qpower_plus; discriminate).
  destruct s; rewrite E; ring.
Qed.

(** ** Rounding keeps the order

    The product and the quotient of binary64 numbers, as [SFmul] and
    [SFdiv] compute them, are the roundings of the exact results, and
    rounding to nearest is monotone. *)

Section RoundingFacts.
Local Open Scope Z_scope.

(** The number of binary digits of an integer. *)
Lemma digits2_pos_size p : digits2_pos p = Pos.size p.
Proof. induction p; simpl; congruence. Qed.

Lemma Zdigits2_log2 m : 0 < m -> Zdigits2 m = Z.log2 m + 1.
Proof.
  destruct m as [|p|p]; try lia. intros _.
  destruct p; simpl; rewrite ?digits2_pos_size; lia.
Qed.

Lemma Zdigits2_spec m : 0 < m -> 2 ^ (Zdigits2 m - 1) <= m < 2 ^ Zdigits2 m.
Proof.
  intros H. rewrite Zdigits2_log2 by exact H.
  replace (Z.log2 m + 1 - 1) with (Z.log2 m) by lia.
  apply Z.log2_spec, H.
Qed.

Lemma Zdigits2_nonneg m : 0 <= Zdigits2 m.
Proof. destruct m; simpl; lia. Qed.

Lemma Zdigits2_pos m : 0 < m -> 0 < Zdigits2 m.
Proof. destruct m; simpl; lia. Qed.

Lemma Zdigits2_unique m k : 0 < m -> 2 ^ (k - 1) <= m < 2 ^ k -> Zdigits2 m = k.
Proof.
  intros Hm Hk. rewrite Zdigits2_log2 by exact Hm.
  assert (0 <= k - 1).
  { destruct (Z_lt_le_dec (k - 1) 0) as [Hn|]; [|lia].
    assert (k <= 0) by lia.
    destruct (Z.eq_dec k 0) as [->|]; [simpl in Hk; lia|].
    rewrite (Z.pow_neg_r 2 k) in Hk by lia. lia. }
  rewrite (Z.log2_unique m (k - 1)); [lia|lia|].
  replace (Z.succ (k - 1)) with k by lia. exact Hk.
Qed.

Lemma Zdigits2_le_pow m k : 0 <= m -> 0 <= k -> m < 2 ^ k -> Zdigits2 m <= k.
Proof.
  intros Hm Hk Hlt. destruct (Z.eq_dec m 0) as [->|Hne]; [simpl; lia|].
  destruct (Z_le_gt_dec (Zdigits2 m) k) as [|Hgt]; [assumption|].
  pose proof (Zdigits2_spec m ltac:(lia)) as [Hlo _].
  assert (2 ^ k <= 2 ^ (Zdigits2 m - 1)) by (apply Z.pow_le_mono_r; lia).
  lia.
Qed.

Lemma Zdigits2_ge_pow m k : 2 ^ (k - 1) <= m -> 0 < k -> k <= Zdigits2 m.
Proof.
  intros Hlo Hk.
  assert (0 < m) by (pose proof (Z.pow_pos_nonneg 2 (k - 1)); lia).
  pose proof (Zdigits2_spec m H) as [_ Hhi].
  destruct (Z_le_gt_dec k (Zdigits2 m)) as [|Hgt]; [assumption|].
  assert (2 ^ Zdigits2 m <= 2 ^ (k - 1)) by (apply Z.pow_le_mono_r; lia).
  lia.
Qed.

Lemma Zdigits2_mono m n : 0 <= m <= n -> Zdigits2 m <= Zdigits2 n.
Proof.
  intros [Hm Hmn]. destruct (Z.eq_dec m 0) as [->|]; [apply Zdigits2_nonneg|].
  rewrite !Zdigits2_log2 by lia.
  pose proof (Z.log2_le_mono m n Hmn). lia.
Qed.

(** One step of the right shift: the bit that leaves becomes the round bit,
    and the old round bit joins the sticky bit. *)
Lemma shr_1_spec m r s :
  0 <= m -> shr_1 (Build_shr_record m r s) = Build_shr_record (m / 2) (Z.odd m) (r || s).
Proof.
  intros Hm. rewrite <- Z.div2_div.
  destruct m as [|p|p]; try lia; [reflexivity|].
  destruct p; reflexivity.
Qed.

Lemma div_mod_double a B :
  0 <= a -> 0 < B ->
  a / (2 * B) = (a / B) / 2 /\
  a mod (2 * B) = a mod B + B * ((a / B) mod 2).
Proof.
  intros Ha HB.
  pose proof (Z.div_mod a B ltac:(lia)) as E1.
  pose proof (Z.mod_pos_bound a B HB) as R1.
  pose proof (Z.div_mod (a / B) 2 ltac:(lia)) as E2.
  pose proof (Z.mod_pos_bound (a / B) 2 ltac:(lia)) as R2.
  set (q := a / B) in *. set (r := a mod B) in *.
  set (q2 := q / 2) in *. set (b := q mod 2) in *.
  assert (E : a = (2 * B) * q2 + (r + B * b)) by nia.
  assert (Hr : 0 <= r + B * b < 2 * B) by nia.
  split.
  - symmetry. apply (Z.div_unique_pos a (2 * B) q2 (r + B * b)); assumption.
  - symmetry. apply (Z.mod_unique_pos a (2 * B) q2 (r + B * b)); assumption.
Qed.

(** Shifting the record of [a / B] by one bit gives the record of
    [a / (2 * B)]. *)
Lemma shr_1_rec_of a B : 0 <= a -> 0 < B -> shr_1 (rec_of a B) = rec_of a (2 * B).
Proof.
  intros Ha HB. unfold rec_of.
  rewrite shr_1_spec by (apply Z.div_pos; lia).
  destruct (div_mod_double a B Ha HB) as [Ed Em]. rewrite Ed, Em.
  pose proof (Z.mod_pos_bound a B HB) as R1.
  pose proof (Z.mod_pos_bound (a / B) 2 ltac:(lia)) as R2.
  rewrite Zodd_mod.
  set (r := a mod B) in *. set (b := (a / B) mod 2) in *.
  assert (Hb : b = 0 \/ b = 1) by lia.
  f_equal.
  - destruct Hb as [-> | ->]; simpl.
    + rewrite Z.mul_0_r, Z.add_0_r. symmetry. apply Z.leb_gt. lia.
    + symmetry. apply Z.leb_le. lia.
  - destruct (Z.leb_spec B (2 * r)); destruct (Z.eqb_spec r 0);
      destruct (Z.eqb_spec (2 * r) B);
      destruct (Z.eqb_spec (r + B * b) 0);
      destruct (Z.eqb_spec (2 * (r + B * b)) (2 * B)); simpl; try reflexivity;
      destruct Hb as [-> | ->]; lia.
Qed.

Lemma rec_of_scale a B c : 0 <= a -> 0 < B -> 0 < c -> rec_of (c * a) (c * B) = rec_of a B.
Proof.
  intros Ha HB Hc. unfold rec_of.
  rewrite Z.div_mul_cancel_l by lia.
  rewrite Z.mul_mod_distr_l by lia.
  pose proof (Z.mod_pos_bound a B HB) as R1. set (r := a mod B) in *.
  f_equal.
  - destruct (Z.leb_spec (c * B) (2 * (c * r))); destruct (Z.leb_spec B (2 * r));
      try reflexivity; nia.
  - destruct (Z.eqb_spec (c * r) 0); destruct (Z.eqb_spec r 0);
      destruct (Z.eqb_spec (2 * (c * r)) (c * B)); destruct (Z.eqb_spec (2 * r) B);
      simpl; try reflexivity; nia.
Qed.

(** Shifting by [p] bits divides by [2^p]. *)
Lemma iter_pos_rec_of p a B :
  0 <= a -> 0 < B -> SpecFloat.iter_pos shr_1 p (rec_of a B) = rec_of a (B * 2 ^ Z.pos p).
Proof.
  intros Ha. revert B. induction p as [p IH|p IH|]; intros B HB; cbn [SpecFloat.iter_pos].
  - assert (P : 2 ^ Z.pos p~1 = 2 * (2 ^ Z.pos p * 2 ^ Z.pos p)).
    { rewrite <- Z.pow_add_r, <- Z.pow_succ_r by lia. f_equal. lia. }
    assert (0 < 2 ^ Z.pos p) by (apply Z.pow_pos_nonneg; lia).
    rewrite shr_1_rec_of, IH, IH by (try assumption; nia).
    f_equal. rewrite P. ring.
  - assert (P : 2 ^ Z.pos p~0 = 2 ^ Z.pos p * 2 ^ Z.pos p).
    { rewrite <- Z.pow_add_r by lia. f_equal. lia. }
    assert (0 < 2 ^ Z.pos p) by (apply Z.pow_pos_nonneg; lia).
    rewrite IH, IH by (try assumption; nia).
    f_equal. rewrite P. ring.
  - rewrite shr_1_rec_of by assumption. f_equal. simpl. lia.
Qed.

Lemma shr_record_of_loc_of r :
  shr_record_of_loc (shr_m r) (loc_of_shr_record r) = r.
Proof. destruct r as [m [|] [|]]; reflexivity. Qed.

Lemma loc_of_exact a : loc_of a 1 = loc_Exact.
Proof. unfold loc_of, rec_of. rewrite Z.mod_1_r. reflexivity. Qed.

(** The location that [SFdiv] computes from the remainder. *)
Lemma new_location_loc_of a B :
  0 <= a -> 0 < B -> new_location B (a mod B) = loc_of a B.
Proof.
  intros Ha HB. pose proof (Z.mod_pos_bound a B HB) as R.
  unfold loc_of, rec_of, loc_of_shr_record, new_location,
    new_location_even, new_location_odd.
  set (r := a mod B) in *.
  destruct (Z.even B) eqn:Ev.
  - destruct (Z.eqb_spec r 0); destruct (Z.compare_spec (2 * r) B);
      destruct (Z.leb_spec B (2 * r)); destruct (Z.eqb_spec (2 * r) B);
      simpl; try reflexivity; lia.
  - assert (Hodd : 2 * r <> B).
    { intros E. rewrite <- E, Z.even_mul in Ev. discriminate. }
    destruct (Z.eqb_spec r 0); destruct (Z.compare_spec (2 * r + 1) B);
      destruct (Z.leb_spec B (2 * r)); destruct (Z.eqb_spec (2 * r) B);
      simpl; try reflexivity; lia.
Qed.

(** Rounding to nearest, ties to even, from quotient and remainder. *)
Lemma rne_spec a B :
  0 <= a -> 0 < B ->
  rne a B =
    if 2 * (a mod B) <? B then a / B
    else if 2 * (a mod B) =? B then (if Z.even (a / B) then a / B else a / B + 1)
    else a / B + 1.
Proof.
  intros Ha HB. pose proof (Z.mod_pos_bound a B HB) as R.
  unfold rne, loc_of, rec_of, loc_of_shr_record, round_nearest_even.
  set (r := a mod B) in *. set (q := a / B).
  destruct (Z.ltb_spec (2 * r) B); destruct (Z.leb_spec B (2 * r));
    destruct (Z.eqb_spec r 0); destruct (Z.eqb_spec (2 * r) B); simpl;
    try reflexivity; lia.
Qed.

Lemma rne_bounds a B : 0 <= a -> 0 < B -> a / B <= rne a B <= a / B + 1.
Proof.
  intros Ha HB. rewrite rne_spec by assumption.
  destruct (2 * (a mod B) <? B); [lia|].
  destruct (2 * (a mod B) =? B); [|lia].
  destruct (Z.even (a / B)); lia.
Qed.

Lemma rne_exact a : rne a 1 = a.
Proof.
  unfold rne. rewrite loc_of_exact, Z.div_1_r. reflexivity.
Qed.

(** Rounding to nearest is monotone: a smaller fraction does not round to
    a larger integer. *)
Lemma rne_mono a1 B1 a2 B2 :
  0 <= a1 -> 0 < B1 -> 0 <= a2 -> 0 < B2 ->
  a1 * B2 <= a2 * B1 -> rne a1 B1 <= rne a2 B2.
Proof.
  intros Ha1 HB1 Ha2 HB2 Hle.
  pose proof (Z.div_mod a1 B1 ltac:(lia)) as E1.
  pose proof (Z.mod_pos_bound a1 B1 HB1) as R1.
  pose proof (Z.div_mod a2 B2 ltac:(lia)) as E2.
  pose proof (Z.mod_pos_bound a2 B2 HB2) as R2.
  rewrite !rne_spec by assumption.
  set (q1 := a1 / B1) in *. set (r1 := a1 mod B1) in *.
  set (q2 := a2 / B2) in *. set (r2 := a2 mod B2) in *.
  assert (Hq : q1 <= q2).
  { destruct (Z_le_gt_dec q1 q2) as [|Hgt]; [assumption|exfalso].
    assert (H1 : B1 * (q2 + 1) <= a1) by nia.
    assert (H2 : a2 < B2 * (q2 + 1)) by lia.
    assert (H3 : a2 * B1 < B2 * (q2 + 1) * B1)
      by (apply Z.mul_lt_mono_pos_r; lia).
    assert (H4 : B1 * (q2 + 1) * B2 <= a1 * B2)
      by (apply Z.mul_le_mono_nonneg_r; lia).
    lia. }
  destruct (Z.eq_dec q1 q2) as [Heq|Hne].
  - assert (Hr : r1 * B2 <= r2 * B1).
    { rewrite E1, E2, <- Heq in Hle. nia. }
    rewrite <- Heq.
    assert (F1 : B1 <= 2 * r1 -> B2 <= 2 * r2).
    { intros H. apply Z.mul_le_mono_pos_l with B1; [lia|]. nia. }
    assert (F2 : B1 < 2 * r1 -> B2 < 2 * r2).
    { intros H. apply Z.mul_lt_mono_pos_l with B1; [lia|]. nia. }
    destruct (Z.ltb_spec (2 * r1) B1); destruct (Z.ltb_spec (2 * r2) B2);
      destruct (Z.eqb_spec (2 * r1) B1); destruct (Z.eqb_spec (2 * r2) B2);
      destruct (Z.even q1); lia.
  - assert (q1 + 1 <= q2) by lia.
    destruct (2 * r1 <? B1); destruct (2 * r2 <? B2);
      destruct (2 * r1 =? B1); destruct (2 * r2 =? B2);
      destruct (Z.even q1); destruct (Z.even q2); lia.
Qed.

Lemma rne_le a B K : 0 <= a -> 0 < B -> a <= K * B -> rne a B <= K.
Proof.
  intros Ha HB H. rewrite <- (rne_exact K).
  apply rne_mono; lia.
Qed.

Lemma rne_ge a B K : 0 <= a -> 0 < B -> K * B <= a -> K <= rne a B.
Proof.
  intros Ha HB H.
  destruct (Z_lt_le_dec K 0) as [Hn|Hp].
  - pose proof (rne_bounds a B Ha HB). pose proof (Z.div_pos a B Ha HB). lia.
  - rewrite <- (rne_exact K). apply rne_mono; try lia.
Qed.

Lemma fexp_eq e : fexp PyFloat.prec PyFloat.emax e = fexp64 e.
Proof. reflexivity. Qed.

Lemma div_lt_pow a B k : 0 <= a -> 0 < B -> a / B < k -> a < k * B.
Proof.
  intros Ha HB H. destruct (Z_lt_le_dec a (k * B)) as [|Hge]; [assumption|].
  assert (k <= a / B) by (apply Z.div_le_lower_bound; lia). lia.
Qed.

(** Bringing the quotient to the exponent of its last place. *)
Lemma shr_fexp_frac a B e :
  0 <= a -> 0 < B -> e <= fexp64 (Zdigits2 (a / B) + e) ->
  shr_fexp PyFloat.prec PyFloat.emax (a / B) e (loc_of a B) =
  (rec_of a (B * 2 ^ (fexp64 (Zdigits2 (a / B) + e) - e)),
   fexp64 (Zdigits2 (a / B) + e)).
Proof.
  intros Ha HB Hpre. unfold shr_fexp. rewrite fexp_eq.
  set (E := fexp64 (Zdigits2 (a / B) + e)) in *.
  change (a / B) with (shr_m (rec_of a B)) at 1.
  unfold loc_of. rewrite shr_record_of_loc_of.
  unfold shr. destruct (E - e) as [|p|p] eqn:En; try lia.
  - rewrite Z.pow_0_r, Z.mul_1_r. f_equal. lia.
  - rewrite iter_pos_rec_of by assumption. f_equal. lia.
Qed.

Lemma rne_lt_pow a B e :
  0 <= a -> 0 < B -> e <= fexp64 (Zdigits2 (a / B) + e) ->
  0 <= rne a (B * 2 ^ (fexp64 (Zdigits2 (a / B) + e) - e)) <= 2 ^ 53.
Proof.
  intros Ha HB Hpre.
  set (E := fexp64 (Zdigits2 (a / B) + e)) in *.
  set (n := E - e). assert (Hn : 0 <= n) by (unfold n; lia).
  assert (Hp : 0 < 2 ^ n) by (apply Z.pow_pos_nonneg; lia).
  assert (HB' : 0 < B * 2 ^ n) by nia.
  split.
  - pose proof (rne_bounds a (B * 2 ^ n) Ha HB').
    pose proof (Z.div_pos a (B * 2 ^ n) Ha HB'). lia.
  - apply rne_le; try assumption.
    set (d := Zdigits2 (a / B)) in *.
    assert (Hq : a / B < 2 ^ d).
    { destruct (Z.eq_dec (a / B) 0) as [E0|Hne].
      - unfold d. rewrite E0. simpl. lia.
      - apply Zdigits2_spec. pose proof (Z.div_pos a B Ha HB). lia. }
    assert (Hd : 0 <= d) by apply Zdigits2_nonneg.
    assert (Hdn : d <= n + 53) by (unfold n, E, fexp64; lia).
    assert (2 ^ d <= 2 ^ (n + 53)) by (apply Z.pow_le_mono_r; lia).
    rewrite Z.pow_add_r in H by lia.
    pose proof (div_lt_pow a B (2 ^ d) Ha HB Hq). nia.
Qed.

(** The rounding step shared by [SFmul] and [SFdiv], applied to a
    quotient that still has all its bits. *)
Lemma binary_round_aux_frac s a B e :
  0 <= a -> 0 < B -> e <= fexp64 (Zdigits2 (a / B) + e) ->
  binary_round_aux PyFloat.prec PyFloat.emax s (a / B) e (loc_of a B)
  = round_frac s a B e.
Proof.
  intros Ha HB Hpre. unfold binary_round_aux, round_frac.
  rewrite shr_fexp_frac by assumption.
  pose proof (rne_lt_pow a B e Ha HB Hpre) as Hm1.
  set (E := fexp64 (Zdigits2 (a / B) + e)) in *.
  set (B' := B * 2 ^ (E - e)) in *.
  change (round_nearest_even (shr_m (rec_of a B')) (loc_of_shr_record (rec_of a B')))
    with (rne a B').
  set (m1 := rne a B') in *.
  assert (HE : -1074 <= E) by (unfold E, fexp64; lia).
  unfold shr_fexp. rewrite fexp_eq. cbn [shr_record_of_loc].
  destruct (Z.eqb_spec m1 (2 ^ 53)) as [Heq|Hne].
  - rewrite Heq. change (Zdigits2 (2 ^ 53)) with 54.
    replace (fexp64 (54 + E) - E) with 1 by (unfold fexp64; lia).
    cbn [shr SpecFloat.iter_pos]. rewrite shr_1_spec by lia.
    cbn [shr_m]. change (2 ^ 53 / 2) with (2 ^ 52).
    unfold fin_or_inf. change (2 ^ 52) with (Z.pos (2 ^ 52)).
    cbv iota. replace (E + 1) with (E + 1) by reflexivity.
    reflexivity.
  - assert (Hlt : m1 < 2 ^ 53) by lia.
    assert (Hd : Zdigits2 m1 <= 53) by (apply Zdigits2_le_pow; lia).
    assert (Hn2 : fexp64 (Zdigits2 m1 + E) - E <= 0) by (unfold fexp64; lia).
    unfold shr. destruct (fexp64 (Zdigits2 m1 + E) - E) as [|p|p]; try lia;
      cbn [shr_m]; unfold fin_or_inf; destruct m1; reflexivity.
Qed.



(** Above the subnormal range the rounded mantissa has 53 bits. *)
Lemma rne_normal a B e :
  0 <= a -> 0 < B -> e <= fexp64 (Zdigits2 (a / B) + e) ->
  -1074 < fexp64 (Zdigits2 (a / B) + e) ->
  2 ^ 52 <= rne a (B * 2 ^ (fexp64 (Zdigits2 (a / B) + e) - e)).
Proof.
  intros Ha HB Hpre Hn.
  pose proof (Z.div_pos a B Ha HB) as Hq.
  assert (Hne : a / B <> 0).
  { intros E0. rewrite E0 in *. simpl Zdigits2 in *. unfold fexp64 in *. lia. }
  set (d := Zdigits2 (a / B)) in *.
  assert (HE : fexp64 (d + e) = d + e - 53) by (unfold fexp64 in *; lia).
  rewrite HE in *. replace (d + e - 53 - e) with (d - 53) by lia.
  assert (Hd : 53 <= d) by lia.
  assert (Hp : 0 < 2 ^ (d - 53)) by (apply Z.pow_pos_nonneg; lia).
  apply rne_ge; try assumption; try nia.
  pose proof (Zdigits2_spec (a / B) ltac:(lia)) as [Hlo _]. fold d in Hlo.
  pose proof (Z.mul_div_le a B HB).
  assert (E : 2 ^ 52 * 2 ^ (d - 53) = 2 ^ (d - 1)).
  { rewrite <- Z.pow_add_r by lia. f_equal. lia. }
  nia.
Qed.

Section Mono.
Variables a1 B1 e1 a2 B2 e2 : Z.
Hypothesis Ha1 : 0 <= a1.
Hypothesis HB1 : 0 < B1.
Hypothesis Ha2 : 0 <= a2.
Hypothesis HB2 : 0 < B2.
Hypothesis Hpre1 : e1 <= fexp64 (Zdigits2 (a1 / B1) + e1).
Hypothesis Hpre2 : e2 <= fexp64 (Zdigits2 (a2 / B2) + e2).
Hypothesis Hval :
  a1 * B2 * 2 ^ (e1 - Z.min e1 e2) <= a2 * B1 * 2 ^ (e2 - Z.min e1 e2).

Local Abbreviation E1 := (fexp64 (Zdigits2 (a1 / B1) + e1)).
Local Abbreviation E2 := (fexp64 (Zdigits2 (a2 / B2) + e2)).




End Mono.

(** A finite float is a binary64 value when its exponent is the one of
    its last place and is in range. *)
Lemma valid_finite s m e :
  PyFloat.valid (S754_finite s m e) = true <->
  fexp64 (Zdigits2 (Z.pos m) + e) = e /\ e <= 971.
Proof.
  unfold PyFloat.valid, valid_binary, bounded, canonical_mantissa.
  rewrite andb_true_iff, Z.eqb_eq, Z.leb_le, fexp_eq. reflexivity.
Qed.

Lemma valid_finite_bounds s m e :
  PyFloat.valid (S754_finite s m e) = true ->
  -1074 <= e <= 971 /\ Zdigits2 (Z.pos m) <= 53 /\
  (Zdigits2 (Z.pos m) = 53 \/ e = -1074) /\ Z.pos m < 2 ^ 53.
Proof.
  intros H. apply valid_finite in H as [H1 H2]. unfold fexp64 in H1.
  assert (Hd : Zdigits2 (Z.pos m) <= 53) by lia.
  repeat split; try lia.
  pose proof (Zdigits2_spec (Z.pos m) ltac:(lia)) as [_ Hhi].
  assert (2 ^ Zdigits2 (Z.pos m) <= 2 ^ 53)
    by (apply Z.pow_le_mono_r; [lia|exact Hd]).
  lia.
Qed.




(** The rounded result is a binary64 value. *)
Lemma round_frac_valid s a B e :
  0 <= a -> 0 < B -> e <= fexp64 (Zdigits2 (a / B) + e) ->
  PyFloat.valid (round_frac s a B e) = true.
Proof.
  intros Ha HB Hpre. unfold round_frac. cbv zeta.
  pose proof (rne_lt_pow a B e Ha HB Hpre) as Hm1.
  set (E := fexp64 (Zdigits2 (a / B) + e)) in *.
  assert (HE : -1074 <= E) by (unfold E, fexp64; lia).
  destruct (Z.eqb_spec (rne a (B * 2 ^ (E - e))) (2 ^ 53)) as [H1|H1].
  - unfold fin_or_inf. change (2 ^ 52) with (Z.pos (2 ^ 52)). cbv iota.
    destruct (Z.leb_spec (E + 1) 971); [|reflexivity].
    apply valid_finite. split; [|assumption].
    change (Zdigits2 (Z.pos (2 ^ 52))) with 53. unfold fexp64. lia.
  - unfold fin_or_inf.
    destruct (rne a (B * 2 ^ (E - e))) as [|p|p] eqn:Em; try lia; [reflexivity|].
    destruct (Z.leb_spec E 971); [|reflexivity].
    apply valid_finite. split; [|assumption].
    assert (Hd : Zdigits2 (Z.pos p) <= 53) by (apply Zdigits2_le_pow; lia).
    destruct (Z.eq_dec E (-1074)) as [E0|Hn].
    + unfold fexp64. lia.
    + pose proof (rne_normal a B e Ha HB Hpre ltac:(fold E; lia)) as Hlo.
      fold E in Hlo. rewrite Em in Hlo.
      rewrite (Zdigits2_unique (Z.pos p) 53) by (simpl; lia).
      unfold fexp64. lia.
Qed.

(** The rounded result has the sign it was given and is not NaN. *)
Lemma round_frac_sign s a B e :
  0 <= a -> 0 < B -> e <= fexp64 (Zdigits2 (a / B) + e) ->
  match round_frac s a B e with
  | S754_zero s' | S754_infinity s' | S754_finite s' _ _ => s' = s
  | S754_nan => False
  end.
Proof.
  intros Ha HB Hpre. unfold round_frac. cbv zeta.
  pose proof (rne_lt_pow a B e Ha HB Hpre) as Hm1.
  destruct (rne a (B * 2 ^ (fexp64 (Zdigits2 (a / B) + e) - e)) =? 2 ^ 53).
  - unfold fin_or_inf. change (2 ^ 52) with (Z.pos (2 ^ 52)). cbv iota.
    destruct (_ <=? 971); reflexivity.
  - unfold fin_or_inf.
    destruct (rne a (B * 2 ^ (fexp64 (Zdigits2 (a / B) + e) - e))) as [|p|p];
      try lia; [reflexivity|]. destruct (_ <=? 971); reflexivity.
Qed.

Lemma Zdigits2_mul a b :
  0 < a -> 0 < b -> Zdigits2 a + Zdigits2 b - 1 <= Zdigits2 (a * b).
Proof.
  intros Ha Hb.
  pose proof (Zdigits2_spec a Ha) as [La _].
  pose proof (Zdigits2_spec b Hb) as [Lb _].
  pose proof (Zdigits2_pos a Ha). pose proof (Zdigits2_pos b Hb).
  apply Zdigits2_ge_pow; [|lia].
  replace (Zdigits2 a + Zdigits2 b - 1 - 1)
    with ((Zdigits2 a - 1) + (Zdigits2 b - 1)) by lia.
  rewrite Z.pow_add_r by lia.
  assert (0 < 2 ^ (Zdigits2 a - 1)) by (apply Z.pow_pos_nonneg; lia).
  assert (0 < 2 ^ (Zdigits2 b - 1)) by (apply Z.pow_pos_nonneg; lia).
  nia.
Qed.

(** [SFmul] on finite floats rounds the exact product. *)
Lemma SFmul_frac sx mx ex sy my ey :
  PyFloat.valid (S754_finite sx mx ex) = true ->
  PyFloat.valid (S754_finite sy my ey) = true ->
  SFmul PyFloat.prec PyFloat.emax (S754_finite sx mx ex) (S754_finite sy my ey)
  = round_frac (xorb sx sy) (Z.pos (mx * my)) 1 (ex + ey) /\
  ex + ey <= fexp64 (Zdigits2 (Z.pos (mx * my) / 1) + (ex + ey)).
Proof.
  intros Vx Vy.
  apply valid_finite_bounds in Vx as (Hex & Hdx & Hnx & _).
  apply valid_finite_bounds in Vy as (Hey & Hdy & Hny & _).
  assert (Hpre : ex + ey <= fexp64 (Zdigits2 (Z.pos (mx * my) / 1) + (ex + ey))).
  { rewrite Z.div_1_r, Pos2Z.inj_mul.
    pose proof (Zdigits2_mul (Z.pos mx) (Z.pos my) ltac:(lia) ltac:(lia)).
    pose proof (Zdigits2_pos (Z.pos mx) ltac:(lia)).
    pose proof (Zdigits2_pos (Z.pos my) ltac:(lia)).
    unfold fexp64. lia. }
  split; [|exact Hpre].
  cbn [SFmul].
  rewrite <- (binary_round_aux_frac (xorb sx sy) (Z.pos (mx * my)) 1 (ex + ey)
               ltac:(lia) ltac:(lia) Hpre).
  rewrite loc_of_exact, Z.div_1_r. reflexivity.
Qed.

(** [SFdiv] shifts the dividend, divides, and rounds the quotient. *)
Lemma shiftl_match m s :
  0 <= s ->
  match s with
  | 0 => m
  | Z.pos _ => Z.shiftl m s
  | Z.neg _ => 0
  end = m * 2 ^ s.
Proof.
  intros Hs. destruct s as [|p|p]; try lia.
  apply Z.shiftl_mul_pow2. lia.
Qed.

Lemma SFdiv_frac sx mx ex sy my ey :
  let e' := div_exp mx ex my ey in
  let a := Z.pos mx * 2 ^ (ex - ey - e') in
  SFdiv PyFloat.prec PyFloat.emax (S754_finite sx mx ex) (S754_finite sy my ey)
  = round_frac (xorb sx sy) a (Z.pos my) e' /\
  e' <= fexp64 (Zdigits2 (a / Z.pos my) + e') /\
  0 < a /\ e' <= ex - ey.
Proof.
  cbv zeta. unfold div_exp.
  set (d1 := Zdigits2 (Z.pos mx)). set (d2 := Zdigits2 (Z.pos my)).
  set (e' := Z.min (fexp64 (d1 + ex - (d2 + ey))) (ex - ey)).
  set (s := ex - ey - e'). assert (Hs : 0 <= s) by (unfold s, e'; lia).
  assert (Hp : 0 < 2 ^ s) by (apply Z.pow_pos_nonneg; lia).
  set (a := Z.pos mx * 2 ^ s). assert (Ha : 0 < a) by (unfold a; nia).
  assert (Hpre : e' <= fexp64 (Zdigits2 (a / Z.pos my) + e')).
  { destruct (Z_le_gt_dec e' (-1074)) as [Hlo|Hhi]; [unfold fexp64; lia|].
    assert (He : e' <= d1 + ex - (d2 + ey) - 53) by (unfold e', fexp64 in *; lia).
    assert (Hs2 : d2 - d1 + 53 <= s) by (unfold s; lia).
    pose proof (Zdigits2_spec (Z.pos mx) ltac:(lia)) as [L1 _]. fold d1 in L1.
    pose proof (Zdigits2_spec (Z.pos my) ltac:(lia)) as [_ U2]. fold d2 in U2.
    pose proof (Zdigits2_pos (Z.pos mx) ltac:(lia)) as P1. fold d1 in P1.
    pose proof (Zdigits2_pos (Z.pos my) ltac:(lia)) as P2. fold d2 in P2.
    assert (Hq : 2 ^ (d1 - 1 + s - d2) <= a / Z.pos my).
    { apply Z.div_le_lower_bound; [lia|].
      assert (E : 2 ^ (d1 - 1 + s) = 2 ^ (d1 - 1 + s - d2) * 2 ^ d2).
      { rewrite <- Z.pow_add_r by lia. f_equal. lia. }
      assert (E2 : 2 ^ (d1 - 1 + s) = 2 ^ (d1 - 1) * 2 ^ s).
      { rewrite <- Z.pow_add_r by lia. reflexivity. }
      assert (0 < 2 ^ (d1 - 1 + s - d2)) by (apply Z.pow_pos_nonneg; lia).
      unfold a. nia. }
    assert (Hd : d1 + s - d2 <= Zdigits2 (a / Z.pos my)).
    { apply Zdigits2_ge_pow; [|lia].
      replace (d1 + s - d2 - 1) with (d1 - 1 + s - d2) by lia. exact Hq. }
    unfold fexp64. lia. }
  split; [|split; [exact Hpre|split; [exact Ha|unfold e'; lia]]].
  cbn [SFdiv]. unfold SFdiv_core_binary. rewrite fexp_eq.
  fold d1 d2 e' s.
  assert (Em : match s with
               | 0 => Z.pos mx
               | Z.pos _ => Z.shiftl (Z.pos mx) s
               | Z.neg _ => 0
               end = a).
  { unfold a. apply shiftl_match. exact Hs. }
  rewrite Em.
  assert (Ed : Z.div_eucl a (Z.pos my) = (a / Z.pos my, a mod Z.pos my)).
  { unfold Z.div, Z.modulo. destruct (Z.div_eucl a (Z.pos my)). reflexivity. }
  rewrite Ed.
  rewrite new_location_loc_of by lia.
  apply binary_round_aux_frac; [lia|lia|exact Hpre].
Qed.

Lemma leb_zero_l s x : nonneg x -> PyFloat.leb (S754_zero s) x = true.
Proof. destruct x as [s'|[|]| |[|] m e]; simpl; intros H; try contradiction; reflexivity. Qed.


Lemma round_frac_nonneg a B e :
  0 <= a -> 0 < B -> e <= fexp64 (Zdigits2 (a / B) + e) ->
  nonneg (round_frac false a B e).
Proof.
  intros Ha HB Hpre. pose proof (round_frac_sign false a B e Ha HB Hpre) as H.
  destruct (round_frac false a B e) as [s|s| |s m e0]; try contradiction;
    subst; exact I.
Qed.

Lemma SFmul_nonneg_valid x y :
  PyFloat.valid x = true -> PyFloat.valid y = true ->
  nonneg x -> positive_finite y ->
  nonneg (SFmul PyFloat.prec PyFloat.emax x y) /\
  PyFloat.valid (SFmul PyFloat.prec PyFloat.emax x y) = true.
Proof.
  intros Vx Vy Nx Py.
  destruct y as [sy|sy| |[|] my ey]; try contradiction.
  destruct x as [sx|[|]| |[|] mx ex]; try contradiction;
    try (split; [exact I|reflexivity]).
  destruct (SFmul_frac false mx ex false my ey Vx Vy) as [-> Hpre].
  split; [apply round_frac_nonneg|apply round_frac_valid]; (lia || exact Hpre).
Qed.


Lemma SFdiv_nonneg n s :
  nonneg n -> positive_finite s ->
  nonneg (SFdiv PyFloat.prec PyFloat.emax n s).
Proof.
  intros Nn Ps.
  destruct s as [ss|ss| |[|] ms es]; try contradiction.
  destruct n as [sn|[|]| |[|] mn en]; try contradiction; try exact I.
  destruct (SFdiv_frac false mn en false ms es) as (-> & Hpre & Ha & _).
  apply round_frac_nonneg; (lia || exact Hpre).
Qed.



Lemma iter_xO_pow d m : Z.pos (Pos.iter xO m d) = Z.pos m * 2 ^ Z.pos d.
Proof.
  change (Pos.iter xO m d) with (shift_pos d m).
  rewrite shift_pos_correct, Zpower.Zpower_pos_nat, Zpower.Zpower_nat_Z.
  rewrite positive_nat_Z. lia.
Qed.

Lemma Zdigits2_shift m k : 0 < m -> 0 <= k -> Zdigits2 (m * 2 ^ k) = Zdigits2 m + k.
Proof.
  intros Hm Hk. pose proof (Zdigits2_spec m Hm) as [Lo Hi].
  pose proof (Zdigits2_pos m Hm).
  assert (0 < 2 ^ k) by (apply Z.pow_pos_nonneg; lia).
  apply Zdigits2_unique; [nia|].
  replace (Zdigits2 m + k - 1) with (Zdigits2 m - 1 + k) by lia.
  rewrite !Z.pow_add_r by lia. nia.
Qed.

Lemma round_frac_positive a B e :
  0 <= a -> 0 < B -> e <= fexp64 (Zdigits2 (a / B) + e) ->
  -1074 < fexp64 (Zdigits2 (a / B) + e) ->
  match round_frac false a B e with
  | S754_zero _ => False
  | _ => True
  end.
Proof.
  intros Ha HB Hpre Hn. unfold round_frac. cbv zeta.
  pose proof (rne_normal a B e Ha HB Hpre Hn) as H.
  destruct (Z.eqb_spec (rne a (B * 2 ^ (fexp64 (Zdigits2 (a / B) + e) - e))) (2 ^ 53)).
  - unfold fin_or_inf. change (2 ^ 52) with (Z.pos (2 ^ 52)). cbv iota.
    destruct (_ <=? 971); exact I.
  - unfold fin_or_inf.
    destruct (rne a (B * 2 ^ (fexp64 (Zdigits2 (a / B) + e) - e))) eqn:E.
    + exfalso. assert (0 < 2 ^ 52) by reflexivity. lia.
    + destruct (_ <=? 971); exact I.
    + exact I.
Qed.

(** [float(n)] rounds the integer: [binary_round] aligns the mantissa and
    rounds it. *)
Lemma binary_round_frac s p e :
  exists a e',
    0 < a /\
    binary_round PyFloat.prec PyFloat.emax s p e = round_frac s a 1 e' /\
    e' <= fexp64 (Zdigits2 (a / 1) + e') /\
    fexp64 (Zdigits2 (a / 1) + e') = fexp64 (Zdigits2 (Z.pos p) + e).
Proof.
  unfold binary_round, shl_align. rewrite fexp_eq.
  change (Z.pos (digits2_pos p)) with (Zdigits2 (Z.pos p)).
  set (E := fexp64 (Zdigits2 (Z.pos p) + e)).
  destruct (E - e) as [|d|d] eqn:Hd.
  - exists (Z.pos p), e. rewrite Z.div_1_r. fold E.
    split; [lia|]. split; [|split; [lia|reflexivity]].
    rewrite <- (binary_round_aux_frac s (Z.pos p) 1 e) by (rewrite ?Z.div_1_r; fold E; lia).
    rewrite Z.div_1_r, loc_of_exact. reflexivity.
  - exists (Z.pos p), e. rewrite Z.div_1_r. fold E.
    split; [lia|]. split; [|split; [lia|reflexivity]].
    rewrite <- (binary_round_aux_frac s (Z.pos p) 1 e) by (rewrite ?Z.div_1_r; fold E; lia).
    rewrite Z.div_1_r, loc_of_exact. reflexivity.
  - exists (Z.pos (Pos.iter xO p d)), E. rewrite Z.div_1_r.
    assert (HE : fexp64 (Zdigits2 (Z.pos (Pos.iter xO p d)) + E) = E).
    { rewrite iter_xO_pow, Zdigits2_shift by lia.
      replace (Zdigits2 (Z.pos p) + Z.pos d + E) with (Zdigits2 (Z.pos p) + e) by lia.
      reflexivity. }
    rewrite HE.
    split; [lia|]. split; [|split; [lia|reflexivity]].
    rewrite <- (binary_round_aux_frac s (Z.pos (Pos.iter xO p d)) 1 E)
      by (rewrite ?Z.div_1_r, ?HE; lia).
    rewrite Z.div_1_r, loc_of_exact. reflexivity.
Qed.

(** [float(n)] for [n >= 1], when it returns, is a positive finite
    binary64 value. *)
Lemma of_int_positive n d :
  1 <= n -> PyFloat.of_int n = Ok d ->
  PyFloat.valid d = true /\ positive_finite d.
Proof.
  intros Hn. destruct n as [|p|p]; try lia.
  unfold PyFloat.of_int, binary_normalize.
  destruct (binary_round_frac false p 0) as (a & e' & Ha & -> & Hpre & HE).
  assert (Hnorm : -1074 < fexp64 (Zdigits2 (a / 1) + e')).
  { rewrite HE. pose proof (Zdigits2_pos (Z.pos p) ltac:(lia)).
    unfold fexp64. lia. }
  pose proof (round_frac_valid false a 1 e' ltac:(lia) ltac:(lia) Hpre) as V.
  pose proof (round_frac_sign false a 1 e' ltac:(lia) ltac:(lia) Hpre) as Hsg.
  pose proof (round_frac_positive a 1 e' ltac:(lia) ltac:(lia) Hpre Hnorm) as P.
  destruct (round_frac false a 1 e') as [s|s| |s m e0]; try contradiction;
    try discriminate.
  intros [= <-]. subst s. split; [exact V|exact I].
Qed.

(** A positive finite divisor is not zero: the division returns. *)
Lemma div_positive_finite n s :
  positive_finite s ->
  PyFloat.div n s = Ok (SFdiv PyFloat.prec PyFloat.emax n s).
Proof.
  destruct s as [?|?| |[|] m e]; try contradiction. reflexivity.
Qed.

(** The unit price when the denominator converts and the size is positive
    and finite. *)
Lemma post_init_value price denominator size d :
  PyFloat.of_int denominator = Ok d -> positive_finite size ->
  GroceryPrice.__post_init__ price denominator size
  = Ok (SFdiv PyFloat.prec PyFloat.emax
          (SFmul PyFloat.prec PyFloat.emax price d) size).
Proof.
  intros Hd Hs. unfold GroceryPrice.__post_init__, PyFloat.mul_int.
  rewrite Hd. cbn [bind]. apply div_positive_finite. exact Hs.
Qed.

(** ** Price and size multiplied by the same power of two

    A binary64 number that is [2^k] times another one need not have the
    mantissa of the other: in the subnormal range the mantissa moves
    instead of the exponent.  The product and the quotient are roundings
    of exact results, so they depend on the numbers only. *)














End RoundingFacts.

(** [x >= 0], [x > 0] and finiteness, from the comparisons of the code. *)
Lemma nonneg_leb (x : float) : PyFloat.leb PyFloat.zero x = true -> nonneg x.
Proof. destruct x as [s|[|]| |[|] m e]; simpl; (discriminate || exact (fun _ => I)). Qed.


Lemma positive_finite_ltb (x : float) :
  PyFloat.ltb PyFloat.zero x = true -> x <> PyFloat.inf -> positive_finite x.
Proof.
  destruct x as [s|[|]| |[|] m e]; simpl; try discriminate;
    intros _ H; try exact I. contradiction H. reflexivity.
Qed.




(** ** The forms write on every submission *)

Lemma writes_write_back (s : session) :
  writes (worksheet (write_back s)) = S (writes (worksheet s)) /\
  reads (worksheet (write_back s)) = S (reads (worksheet s)).
Proof. split; reflexivity. Qed.

Lemma writes_show m s : writes (worksheet (show m s)) = writes (worksheet s).
Proof. reflexivity. Qed.

Lemma writes_set_df d s : writes (worksheet (set_df d s)) = writes (worksheet s).
Proof. reflexivity. Qed.

(** Every submission of the branch form, accepted or not, writes once. *)
Lemma new_branch_form_writes (name : string) (s : session) :
  writes (worksheet (new_branch_form true name s)) = S (writes (worksheet s)).
Proof.
  unfold new_branch_form.
  rewrite (proj1 (writes_write_back _)). f_equal.
  destruct (String.eqb name ""); [apply writes_show|].
  destruct (bool_decide _); [apply writes_show|apply writes_set_df].
Qed.

(** A duplicate branch name leaves [df] as it was, reports the error, and
    the unchanged [df] is written all the same. *)
Lemma duplicate_branch_writes (name : string) (s : session) :
  name <> "" -> strip name ∈ columns (df s) ->
  let s' := new_branch_form true name s in
  writes (worksheet s') = S (writes (worksheet s)) /\
  records (worksheet s') = df s /\
  shown s' = shown s ++ [st_error (strip name ++ " already exists!");
                         st_success "Sheet updated successfully!"].
Proof.
  intros Hne Hin. cbv zeta. split; [apply new_branch_form_writes|].
  unfold new_branch_form.
  destruct (String.eqb_spec name "") as [?|_]; [contradiction|].
  rewrite bool_decide_eq_true_2 by exact Hin.
  unfold write_back, show, get_all_records, set_with_dataframe. simpl.
  rewrite <- app_assoc. split; reflexivity.
Qed.

(** A blank item name or unit is reported, and the sheet is written. *)
Lemma blank_item_writes name options size denominator unit (s : session) :
  name = "" \/ unit = "" ->
  exists s',
    new_item_form true name options size denominator unit s = Ok s' /\
    writes (worksheet s') = S (writes (worksheet s)) /\
    records (worksheet s') = df s.
Proof.
  intros Hblank. unfold new_item_form.
  destruct (String.eqb_spec name "") as [Hn|Hn]; cbn [bind].
  - eexists. split; [reflexivity|]. split; reflexivity.
  - destruct Hblank as [? | ->]; [contradiction|]. simpl.
    eexists. split; [reflexivity|]. split; reflexivity.
Qed.

(** C3, as the code behaves: submitting the branch name "Tesco" when the
    sheet already has a Tesco column shows the error, then writes the
    sheet and reports success; the write count goes from 0 to 1.  The
    item form does the same on a blank name and on a blank unit. *)
Theorem rejected_submissions_write :
  let s := tesco_session in
  "Tesco" ∈ columns (df s) /\
  writes (worksheet s) = 0%nat /\
  (let s' := new_branch_form true "Tesco" s in
   writes (worksheet s') = 1%nat /\ reads (worksheet s') = 2%nat /\
   shown s' = [st_error "Tesco already exists!";
               st_success "Sheet updated successfully!"]) /\
  (exists s',
     new_item_form true "" "dairy" (PyFloat.of_decimal false 1 0) 1 "l" s
       = Ok s' /\
     writes (worksheet s') = 1%nat /\
     shown s' = [st_error "Item name cannot be empty!";
                 st_success "Sheet updated successfully!"]) /\
  (exists s',
     new_item_form true "Milk" "dairy" (PyFloat.of_decimal false 1 0) 1 "" s
       = Ok s' /\
     writes (worksheet s') = 1%nat /\
     shown s' = [st_error "Unit cannot be empty!";
                 st_success "Sheet updated successfully!"]).
Proof.
  cbv zeta. split; [|split; [reflexivity|]].
  - unfold tesco_session, tesco_table. simpl.
    do 5 right. left.
  - split; [repeat split; vm_compute; reflexivity|].
    split; eexists; repeat split; vm_compute; reflexivity.
Qed.

(** * Further properties

    Properties that the specification does not state, read off the
    source: how the code behaves on edge cases, what it keeps invariant,
    and how its parts compose. *)

(** ** The sign of the unit price *)

Lemma SFdiv_valid (n s : float) :
  nonneg n -> positive_finite s ->
  PyFloat.valid (SFdiv PyFloat.prec PyFloat.emax n s) = true.
Proof.
  intros Nn Ps.
  destruct s as [ss|ss| |[|] ms es]; try contradiction.
  destruct n as [sn|[|]| |[|] mn en]; try contradiction; try reflexivity.
  destruct (SFdiv_frac false mn en false ms es) as (-> & Hpre & Ha & _).
  apply round_frac_valid; (lia || exact Hpre).
Qed.

Lemma nonneg_not_nan (x : float) : nonneg x -> PyFloat.is_nan x = false.
Proof.
  destruct x as [s|[|]| |[|] m e]; simpl; intros H; try contradiction;
    reflexivity.
Qed.

(** X1: for a price [>= 0], a finite size [> 0] and a denominator [>= 1]
    that converts to a float, [__post_init__] returns a unit price that is
    [>= 0], is not NaN and is a binary64 value: it may be zero or
    infinite, never negative. *)
Theorem unit_price_is_not_negative (price size : float) (denominator : Z)
    (d : float) :
  (1 <= denominator)%Z -> PyFloat.of_int denominator = Ok d ->
  PyFloat.valid price = true -> PyFloat.valid size = true ->
  PyFloat.leb PyFloat.zero price = true ->
  PyFloat.ltb PyFloat.zero size = true -> size <> PyFloat.inf ->
  exists u,
    GroceryPrice.__post_init__ price denominator size = Ok u /\
    PyFloat.leb PyFloat.zero u = true /\
    PyFloat.is_nan u = false /\
    PyFloat.valid u = true.
Proof.
  intros Hden Hd Vp Vs Hp Hs Hfin.
  pose proof (nonneg_leb price Hp) as Np.
  pose proof (positive_finite_ltb size Hs Hfin) as Ps.
  destruct (of_int_positive denominator d Hden Hd) as [Vd Pd].
  destruct (SFmul_nonneg_valid price d Vp Vd Np Pd) as [Nn Vn].
  pose proof (SFdiv_nonneg _ size Nn Ps) as Nu.
  eexists. split; [apply (post_init_value price denominator size d Hd Ps)|].
  split; [apply leb_zero_l, Nu|]. split; [apply nonneg_not_nan, Nu|].
  apply SFdiv_valid; assumption.
Qed.

Lemma unit_price_is_not_negative_witness :
  let price := PyFloat.of_decimal false 50 2 in
  let size := PyFloat.of_decimal false 500 0 in
  (1 <= 1000)%Z /\
  PyFloat.of_int 1000 = Ok (PyFloat.of_decimal false 1000 0) /\
  PyFloat.valid price = true /\ PyFloat.valid size = true /\
  PyFloat.leb PyFloat.zero price = true /\
  PyFloat.ltb PyFloat.zero size = true /\ size <> PyFloat.inf /\
  exists u,
    GroceryPrice.__post_init__ price 1000 size = Ok u /\
    PyFloat.leb PyFloat.zero u = true /\
    PyFloat.is_nan u = false /\
    PyFloat.valid u = true.
Proof.
  cbv zeta.
  assert (Hden : (1 <= 1000)%Z) by lia.
  assert (Hd : PyFloat.of_int 1000 = Ok (PyFloat.of_decimal false 1000 0))
    by (vm_compute; reflexivity).
  assert (Vp : PyFloat.valid (PyFloat.of_decimal false 50 2) = true)
    by (vm_compute; reflexivity).
  assert (Vs : PyFloat.valid (PyFloat.of_decimal false 500 0) = true)
    by (vm_compute; reflexivity).
  assert (Hp : PyFloat.leb PyFloat.zero (PyFloat.of_decimal false 50 2) = true)
    by (vm_compute; reflexivity).
  assert (Hs : PyFloat.ltb PyFloat.zero (PyFloat.of_decimal false 500 0) = true)
    by (vm_compute; reflexivity).
  assert (Hf : PyFloat.of_decimal false 500 0 <> PyFloat.inf)
    by (vm_compute; discriminate).
  repeat (split; [assumption|]).
  exact (unit_price_is_not_negative _ _ _ _ Hden Hd Vp Vs Hp Hs Hf).
Defined.

(** ** Denominators that do not convert *)

Section Conversion.
Local Open Scope Z_scope.

Lemma fin_or_inf_overflow s m e :
  0 < m -> 971 < e -> fin_or_inf s m e = S754_infinity s.
Proof.
  intros Hm He. destruct m as [|p|p]; try lia. unfold fin_or_inf.
  destruct (Z.leb_spec e 971); [lia|reflexivity].
Qed.

Lemma fin_or_inf_in_range s m e :
  e <= 971 -> forall s', fin_or_inf s m e <> S754_infinity s'.
Proof.
  intros He s'. destruct m as [|p|p]; unfold fin_or_inf; try discriminate.
  destruct (Z.leb_spec e 971); [discriminate|lia].
Qed.

(** [float(n)] for [n >= 2^1024]: the rounded value is out of range. *)
Lemma of_int_overflow n :
  2 ^ 1024 <= n -> PyFloat.of_int n = Raise OverflowError.
Proof.
  intros Hn. assert (0 < 2 ^ 1024) by reflexivity.
  destruct n as [|p|p]; try lia.
  assert (Hd : 1025 <= Zdigits2 (Z.pos p))
    by (apply Zdigits2_ge_pow; [exact Hn|lia]).
  unfold PyFloat.of_int, binary_normalize, binary_round, shl_align.
  rewrite fexp_eq. change (Z.pos (digits2_pos p)) with (Zdigits2 (Z.pos p)).
  assert (HE : fexp64 (Zdigits2 (Z.pos p) + 0) = Zdigits2 (Z.pos p) - 53)
    by (unfold fexp64; lia).
  rewrite HE.
  destruct (Zdigits2 (Z.pos p) - 53 - 0) as [|q|q] eqn:Eq; try lia.
  assert (Hpre : 0 <= fexp64 (Zdigits2 (Z.pos p / 1) + 0))
    by (rewrite Z.div_1_r, HE; lia).
  pose proof (binary_round_aux_frac false (Z.pos p) 1 0 ltac:(lia) ltac:(lia)
                Hpre) as Hr.
  rewrite Z.div_1_r, loc_of_exact in Hr. rewrite Hr.
  unfold round_frac. cbv zeta.
  pose proof (rne_normal (Z.pos p) 1 0 ltac:(lia) ltac:(lia) Hpre) as Hm.
  rewrite Z.div_1_r, HE in *.
  specialize (Hm ltac:(lia)). assert (0 < 2 ^ 52) by reflexivity.
  destruct (Z.eqb_spec (rne (Z.pos p) (1 * 2 ^ (Zdigits2 (Z.pos p) - 53 - 0)))
              (2 ^ 53)).
  - rewrite fin_or_inf_overflow by lia. reflexivity.
  - rewrite fin_or_inf_overflow by lia. reflexivity.
Qed.

Lemma round_frac_in_range s a B e :
  fexp64 (Zdigits2 (a / B) + e) <= 970 ->
  forall s', round_frac s a B e <> S754_infinity s'.
Proof.
  intros HE s'. unfold round_frac. cbv zeta.
  destruct (_ =? 2 ^ 53); apply fin_or_inf_in_range; lia.
Qed.

(** [float(n)] for [1 <= n < 2^1023]: the rounded value is in range. *)
Lemma of_int_converts n :
  1 <= n < 2 ^ 1023 -> exists d, PyFloat.of_int n = Ok d.
Proof.
  intros [Hlo Hhi]. destruct n as [|p|p]; try lia.
  assert (Hd : Zdigits2 (Z.pos p) <= 1023)
    by (apply Zdigits2_le_pow; lia).
  unfold PyFloat.of_int, binary_normalize.
  destruct (binary_round_frac false p 0) as (a & e' & Ha & -> & Hpre & HE).
  assert (HE' : fexp64 (Zdigits2 (a / 1) + e') <= 970)
    by (rewrite HE; unfold fexp64; lia).
  pose proof (round_frac_in_range false a 1 e' HE') as Hfin.
  destruct (round_frac false a 1 e') as [s|s| |s m e0]; eauto.
  exfalso. apply (Hfin s). reflexivity.
Qed.

End Conversion.

(** X26: a denominator of [2^1024] or more makes [__post_init__] raise
    [OverflowError], whatever the price and the size, a size of zero
    included: the product is evaluated before the division.  A
    denominator from 1 to below [2^1023] converts to a float. *)
Theorem huge_denominator_overflows :
  (forall (price size : float) (denominator : Z),
     (2 ^ 1024 <= denominator)%Z ->
     GroceryPrice.__post_init__ price denominator size = Raise OverflowError) /\
  (forall denominator : Z,
     (1 <= denominator < 2 ^ 1023)%Z ->
     exists d, PyFloat.of_int denominator = Ok d).
Proof.
  split.
  - intros price size denominator H.
    unfold GroceryPrice.__post_init__, PyFloat.mul_int.
    rewrite of_int_overflow by exact H. reflexivity.
  - apply of_int_converts.
Qed.

Lemma huge_denominator_overflows_witness :
  (2 ^ 1024 <= 2 ^ 1024)%Z /\
  GroceryPrice.__post_init__ (PyFloat.of_decimal false 50 2) (2 ^ 1024)
    PyFloat.zero = Raise OverflowError /\
  (1 <= 1000 < 2 ^ 1023)%Z /\
  exists d, PyFloat.of_int 1000 = Ok d.
Proof.
  assert (H1 : (2 ^ 1024 <= 2 ^ 1024)%Z) by lia.
  assert (H2 : (1 <= 1000 < 2 ^ 1023)%Z) by (split; [lia|reflexivity]).
  split; [exact H1|].
  split; [exact (proj1 huge_denominator_overflows _ _ _ H1)|].
  split; [exact H2|exact (proj2 huge_denominator_overflows _ H2)].
Defined.

(** ** What [read_prices_from_sheet] returns *)

Lemma for_each_app {A S : Type} (body : A -> S -> result S) (l1 l2 : list A)
    (s : S) :
  for_each (l1 ++ l2) body s =
  (s' <- for_each l1 body s ;; for_each l2 body s').
Proof.
  revert s. induction l1 as [|x l1 IH]; intros s; cbn [app for_each bind];
    [reflexivity|].
  destruct (body x s) as [s'|e]; cbn [bind]; [apply IH|reflexivity].
Qed.

Lemma for_each_cons {A S : Type} (body : A -> S -> result S) (x : A)
    (l : list A) (s : S) :
  for_each (x :: l) body s = (s' <- body x s ;; for_each l body s').
Proof. reflexivity. Qed.

Lemma subscript_Ok {A : Type} (l : list A) (i : nat) (x : A) :
  subscript l i = Ok x <-> nth_error l i = Some x.
Proof.
  unfold subscript. destruct (nth_error l i); cbn [of_option];
    split; congruence.
Qed.

Lemma of_option_Ok {A : Type} (e : exception) (o : option A) (x : A) :
  of_option e o = Ok x <-> o = Some x.
Proof. destruct o; cbn [of_option]; split; congruence. Qed.

Lemma getitem_keys (prices : catalog) g v :
  getitem prices g = Ok v -> g ∈ keys prices.
Proof.
  intros H. apply getitem_elem in H.
  apply list_elem_of_fmap. exists (g, v). split; [reflexivity|exact H].
Qed.

Lemma getitem_contains (prices : catalog) g v :
  getitem prices g = Ok v -> contains prices g = true.
Proof. intros H. apply contains_keys. eapply getitem_keys; eauto. Qed.

Lemma keys_setitem_present (prices : catalog) k v :
  k ∈ keys prices -> keys (setitem prices k v) = keys prices.
Proof.
  induction prices as [|[k' v'] prices IH]; cbn [keys map fst setitem].
  - intros H. apply elem_of_nil in H. contradiction.
  - intros H. destruct (String.eqb_spec k' k) as [->|Hne]; [reflexivity|].
    cbn [map fst]. f_equal. apply IH.
    apply elem_of_cons in H as [H|H]; [congruence|exact H].
Qed.

Lemma keys_setitem_absent (prices : catalog) k v :
  k ∉ keys prices -> keys (setitem prices k v) = keys prices ++ [k].
Proof.
  induction prices as [|[k' v'] prices IH]; cbn [keys map fst setitem];
    [reflexivity|].
  intros H. apply not_elem_of_cons in H as [Hne H].
  destruct (String.eqb_spec k' k) as [->|_]; [contradiction|].
  cbn [map fst app]. f_equal. apply IH, H.
Qed.

Lemma first_occurrences_snoc l x :
  first_occurrences (l ++ [x]) =
  if bool_decide (x ∈ first_occurrences l) then first_occurrences l
  else first_occurrences l ++ [x].
Proof. unfold first_occurrences. rewrite fold_left_app. reflexivity. Qed.

(** [first_occurrences l] lists every element of [l] once. *)
Lemma first_occurrences_spec l :
  NoDup (first_occurrences l) /\
  forall x, x ∈ first_occurrences l <-> x ∈ l.
Proof.
  induction l as [|x l IH] using rev_ind.
  - split; [constructor|reflexivity].
  - destruct IH as [Hnd Hiff]. rewrite first_occurrences_snoc.
    destruct (bool_decide_reflect (x ∈ first_occurrences l)) as [Hin|Hnin].
    + split; [exact Hnd|]. intros y.
      rewrite elem_of_app, list_elem_of_singleton, Hiff.
      split; [auto|]. intros [H| ->]; [exact H|apply Hiff, Hin].
    + split.
      * apply NoDup_app. split; [exact Hnd|]. split; [|apply NoDup_singleton].
        intros y Hy Hy'. apply list_elem_of_singleton in Hy' as ->.
        contradiction.
      * intros y. rewrite !elem_of_app, Hiff. reflexivity.
Qed.

(** The fields of [s.split(sep)]: there is at least one, none holds the
    separator, and joined by the separator they give [s] back. *)
Lemma split_fields (sep : ascii) (s : string) :
  split sep s <> [] /\
  Forall (fun w => sep ∉ list_ascii_of_string w) (split sep s) /\
  join (String sep EmptyString) (split sep s) = s.
Proof.
  induction s as [|c s (Hne & Hall & Hjoin)]; cbn [split].
  - split; [discriminate|]. split; [|reflexivity].
    constructor; [|constructor]. cbn. apply not_elem_of_nil.
  - destruct (Ascii.eqb_spec c sep) as [->|Hc].
    + split; [discriminate|]. split.
      * constructor; [cbn; apply not_elem_of_nil|exact Hall].
      * destruct (split sep s) as [|w ws] eqn:E; [contradiction|].
        cbn [join]. cbn [join] in Hjoin. rewrite Hjoin. reflexivity.
    + destruct (split sep s) as [|w ws] eqn:E; [contradiction|].
      split; [discriminate|]. apply Forall_cons in Hall as [Hw Hws]. split.
      * constructor; [|exact Hws]. cbn [list_ascii_of_string].
        apply not_elem_of_cons. split; [congruence|exact Hw].
      * cbn [join] in Hjoin |- *. destruct ws as [|w' ws'].
        -- rewrite Hjoin. reflexivity.
        -- rewrite <- Hjoin. reflexivity.
Qed.

Section ReadPricesMore.

Variable float_of_str : string -> option float.
Variable int_of_str : string -> option Z.

Local Abbreviation read_cell := (read_cell float_of_str int_of_str).
Local Abbreviation read_row := (read_row float_of_str int_of_str).
Local Abbreviation read_prices_from_sheet :=
  (read_prices_from_sheet float_of_str int_of_str).
Local Abbreviation cell_record := (cell_record float_of_str int_of_str).
Local Abbreviation from_rows := (from_rows float_of_str int_of_str).
Local Abbreviation unreadable_cell :=
  (unreadable_cell float_of_str int_of_str).

(** *** The keys *)

Lemma read_cell_keys_eq header row g options i prices prices' :
  read_cell header row g options i prices = Ok prices' ->
  keys prices' = keys prices.
Proof.
  unfold read_cell. intros H. inv_bind H.
  destruct (String.eqb a ""); [injection H as <-; reflexivity|].
  repeat inv_bind H. injection H as <-.
  apply keys_setitem_present. eapply getitem_keys; eauto.
Qed.

Lemma read_cells_keys_eq header row g options cells prices prices' :
  for_each cells (read_cell header row g options) prices = Ok prices' ->
  keys prices' = keys prices.
Proof.
  revert prices. induction cells as [|i cells IH]; intros prices H.
  - injection H as <-. reflexivity.
  - cbn [for_each] in H. inv_bind H. apply IH in H. rewrite H.
    eapply read_cell_keys_eq; eauto.
Qed.

Lemma read_row_keys_eq header row prices prices' :
  read_row header row prices = Ok prices' ->
  exists g, nth_error row 0 = Some g /\
            keys prices' =
            if bool_decide (g ∈ keys prices) then keys prices
            else keys prices ++ [g].
Proof.
  unfold read_row. intros H. do 2 inv_bind H.
  exists a. split; [apply subscript_Ok, Ha|].
  apply read_cells_keys_eq in H. rewrite H.
  destruct (contains prices a) eqn:Hc.
  - apply contains_keys in Hc. rewrite bool_decide_eq_true_2 by exact Hc.
    reflexivity.
  - assert (Hn : a ∉ keys prices).
    { intros Hin. apply contains_keys in Hin. congruence. }
    rewrite bool_decide_eq_false_2 by exact Hn.
    apply keys_setitem_absent, Hn.
Qed.

Lemma read_rows_keys_eq header rows prices prices' :
  for_each rows (read_row header) prices = Ok prices' ->
  exists names,
    Forall2 (fun row g => nth_error row 0 = Some g) rows names /\
    keys prices' =
    fold_left (fun acc x => if bool_decide (x ∈ acc) then acc else acc ++ [x])
      names (keys prices).
Proof.
  revert prices. induction rows as [|row rows IH]; intros prices H.
  - injection H as <-. exists []. split; [constructor|reflexivity].
  - cbn [for_each] in H. inv_bind H.
    apply read_row_keys_eq in Ha as (g & Hg & Hk).
    apply IH in H as (names & HF & Hkeys).
    exists (g :: names). split; [constructor; assumption|].
    cbn [fold_left]. rewrite <- Hk. exact Hkeys.
Qed.

Lemma read_prices_keys data prices :
  read_prices_from_sheet data = Ok prices ->
  exists names,
    Forall2 (fun row g => nth_error row 0 = Some g) (skipn 1 data) names /\
    grocery_items prices = first_occurrences names.
Proof.
  unfold read_prices_from_sheet. intros H. inv_bind H.
  apply read_rows_keys_eq in H as (names & HF & Hkeys).
  exists names. split; [exact HF|exact Hkeys].
Qed.

(** X2: the item names of a loaded catalog, which fill the item select
    box, are the first cells of the data rows, each listed once, in the
    order of the first row that names them. *)
Theorem catalog_keys_are_item_names (data : list (list string))
    (prices : catalog) :
  read_prices_from_sheet data = Ok prices ->
  exists names,
    Forall2 (fun row g => nth_error row 0 = Some g) (skipn 1 data) names /\
    grocery_items prices = first_occurrences names /\
    NoDup (grocery_items prices) /\
    (forall g, g ∈ grocery_items prices <-> g ∈ names).
Proof.
  intros H. apply read_prices_keys in H as (names & HF & E).
  exists names. split; [exact HF|]. split; [exact E|]. rewrite E.
  apply first_occurrences_spec.
Qed.

(** *** Where the records come from *)

(** What a price cell that is not blank does to the catalog. *)
Lemma read_cell_priced header row g options_cell i prices prices' cell :
  nth_error row 0 = Some g ->
  nth_error row 1 = Some options_cell ->
  nth_error row (5 + i) = Some cell -> cell <> "" ->
  read_cell header row g (split "|" options_cell) i prices = Ok prices' ->
  exists items r,
    getitem prices g = Ok items /\
    prices' = setitem prices g (items ++ [r]) /\
    cell_record header row i r.
Proof.
  intros Hg Ho Hcell Hne. unfold read_cell. intros H.
  apply bind_Ok in H as (c & Hc & H).
  apply subscript_Ok in Hc. rewrite Hcell in Hc. injection Hc as <-.
  destruct (String.eqb_spec cell "") as [?|_]; [contradiction|].
  apply bind_Ok in H as (items & Hitems & H).
  apply bind_Ok in H as (size_cell & Hsc & H).
  apply bind_Ok in H as (size & Hsize & H).
  apply bind_Ok in H as (den_cell & Hdc & H).
  apply bind_Ok in H as (den & Hden & H).
  apply bind_Ok in H as (unit & Hunit & H).
  apply bind_Ok in H as (branch & Hbranch & H).
  apply bind_Ok in H as (price & Hprice & H).
  apply bind_Ok in H as (r & Hr & H). injection H as <-.
  apply subscript_Ok in Hsc, Hdc, Hunit, Hbranch.
  apply of_option_Ok in Hsize, Hden, Hprice.
  apply init_derived in Hr as [E _].
  exists items, r. split; [exact Hitems|]. split; [reflexivity|].
  exists cell, options_cell, size_cell, den_cell. rewrite E. cbn.
  repeat split; assumption.
Qed.

Lemma read_cell_blank header row g options i prices :
  nth_error row (5 + i) = Some "" ->
  read_cell header row g options i prices = Ok prices.
Proof.
  intros H. unfold read_cell, subscript. rewrite H. reflexivity.
Qed.

Lemma cell_record_name header row i r g :
  nth_error row 0 = Some g -> cell_record header row i r ->
  GroceryPrice.name r = g.
Proof. intros Hg (c & o & s & d & _ & _ & Hn & _). congruence. Qed.

Lemma read_cell_from_rows header rows row g options_cell i prices prices' :
  row ∈ rows ->
  nth_error row 0 = Some g ->
  nth_error row 1 = Some options_cell ->
  from_rows header rows prices ->
  read_cell header row g (split "|" options_cell) i prices = Ok prices' ->
  from_rows header rows prices'.
Proof.
  intros Hrow Hg Ho Hinv H.
  destruct (nth_error row (5 + i)) as [cell|] eqn:Hcell.
  2:{ unfold read_cell, subscript in H. rewrite Hcell in H.
      discriminate. }
  destruct (String.eqb_spec cell "") as [->|Hne].
  { rewrite read_cell_blank in H by exact Hcell. injection H as <-.
    exact Hinv. }
  destruct (read_cell_priced header row g options_cell i prices prices' cell
              Hg Ho Hcell Hne H) as (items & r & Hget & -> & Hrec).
  intros k items' r' Hin Hr'.
  apply elem_of_setitem in Hin as [Hin|[-> ->]]; [eauto|].
  apply elem_of_app in Hr' as [Hr'|Hr'].
  - apply getitem_elem in Hget. eauto.
  - apply list_elem_of_singleton in Hr' as ->.
    split; [eapply cell_record_name; eauto|eauto].
Qed.

Lemma read_row_from_rows header rows row prices prices' :
  row ∈ rows ->
  from_rows header rows prices ->
  read_row header row prices = Ok prices' ->
  from_rows header rows prices'.
Proof.
  intros Hrow Hinv. unfold read_row. intros H. do 2 inv_bind H.
  apply subscript_Ok in Ha, Ha0. revert H.
  apply (for_each_invariant (from_rows header rows) (fun _ => True)).
  - intros i s s' _ Hs. eapply read_cell_from_rows; eauto.
  - apply Forall_forall. auto.
  - destruct (contains prices a); [exact Hinv|].
    intros k items r Hin Hr.
    apply elem_of_setitem in Hin as [Hin|[-> ->]]; [eauto|].
    apply elem_of_nil in Hr. contradiction.
Qed.

Lemma read_prices_from_rows data prices :
  read_prices_from_sheet data = Ok prices ->
  exists header,
    nth_error data 0 = Some header /\
    from_rows header (skipn 1 data) prices.
Proof.
  unfold read_prices_from_sheet. intros H. inv_bind H.
  apply subscript_Ok in Ha. exists a. split; [exact Ha|].
  revert H.
  apply (for_each_invariant (from_rows a (skipn 1 data))
           (fun row => row ∈ skipn 1 data)).
  - intros row s s' Hrow Hs. apply read_row_from_rows; assumption.
  - apply Forall_forall. auto.
  - intros k' items' r' Hin'. apply elem_of_nil in Hin'. contradiction.
Qed.

(** X3: every record of a loaded catalog is listed under its own name and
    stands for a price cell that is not blank: its tags, size, denominator
    and unit are read from the row of the cell, its price from the cell,
    and its branch from the header cell above it. *)
Theorem records_come_from_price_cells (data : list (list string))
    (prices : catalog) (k : string) (items : list GroceryPrice.t)
    (r : GroceryPrice.t) :
  read_prices_from_sheet data = Ok prices ->
  (k, items) ∈ prices -> r ∈ items ->
  GroceryPrice.name r = k /\
  exists header row i,
    nth_error data 0 = Some header /\ row ∈ skipn 1 data /\
    cell_record header row i r.
Proof.
  intros H Hin Hr.
  apply read_prices_from_rows in H as (header & Hh & Hinv).
  destruct (Hinv k items r Hin Hr) as (Hname & row & i & Hrow & Hrec).
  split; [exact Hname|]. exists header, row, i. auto.
Qed.

(** *** No price cell is lost *)

Lemma has_record_setitem prices g r g' items r' :
  getitem prices g' = Ok items ->
  has_record prices g r -> has_record (setitem prices g' (items ++ [r'])) g r.
Proof.
  intros Hget (v & Hv & Hr). destruct (String.eqb_spec g' g) as [->|Hne].
  - exists (items ++ [r']). split; [apply getitem_setitem_eq|].
    apply elem_of_app. left. congruence.
  - exists v. split; [|exact Hr]. rewrite getitem_setitem_ne by exact Hne.
    exact Hv.
Qed.

Lemma read_cell_keeps header row g0 options i prices prices' g r :
  has_record prices g r ->
  read_cell header row g0 options i prices = Ok prices' ->
  has_record prices' g r.
Proof.
  intros Hrec. unfold read_cell. intros H. inv_bind H.
  destruct (String.eqb a ""); [injection H as <-; exact Hrec|].
  repeat inv_bind H. injection H as <-.
  apply has_record_setitem; assumption.
Qed.

Lemma read_cells_keep header row g0 options cells prices prices' g r :
  has_record prices g r ->
  for_each cells (read_cell header row g0 options) prices = Ok prices' ->
  has_record prices' g r.
Proof.
  intros Hrec.
  apply (for_each_invariant (fun s => has_record s g r) (fun _ => True));
    [|apply Forall_forall; auto|exact Hrec].
  intros x s s' _ Hs. apply read_cell_keeps, Hs.
Qed.

Lemma read_row_keeps header row prices prices' g r :
  has_record prices g r ->
  read_row header row prices = Ok prices' ->
  has_record prices' g r.
Proof.
  intros Hrec. unfold read_row. intros H. do 2 inv_bind H.
  revert H. apply read_cells_keep.
  destruct (contains prices a) eqn:Hc; [exact Hrec|].
  destruct Hrec as (v & Hv & Hr). exists v. split; [|exact Hr].
  rewrite getitem_setitem_ne; [exact Hv|].
  intros ->. apply getitem_contains in Hv. congruence.
Qed.

Lemma read_rows_keep header rows prices prices' g r :
  has_record prices g r ->
  for_each rows (read_row header) prices = Ok prices' ->
  has_record prices' g r.
Proof.
  intros Hrec.
  apply (for_each_invariant (fun s => has_record s g r) (fun _ => True));
    [|apply Forall_forall; auto|exact Hrec].
  intros x s s' _ Hs. apply read_row_keeps, Hs.
Qed.

Lemma read_row_records_cell header row prices prices' g i cell :
  nth_error row 0 = Some g ->
  nth_error row (5 + i) = Some cell -> cell <> "" ->
  read_row header row prices = Ok prices' ->
  exists r, has_record prices' g r /\ cell_record header row i r.
Proof.
  intros Hg Hcell Hne. unfold read_row. intros H.
  apply bind_Ok in H as (g' & Hg' & H).
  apply bind_Ok in H as (options_cell & Ho & H).
  apply subscript_Ok in Hg', Ho. rewrite Hg in Hg'. injection Hg' as <-.
  assert (Hi : (i < List.length row - 5)%nat).
  { assert (5 + i < List.length row)%nat
      by (apply nth_error_Some; rewrite Hcell; discriminate). lia. }
  assert (Hseq : seq 0 (List.length row - 5) =
                 seq 0 i ++ i :: seq (S i) (List.length row - 5 - S i)).
  { replace (List.length row - 5)%nat
      with (i + S (List.length row - 5 - S i))%nat at 1 by lia.
    rewrite seq_app. reflexivity. }
  rewrite Hseq, for_each_app in H.
  apply bind_Ok in H as (s1 & Hs1 & H). rewrite for_each_cons in H.
  apply bind_Ok in H as (s2 & Hs2 & H).
  destruct (read_cell_priced header row g options_cell i s1 s2 cell
              Hg Ho Hcell Hne Hs2) as (items & r & Hget & -> & Hrec).
  exists r. split; [|exact Hrec].
  revert H. apply read_cells_keep.
  exists (items ++ [r]). split; [apply getitem_setitem_eq|].
  apply elem_of_app. right. left.
Qed.

Lemma read_prices_has_record data prices row g i cell :
  read_prices_from_sheet data = Ok prices ->
  row ∈ skipn 1 data ->
  nth_error row 0 = Some g ->
  nth_error row (5 + i) = Some cell -> cell <> "" ->
  exists header r,
    nth_error data 0 = Some header /\
    has_record prices g r /\ cell_record header row i r.
Proof.
  unfold read_prices_from_sheet. intros H Hrow Hg Hcell Hne.
  apply bind_Ok in H as (header & Hh & H). apply subscript_Ok in Hh.
  apply list_elem_of_split in Hrow as (l1 & l2 & Hsplit).
  rewrite Hsplit, for_each_app in H.
  apply bind_Ok in H as (s1 & Hs1 & H). rewrite for_each_cons in H.
  apply bind_Ok in H as (s2 & Hs2 & H).
  destruct (read_row_records_cell header row s1 s2 g i cell Hg Hcell Hne Hs2)
    as (r & Hrec & Hcr).
  exists header, r. split; [exact Hh|]. split; [|exact Hcr].
  exact (read_rows_keep header l2 s2 prices g r Hrec H).
Qed.

(** X4: when the sheet loads, every price cell that is not blank has its
    record in the catalog, in the list of the item named in the first
    cell of its row: no price is dropped. *)
Theorem every_price_cell_is_recorded (data : list (list string))
    (prices : catalog) (row : list string) (g : string) (i : nat)
    (cell : string) :
  read_prices_from_sheet data = Ok prices ->
  row ∈ skipn 1 data ->
  nth_error row 0 = Some g ->
  nth_error row (5 + i) = Some cell -> cell <> "" ->
  exists header items r,
    nth_error data 0 = Some header /\
    getitem prices g = Ok items /\ r ∈ items /\
    cell_record header row i r.
Proof.
  intros H Hrow Hg Hcell Hne.
  destruct (read_prices_has_record data prices row g i cell H Hrow Hg Hcell Hne)
    as (header & r & Hh & (items & Hget & Hr) & Hrec).
  exists header, items, r. auto.
Qed.

(** X5: the tags of a loaded record are the fields of the options cell of
    its row, cut at every ["|"]: there is at least one tag, no tag holds a
    ["|"], the tags joined by ["|"] give the cell back, and a blank
    options cell gives the single tag [""]. *)
Theorem tags_are_fields_of_options_cell (data : list (list string))
    (prices : catalog) (k : string) (items : list GroceryPrice.t)
    (r : GroceryPrice.t) :
  read_prices_from_sheet data = Ok prices ->
  (k, items) ∈ prices -> r ∈ items ->
  exists row options_cell,
    row ∈ skipn 1 data /\ nth_error row 0 = Some k /\
    nth_error row 1 = Some options_cell /\
    join "|" (GroceryPrice.tags r) = options_cell /\
    GroceryPrice.tags r <> [] /\
    Forall (fun t => "|"%char ∉ list_ascii_of_string t) (GroceryPrice.tags r) /\
    (options_cell = "" -> GroceryPrice.tags r = [""]).
Proof.
  intros H Hin Hr.
  apply read_prices_from_rows in H as (header & Hh & Hinv).
  destruct (Hinv k items r Hin Hr) as (Hname & row & i & Hrow & Hrec).
  destruct Hrec as (c & oc & sc & dc & _ & _ & Hn & Ho & Ht & _).
  exists row, oc. split; [exact Hrow|]. split; [congruence|].
  split; [exact Ho|]. rewrite Ht.
  destruct (split_fields "|"%char oc) as (Hne & Hall & Hjoin).
  split; [exact Hjoin|]. split; [exact Hne|]. split; [exact Hall|].
  intros ->. reflexivity.
Qed.

(** *** The order of the records *)

Local Abbreviation lists_cells := (lists_cells float_of_str int_of_str).

Lemma items_of_setitem_eq prices g v : items_of (setitem prices g v) g = v.
Proof. unfold items_of. rewrite getitem_setitem_eq. reflexivity. Qed.

Lemma items_of_setitem_ne prices g g' v :
  g <> g' -> items_of (setitem prices g v) g' = items_of prices g'.
Proof.
  intros H. unfold items_of. rewrite getitem_setitem_ne by exact H.
  reflexivity.
Qed.

(** One step of the inner loop. *)
Lemma read_cell_lists header row g0 options_cell k prices prices' :
  nth_error row 0 = Some g0 ->
  nth_error row 1 = Some options_cell ->
  read_cell header row g0 (split "|" options_cell) k prices = Ok prices' ->
  forall g cells,
    lists_cells header prices g cells ->
    lists_cells header prices' g
      (cells ++ if String.eqb g0 g && is_priced row k then [(row, k)] else []).
Proof.
  intros Hg0 Ho H g cells Hinv.
  destruct (nth_error row (5 + k)) as [cell|] eqn:Hcell.
  2:{ unfold read_cell, subscript in H. rewrite Hcell in H. discriminate. }
  unfold is_priced. rewrite Hcell.
  destruct (String.eqb_spec cell "") as [->|Hne].
  { rewrite read_cell_blank in H by exact Hcell. injection H as <-.
    cbn [negb]. rewrite andb_false_r, app_nil_r. exact Hinv. }
  destruct (read_cell_priced header row g0 options_cell k prices prices' cell
              Hg0 Ho Hcell Hne H) as (items & r & Hget & -> & Hrec).
  cbn [negb]. rewrite andb_true_r. unfold lists_cells in *.
  destruct (String.eqb_spec g0 g) as [->|Hg].
  - rewrite items_of_setitem_eq. apply Forall2_app.
    + unfold items_of in Hinv. rewrite Hget in Hinv. exact Hinv.
    + constructor; [exact Hrec|constructor].
  - rewrite items_of_setitem_ne by exact Hg. rewrite app_nil_r. exact Hinv.
Qed.

(** The inner loop from cell [k] on. *)
Lemma read_cells_lists header row g0 options_cell m :
  nth_error row 0 = Some g0 ->
  nth_error row 1 = Some options_cell ->
  forall k prices prices',
    for_each (seq k m) (read_cell header row g0 (split "|" options_cell)) prices
      = Ok prices' ->
    forall g cells,
      lists_cells header prices g cells ->
      lists_cells header prices' g
        (cells ++ if String.eqb g0 g
                  then map (pair row) (List.filter (is_priced row) (seq k m))
                  else []).
Proof.
  intros Hg0 Ho. induction m as [|m IH]; intros k prices prices' H g cells Hinv.
  - injection H as <-. cbn [seq List.filter map].
    destruct (String.eqb g0 g); rewrite app_nil_r; exact Hinv.
  - cbn [seq] in H. rewrite for_each_cons in H.
    apply bind_Ok in H as (s & Hs & H).
    pose proof (read_cell_lists header row g0 options_cell k prices s Hg0 Ho Hs
                  g cells Hinv) as Hstep.
    pose proof (IH (S k) s prices' H g _ Hstep) as Hrest.
    cbn [seq List.filter].
    destruct (String.eqb g0 g); cbn [andb] in *.
    + destruct (is_priced row k); cbn [map];
        rewrite <- app_assoc in Hrest; exact Hrest.
    + rewrite !app_nil_r in *. exact Hrest.
Qed.

Lemma lists_cells_new_key header prices g0 g cells :
  contains prices g0 = false ->
  lists_cells header prices g cells ->
  lists_cells header (setitem prices g0 []) g cells.
Proof.
  intros Hc Hinv. unfold lists_cells in *.
  destruct (String.eqb_spec g0 g) as [->|Hne].
  - rewrite items_of_setitem_eq. unfold items_of in Hinv.
    destruct (getitem prices g) as [v|e] eqn:E; [|exact Hinv].
    apply getitem_contains in E. congruence.
  - rewrite items_of_setitem_ne by exact Hne. exact Hinv.
Qed.

(** One step of the outer loop. *)
Lemma read_row_lists header row prices prices' done :
  read_row header row prices = Ok prices' ->
  forall g,
    lists_cells header prices g (item_cells done g) ->
    lists_cells header prices' g (item_cells (done ++ [row]) g).
Proof.
  unfold read_row. intros H g Hinv.
  apply bind_Ok in H as (g0 & Hg0 & H).
  apply bind_Ok in H as (options_cell & Ho & H).
  apply subscript_Ok in Hg0, Ho.
  assert (Hinv0 : lists_cells header
                    (if contains prices g0 then prices
                     else setitem prices g0 []) g (item_cells done g)).
  { destruct (contains prices g0) eqn:Hc; [exact Hinv|].
    apply lists_cells_new_key; assumption. }
  pose proof (read_cells_lists header row g0 options_cell _ Hg0 Ho _ _ _ H
                g _ Hinv0) as Hrow.
  unfold item_cells. rewrite flat_map_app. cbn [flat_map].
  rewrite Hg0, app_nil_r. exact Hrow.
Qed.

Lemma read_rows_lists header rows :
  forall done prices prices',
    for_each rows (read_row header) prices = Ok prices' ->
    forall g,
      lists_cells header prices g (item_cells done g) ->
      lists_cells header prices' g (item_cells (done ++ rows) g).
Proof.
  induction rows as [|row rows IH]; intros done prices prices' H g Hinv.
  - injection H as <-. rewrite app_nil_r. exact Hinv.
  - rewrite for_each_cons in H. apply bind_Ok in H as (s & Hs & H).
    replace (done ++ row :: rows) with ((done ++ [row]) ++ rows)
      by (rewrite <- app_assoc; reflexivity).
    apply (IH _ s prices' H).
    apply (read_row_lists header row prices s done Hs). exact Hinv.
Qed.

(** X25: the list that a loaded catalog holds for an item has exactly one
    record for every price cell that is not blank in the rows of that
    item, in the order of the sheet: row after row and, in a row, from
    left to right.  A name that is no key of the catalog names no row
    with a price. *)
Theorem records_follow_sheet_order (data : list (list string))
    (prices : catalog) (g : string) :
  read_prices_from_sheet data = Ok prices ->
  exists header,
    nth_error data 0 = Some header /\
    (forall items,
       getitem prices g = Ok items ->
       Forall2 (fun r c => cell_record header (fst c) (snd c) r)
         items (item_cells (skipn 1 data) g)) /\
    (g ∉ grocery_items prices -> item_cells (skipn 1 data) g = []).
Proof.
  unfold read_prices_from_sheet. intros H.
  apply bind_Ok in H as (header & Hh & H). apply subscript_Ok in Hh.
  exists header. split; [exact Hh|].
  assert (Hinv : lists_cells header prices g (item_cells (skipn 1 data) g)).
  { apply (read_rows_lists header (skipn 1 data) [] [] prices H g).
    constructor. }
  unfold lists_cells, items_of in Hinv. split.
  - intros items Hget. rewrite Hget in Hinv. exact Hinv.
  - intros Habs. destruct (getitem prices g) as [items|e] eqn:E.
    + apply getitem_keys in E. contradiction.
    + apply Forall2_nil_inv_l in Hinv. exact Hinv.
Qed.

(** *** Sheets that do not load *)

Lemma read_cell_unreadable header row g options i prices :
  unreadable_cell header row i ->
  exists e, read_cell header row g options i prices = Raise e.
Proof.
  intros (cell & Hcell & Hne & Hbad). unfold read_cell, subscript.
  rewrite Hcell. cbn [bind of_option].
  destruct (String.eqb_spec cell "") as [?|_]; [contradiction|].
  destruct (getitem prices g) as [items|e]; cbn [bind of_option]; [|eauto].
  destruct (nth_error row 2) as [sc|]; cbn [bind of_option]; [|eauto].
  destruct (float_of_str sc) as [size|] eqn:Hsize; cbn [bind of_option];
    [|eauto].
  destruct (nth_error row 3) as [dc|]; cbn [bind of_option]; [|eauto].
  destruct (int_of_str dc) as [den|] eqn:Hden; cbn [bind of_option]; [|eauto].
  destruct (nth_error row 4) as [u|]; cbn [bind of_option]; [|eauto].
  destruct (nth_error header (5 + i)) as [b|]; cbn [bind of_option]; [|eauto].
  destruct (float_of_str cell) as [p|] eqn:Hp; cbn [bind of_option]; [|eauto].
  exfalso. destruct Hbad as [H|[(sc' & H1 & H2)|[(dc' & H1 & H2)|H]]];
    congruence.
Qed.

Lemma read_row_unreadable header row i prices :
  unreadable_cell header row i ->
  exists e, read_row header row prices = Raise e.
Proof.
  intros Hbad. unfold read_row.
  destruct (subscript row 0) as [g|e]; cbn [bind]; [|eauto].
  destruct (subscript row 1) as [o|e]; cbn [bind]; [|eauto].
  apply (for_each_raises _ _ i).
  - destruct Hbad as (cell & Hcell & _).
    apply list_elem_of_In, in_seq.
    assert (5 + i < List.length row)%nat
      by (apply nth_error_Some; rewrite Hcell; discriminate).
    lia.
  - intros s. apply read_cell_unreadable, Hbad.
Qed.

(** X6: one price cell that is not blank and whose text, size or
    denominator is not a number, or that has no header cell above it,
    makes the whole load fail: no catalog is returned, not even for the
    other rows. *)
Theorem unreadable_cell_fails_load (data : list (list string))
    (header row : list string) (i : nat) :
  nth_error data 0 = Some header ->
  row ∈ skipn 1 data ->
  unreadable_cell header row i ->
  exists e, read_prices_from_sheet data = Raise e.
Proof.
  intros Hh Hrow Hbad. unfold read_prices_from_sheet, subscript.
  rewrite Hh. cbn [bind of_option].
  apply (for_each_raises _ _ row Hrow).
  intros s. apply read_row_unreadable with i, Hbad.
Qed.

Lemma read_row_short header row prices :
  (List.length row < 2)%nat -> read_row header row prices = Raise IndexError.
Proof.
  intros H. unfold read_row, subscript.
  destruct row as [|c0 [|c1 row]]; cbn in *; [reflexivity|reflexivity|lia].
Qed.

(** X7: a sheet without any row raises [IndexError]; a sheet with a header
    only loads as the empty catalog; a data row with fewer than two cells
    makes the load fail, with [IndexError] when it is the first data
    row. *)
Theorem short_rows_fail_load :
  read_prices_from_sheet [] = Raise IndexError /\
  (forall header, read_prices_from_sheet [header] = Ok []) /\
  (forall header row rows,
     (List.length row < 2)%nat ->
     read_prices_from_sheet (header :: row :: rows) = Raise IndexError) /\
  (forall data row,
     row ∈ skipn 1 data -> (List.length row < 2)%nat ->
     exists e, read_prices_from_sheet data = Raise e).
Proof.
  split; [reflexivity|]. split; [reflexivity|]. split.
  - intros header row rows H. unfold read_prices_from_sheet.
    cbn [subscript nth_error of_option bind skipn for_each].
    rewrite read_row_short by exact H. reflexivity.
  - intros data row Hrow Hlen. unfold read_prices_from_sheet.
    destruct (subscript data 0) as [header|e]; cbn [bind]; [|eauto].
    apply (for_each_raises _ _ row Hrow).
    intros s. exists IndexError. apply read_row_short, Hlen.
Qed.

End ReadPricesMore.

Lemma eggs_sheet_loads :
  read_prices_from_sheet decimal_float decimal_int eggs_sheet
  = Ok [("Milk", [tesco_milk; aldi_milk]); ("Eggs", [])].
Proof. vm_compute. reflexivity. Qed.

Lemma catalog_keys_are_item_names_witness :
  let prices := [("Milk", [tesco_milk; aldi_milk]); ("Eggs", [])] in
  read_prices_from_sheet decimal_float decimal_int eggs_sheet = Ok prices /\
  exists names,
    Forall2 (fun row g => nth_error row 0 = Some g) (skipn 1 eggs_sheet) names /\
    grocery_items prices = first_occurrences names /\
    NoDup (grocery_items prices) /\
    (forall g, g ∈ grocery_items prices <-> g ∈ names).
Proof.
  cbv zeta. split; [exact eggs_sheet_loads|].
  exact (catalog_keys_are_item_names decimal_float decimal_int eggs_sheet _
           eggs_sheet_loads).
Defined.

Lemma records_come_from_price_cells_witness :
  read_prices_from_sheet decimal_float decimal_int milk_sheet
    = Ok [("Milk", [tesco_milk; aldi_milk])] /\
  ("Milk", [tesco_milk; aldi_milk]) ∈ [("Milk", [tesco_milk; aldi_milk])] /\
  aldi_milk ∈ [tesco_milk; aldi_milk] /\
  GroceryPrice.name aldi_milk = "Milk" /\
  exists header row i,
    nth_error milk_sheet 0 = Some header /\ row ∈ skipn 1 milk_sheet /\
    cell_record decimal_float decimal_int header row i aldi_milk.
Proof.
  assert (H1 : ("Milk", [tesco_milk; aldi_milk])
               ∈ [("Milk", [tesco_milk; aldi_milk])]) by left.
  assert (H2 : aldi_milk ∈ [tesco_milk; aldi_milk]) by (right; left).
  split; [exact milk_sheet_loads|]. split; [exact H1|]. split; [exact H2|].
  exact (records_come_from_price_cells decimal_float decimal_int milk_sheet
           _ "Milk" _ aldi_milk milk_sheet_loads H1 H2).
Defined.

Lemma every_price_cell_is_recorded_witness :
  let row := ["Milk"; "dairy"; "500"; "1000"; "ml"; ""; "0.50"] in
  read_prices_from_sheet decimal_float decimal_int milk_sheet
    = Ok [("Milk", [tesco_milk; aldi_milk])] /\
  row ∈ skipn 1 milk_sheet /\
  nth_error row 0 = Some "Milk" /\
  nth_error row (5 + 1) = Some "0.50" /\ "0.50" <> "" /\
  exists header items r,
    nth_error milk_sheet 0 = Some header /\
    getitem [("Milk", [tesco_milk; aldi_milk])] "Milk" = Ok items /\
    r ∈ items /\
    cell_record decimal_float decimal_int header row 1 r.
Proof.
  cbv zeta.
  assert (Hrow : ["Milk"; "dairy"; "500"; "1000"; "ml"; ""; "0.50"]
                 ∈ skipn 1 milk_sheet) by (cbn; right; left).
  assert (Hne : "0.50" <> "") by discriminate.
  split; [exact milk_sheet_loads|]. split; [exact Hrow|].
  split; [reflexivity|]. split; [reflexivity|]. split; [exact Hne|].
  exact (every_price_cell_is_recorded decimal_float decimal_int milk_sheet
           _ _ "Milk" 1%nat "0.50" milk_sheet_loads Hrow eq_refl eq_refl Hne).
Defined.

Lemma tags_are_fields_of_options_cell_witness :
  read_prices_from_sheet decimal_float decimal_int milk_sheet
    = Ok [("Milk", [tesco_milk; aldi_milk])] /\
  ("Milk", [tesco_milk; aldi_milk]) ∈ [("Milk", [tesco_milk; aldi_milk])] /\
  tesco_milk ∈ [tesco_milk; aldi_milk] /\
  exists row options_cell,
    row ∈ skipn 1 milk_sheet /\ nth_error row 0 = Some "Milk" /\
    nth_error row 1 = Some options_cell /\
    join "|" (GroceryPrice.tags tesco_milk) = options_cell /\
    GroceryPrice.tags tesco_milk <> [] /\
    Forall (fun t => "|"%char ∉ list_ascii_of_string t)
      (GroceryPrice.tags tesco_milk) /\
    (options_cell = "" -> GroceryPrice.tags tesco_milk = [""]).
Proof.
  assert (H1 : ("Milk", [tesco_milk; aldi_milk])
               ∈ [("Milk", [tesco_milk; aldi_milk])]) by left.
  assert (H2 : tesco_milk ∈ [tesco_milk; aldi_milk]) by left.
  split; [exact milk_sheet_loads|]. split; [exact H1|]. split; [exact H2|].
  exact (tags_are_fields_of_options_cell decimal_float decimal_int milk_sheet
           _ "Milk" _ tesco_milk milk_sheet_loads H1 H2).
Defined.

Lemma unreadable_cell_fails_load_witness :
  let header := ["Grocery Item"; "Options"; "Size"; "Denominator"; "Unit";
                 "Tesco"; "Aldi"] in
  let row := ["Milk"; "dairy"; "1000"; "1000"; "ml"; "n/a"; ""] in
  nth_error unpriced_sheet 0 = Some header /\
  row ∈ skipn 1 unpriced_sheet /\
  unreadable_cell decimal_float decimal_int header row 0 /\
  read_prices_from_sheet decimal_float decimal_int unpriced_sheet
    = Raise ValueError /\
  exists e,
    read_prices_from_sheet decimal_float decimal_int unpriced_sheet = Raise e.
Proof.
  cbv zeta.
  assert (Hrow : ["Milk"; "dairy"; "1000"; "1000"; "ml"; "n/a"; ""]
                 ∈ skipn 1 unpriced_sheet) by (cbn; left).
  assert (Hbad : unreadable_cell decimal_float decimal_int
                   ["Grocery Item"; "Options"; "Size"; "Denominator"; "Unit";
                    "Tesco"; "Aldi"]
                   ["Milk"; "dairy"; "1000"; "1000"; "ml"; "n/a"; ""] 0).
  { exists "n/a". split; [reflexivity|]. split; [discriminate|].
    left. reflexivity. }
  split; [reflexivity|]. split; [exact Hrow|]. split; [exact Hbad|].
  split; [vm_compute; reflexivity|].
  exact (unreadable_cell_fails_load decimal_float decimal_int unpriced_sheet
           _ _ 0%nat eq_refl Hrow Hbad).
Defined.

Lemma short_rows_fail_load_witness :
  let data := [["Grocery Item"; "Options"]; ["Milk"; "dairy"]; ["Eggs"]] in
  ["Eggs"] ∈ skipn 1 data /\ (List.length ["Eggs"] < 2)%nat /\
  read_prices_from_sheet decimal_float decimal_int data = Raise IndexError /\
  exists e, read_prices_from_sheet decimal_float decimal_int data = Raise e.
Proof.
  cbv zeta.
  assert (Hrow : ["Eggs"] ∈ skipn 1 [["Grocery Item"; "Options"];
                                     ["Milk"; "dairy"]; ["Eggs"]])
    by (cbn; right; left).
  assert (Hlen : (List.length ["Eggs"] < 2)%nat) by (cbn; lia).
  split; [exact Hrow|]. split; [exact Hlen|]. split; [vm_compute; reflexivity|].
  exact (proj2 (proj2 (proj2 (short_rows_fail_load decimal_float decimal_int)))
           _ ["Eggs"] Hrow Hlen).
Defined.

Lemma records_follow_sheet_order_witness :
  read_prices_from_sheet decimal_float decimal_int litre_sheet
    = Ok [("Milk", [litre "Tesco" 100; litre "Asda" 200; litre "Aldi" 100])] /\
  item_cells (skipn 1 litre_sheet) "Milk"
    = map (pair ["Milk"; "dairy"; "1"; "1"; "l"; "1.00"; "2.00"; "1.00"])
        [0; 1; 2]%nat /\
  exists header,
    nth_error litre_sheet 0 = Some header /\
    (forall items,
       getitem [("Milk", [litre "Tesco" 100; litre "Asda" 200;
                          litre "Aldi" 100])] "Milk" = Ok items ->
       Forall2 (fun r c => cell_record decimal_float decimal_int header
                             (fst c) (snd c) r)
         items (item_cells (skipn 1 litre_sheet) "Milk")) /\
    ("Milk" ∉ grocery_items [("Milk", [litre "Tesco" 100; litre "Asda" 200;
                                       litre "Aldi" 100])] ->
     item_cells (skipn 1 litre_sheet) "Milk" = []).
Proof.
  assert (H : read_prices_from_sheet decimal_float decimal_int litre_sheet
              = Ok [("Milk", [litre "Tesco" 100; litre "Asda" 200;
                              litre "Aldi" 100])])
    by (vm_compute; reflexivity).
  split; [exact H|]. split; [reflexivity|].
  exact (records_follow_sheet_order decimal_float decimal_int litre_sheet
           _ "Milk" H).
Defined.

(** ** [write_prices_to_sheet] *)

Lemma dict_getitem_keys {V : Type} (d : dict V) k v :
  dict_getitem d k = Ok v -> k ∈ dict_keys d.
Proof.
  induction d as [|[k' v'] d IH]; cbn [dict_getitem dict_keys map fst];
    [discriminate|].
  destruct (String.eqb_spec k' k) as [->|_]; [left|right; auto].
Qed.

Lemma lookup_columns_acc (prices : nested_prices) g o cols
    (acc vs : list cell) :
  for_each cols
    (fun col acc =>
       options <- dict_getitem prices g ;;
       columns <- dict_getitem options o ;;
       v <- dict_getitem columns col ;;
       Ok (acc ++ [v])) acc = Ok vs ->
  List.length vs = (List.length acc + List.length cols)%nat /\
  forall col, col ∈ cols ->
    exists options columns,
      dict_getitem prices g = Ok options /\
      dict_getitem options o = Ok columns /\
      col ∈ dict_keys columns.
Proof.
  revert acc. induction cols as [|c cols IH]; intros acc H.
  - injection H as <-. split; [cbn; lia|].
    intros col Hc. apply elem_of_nil in Hc. contradiction.
  - rewrite for_each_cons in H. apply bind_Ok in H as (acc' & Hacc & H).
    apply bind_Ok in Hacc as (options & Hg & Hacc).
    apply bind_Ok in Hacc as (columns & Ho & Hacc).
    apply bind_Ok in Hacc as (v & Hv & Hacc). injection Hacc as <-.
    apply IH in H as [Hlen Hall]. split.
    + rewrite Hlen, length_app. cbn [List.length]. lia.
    + intros col Hc. apply elem_of_cons in Hc as [->|Hc]; [|auto].
      exists options, columns. split; [assumption|]. split; [assumption|].
      eapply dict_getitem_keys; eauto.
Qed.

(** A comprehension over the columns returns one value per column, and
    every column is a key of the option. *)
Lemma lookup_columns_Ok prices g o cols vs :
  lookup_columns prices g o cols = Ok vs ->
  List.length vs = List.length cols /\
  forall col, col ∈ cols ->
    exists options columns,
      dict_getitem prices g = Ok options /\
      dict_getitem options o = Ok columns /\
      col ∈ dict_keys columns.
Proof. intros H. apply lookup_columns_acc in H. exact H. Qed.

Lemma lookup_columns_missing prices g o cols options columns col :
  dict_getitem prices g = Ok options ->
  dict_getitem options o = Ok columns ->
  col ∈ cols -> col ∉ dict_keys columns ->
  exists e, lookup_columns prices g o cols = Raise e.
Proof.
  intros Hg Ho Hin Hmiss.
  destruct (lookup_columns prices g o cols) as [vs|e] eqn:E; [|eauto].
  exfalso. apply lookup_columns_Ok in E as [_ H].
  destruct (H col Hin) as (options' & columns' & Hg' & Ho' & Hc).
  rewrite Hg in Hg'. injection Hg' as <-.
  rewrite Ho in Ho'. injection Ho' as <-. contradiction.
Qed.

(** The header exists when the first item has a first option. *)
Lemma write_header_Ok prices header :
  write_header prices = Ok header ->
  exists item0 options0 option0 columns0 rest_items rest_options,
    prices = (item0, options0) :: rest_items /\
    options0 = (option0, columns0) :: rest_options /\
    header = ["Grocery Item"; "Options"; "Size"; "Denominator"; "Unit";
              "Unit Price"] ++ dict_keys columns0.
Proof.
  unfold write_header. destruct prices as [|[item0 options0] rest_items];
    [discriminate|].
  cbn [dict_keys map fst subscript nth_error of_option bind dict_getitem].
  rewrite String.eqb_refl. cbn [bind].
  destruct options0 as [|[option0 columns0] rest_options]; [discriminate|].
  cbn [dict_keys map fst subscript nth_error of_option bind dict_getitem].
  rewrite String.eqb_refl. cbn [bind]. intros [= <-].
  exists item0, ((option0, columns0) :: rest_options), option0, columns0,
    rest_items, rest_options.
  repeat split; reflexivity.
Qed.

Lemma write_row_rectangular prices header g o data data' :
  (6 <= List.length header)%nat ->
  rectangular header data ->
  write_row prices header g o data = Ok data' ->
  rectangular header data'.
Proof.
  intros Hlen (rows & -> & Hrows). unfold write_row. intros H.
  apply bind_Ok in H as (attributes & Ha & H).
  apply bind_Ok in H as (chains & Hc & H). injection H as <-.
  apply lookup_columns_Ok in Ha as [La _], Hc as [Lc _].
  exists (rows ++ [[CStr g; CStr o] ++ attributes ++ chains]).
  split; [reflexivity|].
  apply Forall_app. split; [exact Hrows|]. constructor; [|constructor].
  rewrite !length_app, La, Lc, length_skipn. cbn [List.length]. lia.
Qed.

(** X8: when [write_prices_to_sheet] succeeds, the sheet holds the header
    (the six fixed columns, then the keys of the first option of the
    first item) and rows of the length of the header; and since every
    row reads ["Size"], ["Denominator"], ["Unit"] and ["Unit Price"] from
    its option, these four are among the keys that follow the fixed
    columns: the header names them twice. *)
Theorem written_sheet_is_rectangular (prices : nested_prices)
    (sheet data : list (list cell)) :
  write_prices_to_sheet prices sheet = (data, Ok tt) ->
  exists header rows,
    data = map CStr header :: rows /\
    firstn 6 header = ["Grocery Item"; "Options"; "Size"; "Denominator";
                       "Unit"; "Unit Price"] /\
    Forall (fun row => List.length row = List.length header) rows /\
    Forall (fun col => col ∈ skipn 6 header)
      ["Size"; "Denominator"; "Unit"; "Unit Price"].
Proof.
  unfold write_prices_to_sheet.
  destruct (write_data prices) as [data'|e] eqn:E; [|discriminate].
  intros [= ->]. unfold write_data in E.
  apply bind_Ok in E as (header0 & Hh & E).
  destruct (write_header_Ok prices header0 Hh)
    as (item0 & options0 & option0 & columns0 & ri & ro & -> & -> & ->).
  set (header := _ ++ dict_keys columns0) in *.
  assert (Hlen : (6 <= List.length header)%nat)
    by (unfold header; rewrite length_app; cbn [List.length]; lia).
  assert (Hrect : rectangular header data).
  { revert E.
    apply (for_each_invariant (rectangular header) (fun _ => True)).
    - intros g s s' _ Hs H. apply bind_Ok in H as (options & _ & H).
      revert H.
      apply (for_each_invariant (rectangular header) (fun _ => True));
        [|apply Forall_forall; auto|exact Hs].
      intros o t t' _ Ht. apply write_row_rectangular; assumption.
    - apply Forall_forall. auto.
    - exists []. split; [reflexivity|constructor]. }
  destruct Hrect as (rows & -> & Hrows).
  exists header, rows. split; [reflexivity|]. split; [reflexivity|].
  split; [exact Hrows|].
  (* the first option is written first, and needs the four attributes *)
  cbn [dict_keys map fst for_each] in E. apply bind_Ok in E as (s1 & Hs1 & _).
  cbn [dict_getitem] in Hs1. rewrite String.eqb_refl in Hs1.
  cbn [bind dict_keys map fst for_each] in Hs1.
  apply bind_Ok in Hs1 as (s2 & Hs2 & _).
  unfold write_row in Hs2. apply bind_Ok in Hs2 as (attributes & Hattr & _).
  apply lookup_columns_Ok in Hattr as [_ Hall].
  apply Forall_forall. intros col Hcol.
  destruct (Hall col Hcol) as (options & columns & Hg & Ho & Hc).
  cbn [dict_getitem] in Hg. rewrite String.eqb_refl in Hg. injection Hg as <-.
  cbn [dict_getitem] in Ho. rewrite String.eqb_refl in Ho. injection Ho as <-.
  exact Hc.
Qed.

Lemma written_sheet_is_rectangular_witness :
  let up := CFloat (PyFloat.of_decimal false 12 1) in
  let tesco := CFloat (PyFloat.of_decimal false 120 2) in
  let header := ["Grocery Item"; "Options"; "Size"; "Denominator"; "Unit";
                 "Unit Price"; "Size"; "Denominator"; "Unit"; "Unit Price";
                 "Tesco"] in
  let row := [CStr "Milk"; CStr "dairy"; CInt 1000; CInt 1000; CStr "ml"; up;
              CInt 1000; CInt 1000; CStr "ml"; up; tesco] in
  write_prices_to_sheet nested_milk [] = ([map CStr header; row], Ok tt) /\
  exists header' rows,
    [map CStr header; row] = map CStr header' :: rows /\
    firstn 6 header' = ["Grocery Item"; "Options"; "Size"; "Denominator";
                        "Unit"; "Unit Price"] /\
    Forall (fun row => List.length row = List.length header') rows /\
    Forall (fun col => col ∈ skipn 6 header')
      ["Size"; "Denominator"; "Unit"; "Unit Price"].
Proof.
  cbv zeta.
  assert (H : write_prices_to_sheet nested_milk [] =
              ([map CStr ["Grocery Item"; "Options"; "Size"; "Denominator";
                          "Unit"; "Unit Price"; "Size"; "Denominator"; "Unit";
                          "Unit Price"; "Tesco"];
                [CStr "Milk"; CStr "dairy"; CInt 1000; CInt 1000; CStr "ml";
                 CFloat (PyFloat.of_decimal false 12 1);
                 CInt 1000; CInt 1000; CStr "ml";
                 CFloat (PyFloat.of_decimal false 12 1);
                 CFloat (PyFloat.of_decimal false 120 2)]], Ok tt))
    by (vm_compute; reflexivity).
  split; [exact H|].
  exact (written_sheet_is_rectangular nested_milk [] _ H).
Defined.

Lemma write_row_missing prices header g o options columns col data :
  dict_getitem prices g = Ok options ->
  dict_getitem options o = Ok columns ->
  col ∈ attribute_columns ++ skipn 6 header -> col ∉ dict_keys columns ->
  exists e, write_row prices header g o data = Raise e.
Proof.
  intros Hg Ho Hin Hmiss. unfold write_row.
  apply elem_of_app in Hin as [Hin|Hin].
  - destruct (lookup_columns_missing prices g o attribute_columns options
                columns col Hg Ho Hin Hmiss) as [e He].
    unfold attribute_columns in He. rewrite He. cbn [bind]. eauto.
  - destruct (lookup_columns prices g o ["Size"; "Denominator"; "Unit";
                                         "Unit Price"]) as [a|e];
      cbn [bind]; [|eauto].
    destruct (lookup_columns_missing prices g o (skipn 6 header) options
                columns col Hg Ho Hin Hmiss) as [e He].
    rewrite He. cbn [bind]. eauto.
Qed.

(** X9: [write_prices_to_sheet] clears the sheet before it builds the
    data, so every failure leaves the sheet empty: with no item at all
    ([IndexError]), and whenever an option lacks one of the four attribute
    columns or one of the columns of the header. *)
Theorem failed_write_leaves_sheet_empty (prices : nested_prices)
    (sheet : list (list cell)) :
  (forall e, snd (write_prices_to_sheet prices sheet) = Raise e ->
     fst (write_prices_to_sheet prices sheet) = []) /\
  (prices = [] ->
   write_prices_to_sheet prices sheet = ([], Raise IndexError)) /\
  (forall g o options columns col header,
     write_header prices = Ok header ->
     dict_getitem prices g = Ok options ->
     dict_getitem options o = Ok columns ->
     col ∈ attribute_columns ++ skipn 6 header ->
     col ∉ dict_keys columns ->
     exists e, write_prices_to_sheet prices sheet = ([], Raise e)).
Proof.
  split; [|split].
  - intros e. unfold write_prices_to_sheet.
    destruct (write_data prices); [discriminate|reflexivity].
  - intros ->. reflexivity.
  - intros g o options columns col header Hh Hg Ho Hin Hmiss.
    unfold write_prices_to_sheet.
    assert (H : exists e, write_data prices = Raise e).
    { unfold write_data. rewrite Hh. cbn [bind].
      apply (for_each_raises _ _ g).
      - eapply dict_getitem_keys; eauto.
      - intros data. rewrite Hg. cbn [bind].
        apply (for_each_raises _ _ o).
        + eapply dict_getitem_keys; eauto.
        + intros data'. eapply write_row_missing; eauto. }
    destruct H as [e ->]. eauto.
Qed.

Lemma failed_write_leaves_sheet_empty_witness :
  let old := [[CStr "Grocery Item"]; [CStr "Milk"]] in
  let columns := [("Size", CInt 1000); ("Denominator", CInt 1000);
                  ("Unit", CStr "ml");
                  ("Tesco", CFloat (PyFloat.of_decimal false 120 2))] in
  write_header nested_milk_incomplete =
    Ok ["Grocery Item"; "Options"; "Size"; "Denominator"; "Unit"; "Unit Price";
        "Size"; "Denominator"; "Unit"; "Tesco"] /\
  dict_getitem nested_milk_incomplete "Milk" = Ok [("dairy", columns)] /\
  dict_getitem [("dairy", columns)] "dairy" = Ok columns /\
  ("Unit Price" ∉ dict_keys columns) /\
  write_prices_to_sheet nested_milk_incomplete old = ([], Raise KeyError) /\
  exists e, write_prices_to_sheet nested_milk_incomplete old = ([], Raise e).
Proof.
  cbv zeta.
  assert (Hh : write_header nested_milk_incomplete =
               Ok ["Grocery Item"; "Options"; "Size"; "Denominator"; "Unit";
                   "Unit Price"; "Size"; "Denominator"; "Unit"; "Tesco"])
    by reflexivity.
  assert (Hin : "Unit Price" ∈ attribute_columns ++
                  skipn 6 ["Grocery Item"; "Options"; "Size"; "Denominator";
                           "Unit"; "Unit Price"; "Size"; "Denominator"; "Unit";
                           "Tesco"])
    by (cbn; do 3 right; left).
  assert (Hmiss : "Unit Price" ∉
                  dict_keys [("Size", CInt 1000); ("Denominator", CInt 1000);
                             ("Unit", CStr "ml");
                             ("Tesco", CFloat (PyFloat.of_decimal false 120 2))]).
  { cbn. intros H. repeat (apply elem_of_cons in H as [H|H]; [discriminate|]).
    apply elem_of_nil in H. exact H. }
  split; [exact Hh|]. split; [reflexivity|]. split; [reflexivity|].
  split; [exact Hmiss|]. split; [vm_compute; reflexivity|].
  exact (proj2 (proj2 (failed_write_leaves_sheet_empty nested_milk_incomplete
                         [[CStr "Grocery Item"]; [CStr "Milk"]]))
           "Milk" "dairy" _ _ "Unit Price" _ Hh eq_refl eq_refl Hin Hmiss).
Defined.

(** ** The ranking on other inputs *)

Lemma sublist_filter_std {A : Type} (p : A -> bool) (l : list A) :
  sublist (List.filter p l) l.
Proof.
  induction l as [|x l IH]; simpl; [constructor|].
  destruct (p x); [apply sublist_skip|apply sublist_cons]; exact IH.
Qed.

Lemma ltb_of_leb (x y : float) :
  PyFloat.leb x y = true -> PyFloat.eqb x y = false -> PyFloat.ltb x y = true.
Proof.
  unfold PyFloat.leb, PyFloat.eqb, PyFloat.ltb, SFleb, SFeqb, SFltb.
  destruct (SFcompare x y) as [[| |]|]; congruence.
Qed.

Lemma eqb_sym (x y : float) : PyFloat.eqb x y = PyFloat.eqb y x.
Proof.
  destruct (PyFloat.eqb x y) eqn:E1; destruct (PyFloat.eqb y x) eqn:E2;
    try reflexivity.
  - apply eqb_key in E1 as (N1 & N2 & K).
    assert (PyFloat.eqb y x = true) by (apply eqb_key; auto). congruence.
  - apply eqb_key in E2 as (N1 & N2 & K).
    assert (PyFloat.eqb x y = true) by (apply eqb_key; auto). congruence.
Qed.

(** X10: on input sorted by unit price, as the name
    [get_cheapest_item_from_sorted] asks for, and whose first unit price
    is not NaN, the ranking splits the input in two: [cheapest] starts
    with the first record and holds records of its unit price only,
    [others] holds records that cost strictly more. *)
Theorem rank_of_sorted (first : GroceryPrice.t) (rest : list GroceryPrice.t) :
  ascending (first :: rest) ->
  PyFloat.is_nan (GroceryPrice.unit_price first) = false ->
  exists cheapest others,
    rank (first :: rest) = Ok (cheapest, others) /\
    cheapest ++ others = first :: rest /\
    first ∈ cheapest /\
    (forall x, x ∈ cheapest ->
       PyFloat.eqb (GroceryPrice.unit_price x) (GroceryPrice.unit_price first)
       = true) /\
    (forall x, x ∈ others ->
       PyFloat.ltb (GroceryPrice.unit_price first) (GroceryPrice.unit_price x)
       = true).
Proof.
  intros Hasc Hnan.
  destruct (rank_ascending first rest Hasc)
    as (cheapest & others & Hr & Happ & Hmin & Hc & Ho).
  exists cheapest, others. split; [exact Hr|]. split; [exact Happ|].
  assert (Hfirst : first ∈ cheapest).
  { apply Hc. split; [left|]. apply eqb_refl, Hnan. }
  split; [exact Hfirst|]. split; [intros x Hx; apply Hc, Hx|].
  intros x Hx. apply ltb_of_leb.
  - assert (Hin : x ∈ first :: rest)
      by (rewrite <- Happ; apply elem_of_app; right; exact Hx).
    apply elem_of_cons in Hin as [->|Hin]; [apply leb_refl, Hnan|auto].
  - rewrite eqb_sym. apply Ho, Hx.
Qed.

Lemma rank_of_sorted_witness :
  ascending [aldi_milk; tesco_milk] /\
  PyFloat.is_nan (GroceryPrice.unit_price aldi_milk) = false /\
  exists cheapest others,
    rank [aldi_milk; tesco_milk] = Ok (cheapest, others) /\
    cheapest ++ others = [aldi_milk; tesco_milk] /\
    aldi_milk ∈ cheapest /\
    (forall x, x ∈ cheapest ->
       PyFloat.eqb (GroceryPrice.unit_price x)
                   (GroceryPrice.unit_price aldi_milk) = true) /\
    (forall x, x ∈ others ->
       PyFloat.ltb (GroceryPrice.unit_price aldi_milk)
                   (GroceryPrice.unit_price x) = true).
Proof.
  assert (Hasc : ascending [aldi_milk; tesco_milk]).
  { repeat constructor. }
  assert (Hnan : PyFloat.is_nan (GroceryPrice.unit_price aldi_milk) = false)
    by reflexivity.
  split; [exact Hasc|]. split; [exact Hnan|].
  exact (rank_of_sorted aldi_milk [tesco_milk] Hasc Hnan).
Defined.

(** X11: when the unit price of the first record is NaN (an infinite price
    for an infinite size, say), no record compares equal to it, not even
    the first: [cheapest] is empty and [others] is the whole input. *)
Theorem rank_nan_first (first : GroceryPrice.t) (rest : list GroceryPrice.t) :
  PyFloat.is_nan (GroceryPrice.unit_price first) = true ->
  rank (first :: rest) = Ok ([], first :: rest).
Proof.
  intros Hnan. rewrite rank_cons. cbv zeta.
  rewrite (filter_all_false (same_unit_price first))
    by (intros x; apply eqb_nan_r, Hnan).
  reflexivity.
Qed.

Lemma rank_nan_first_witness :
  GroceryPrice.__init__ "Gold" ["metal"] PyFloat.inf 1 "g" "Bank" PyFloat.inf
    = Ok priceless /\
  PyFloat.is_nan (GroceryPrice.unit_price priceless) = true /\
  rank [priceless; aldi_milk] = Ok ([], [priceless; aldi_milk]).
Proof.
  split; [vm_compute; reflexivity|]. split; [reflexivity|].
  exact (rank_nan_first priceless [aldi_milk] eq_refl).
Defined.

(** X12: whatever the order of the input, [cheapest] is a subsequence of
    it, [others] is a suffix of it, and the two have together as many
    records as the input. *)
Theorem rank_counts (l cheapest others : list GroceryPrice.t) :
  rank l = Ok (cheapest, others) ->
  sublist cheapest l /\ suffix others l /\
  (List.length cheapest + List.length others = List.length l)%nat.
Proof.
  destruct l as [|first rest].
  - intros [= <- <-]. repeat split; reflexivity.
  - rewrite rank_cons. cbv zeta. generalize (first :: rest) as l.
    intros l [= <- <-].
    split; [apply sublist_filter_std|]. split.
    + exists (firstn (List.length (List.filter (same_unit_price first) l)) l).
      symmetry. apply firstn_skipn.
    + rewrite length_skipn.
      pose proof (sublist_length _ _ (sublist_filter_std
                                        (same_unit_price first) l)).
      lia.
Qed.

Lemma rank_counts_witness :
  let a := litre "Tesco" 100 in
  let b := litre "Asda" 200 in
  let c := litre "Aldi" 100 in
  rank [a; b; c] = Ok ([a; c], [c]) /\
  sublist [a; c] [a; b; c] /\ suffix [c] [a; b; c] /\
  (List.length [a; c] + List.length [c] = List.length [a; b; c])%nat.
Proof.
  cbv zeta.
  assert (H : rank [litre "Tesco" 100; litre "Asda" 200; litre "Aldi" 100]
              = Ok ([litre "Tesco" 100; litre "Aldi" 100], [litre "Aldi" 100]))
    by (vm_compute; reflexivity).
  split; [exact H|]. exact (rank_counts _ _ _ H).
Defined.

(** ** [chunk] *)

Lemma chunk_calls_enough {A : Type} (fuel1 fuel2 : nat) (l : list A) (n : nat) :
  (List.length l < fuel1)%nat -> (List.length l < fuel2)%nat ->
  chunk_calls fuel1 l n = chunk_calls fuel2 l n /\
  exists rows, chunk_calls fuel1 l n = Some rows.
Proof.
  revert fuel2 l. induction fuel1 as [|fuel1 IH]; intros fuel2 l H1 H2; [lia|].
  destruct fuel2 as [|fuel2]; [lia|]. cbn [chunk_calls].
  destruct (firstn n l) as [|x row] eqn:E; [split; eauto|].
  assert (Hlen : (List.length (skipn n l) < List.length l)%nat).
  { rewrite length_skipn. destruct n; [discriminate|].
    destruct l; [discriminate|]. cbn [List.length]. lia. }
  destruct (IH fuel2 (skipn n l)) as [Heq [rows Hr]]; [lia|lia|].
  rewrite <- Heq, Hr. split; eauto.
Qed.

(** The equation of the iteration. *)
Lemma chunk_unfold {A : Type} (l : list A) (n : nat) :
  chunk l n =
  match firstn n l with
  | [] => []
  | row => row :: chunk (skipn n l) n
  end.
Proof.
  unfold chunk at 1. cbn [chunk_calls].
  destruct (firstn n l) as [|x row] eqn:E; [reflexivity|].
  assert (Hlen : (List.length (skipn n l) < List.length l)%nat).
  { rewrite length_skipn. destruct n; [discriminate|].
    destruct l; [discriminate|]. cbn [List.length]. lia. }
  unfold chunk.
  destruct (chunk_calls_enough (List.length l) (S (List.length (skipn n l)))
              (skipn n l) n) as [-> [rows ->]]; [lia|lia|].
  reflexivity.
Qed.

Lemma chunk_nil {A : Type} (n : nat) : chunk (@nil A) n = [].
Proof. rewrite chunk_unfold, firstn_nil. reflexivity. Qed.

Lemma chunk_cons {A : Type} (l : list A) (n : nat) :
  l <> [] -> (0 < n)%nat ->
  chunk l n = firstn n l :: chunk (skipn n l) n.
Proof.
  intros Hl Hn. rewrite chunk_unfold.
  destruct l as [|x l]; [contradiction|]. destruct n; [lia|]. reflexivity.
Qed.

(** Induction along the iteration: from the rest of the list to the list. *)
Lemma chunk_ind {A : Type} (n : nat) (P : list A -> Prop) :
  (0 < n)%nat ->
  P [] ->
  (forall l, l <> [] -> P (skipn n l) -> P l) ->
  forall l, P l.
Proof.
  intros Hn Hnil Hstep l.
  assert (H : forall k l, (List.length l < k)%nat -> P l).
  { induction k as [|k IH]; intros l' Hk; [lia|].
    destruct l' as [|x l']; [exact Hnil|].
    apply Hstep; [discriminate|]. apply IH.
    rewrite length_skipn. cbn [List.length] in *. lia. }
  apply (H (S (List.length l))). lia.
Qed.

Lemma chunk_spec {A : Type} (l : list A) (n : nat) :
  (0 < n)%nat ->
  concat (chunk l n) = l /\
  Forall (fun row => (0 < List.length row <= n)%nat) (chunk l n) /\
  (forall i row,
     (S i < List.length (chunk l n))%nat ->
     nth_error (chunk l n) i = Some row -> List.length row = n).
Proof.
  intros Hn. pattern l. apply (chunk_ind n); [exact Hn| |]; clear l.
  - rewrite chunk_nil. repeat split; [constructor|].
    intros i row Hi. cbn in Hi. lia.
  - intros l Hl (Hc & Hf & Hfull). rewrite chunk_cons by assumption.
    split; [|split].
    + cbn [concat]. rewrite Hc. apply firstn_skipn.
    + constructor; [|exact Hf]. rewrite length_firstn.
      destruct l; [contradiction|]. cbn [List.length]. lia.
    + intros i row Hi Hnth. destruct i as [|i].
      * cbn in Hnth. injection Hnth as <-. rewrite length_firstn.
        cbn [List.length] in Hi.
        destruct (chunk (skipn n l) n) as [|r rs] eqn:E; [cbn in Hi; lia|].
        assert (Hne : skipn n l <> []).
        { intros E'. rewrite E', chunk_nil in E. discriminate. }
        assert (List.length (skipn n l) <> 0)%nat
          by (destruct (skipn n l); [contradiction|discriminate]).
        rewrite length_skipn in H. lia.
      * cbn in Hnth, Hi. apply (Hfull i row); [lia|exact Hnth].
Qed.

(** X13: [chunk] always comes to an end: one call more than the list has
    elements reaches the empty tuple.  With size 0 it yields nothing.
    With a size [n > 0] the tuples, put end to end, are the list; none is
    empty or longer than [n], and all but the last have [n] elements. *)
Theorem chunk_splits_the_list {A : Type} (l : list A) (n : nat) :
  (forall fuel, (List.length l < fuel)%nat ->
     chunk_calls fuel l n = Some (chunk l n)) /\
  chunk l 0 = [] /\
  ((0 < n)%nat ->
   concat (chunk l n) = l /\
   Forall (fun row => (0 < List.length row <= n)%nat) (chunk l n) /\
   (forall i row,
      (S i < List.length (chunk l n))%nat ->
      nth_error (chunk l n) i = Some row -> List.length row = n)).
Proof.
  split; [|split].
  - intros fuel Hf. unfold chunk.
    destruct (chunk_calls_enough fuel (S (List.length l)) l n)
      as [-> [rows Hr]]; [lia|lia|].
    destruct (chunk_calls (S (List.length l)) l n); [reflexivity|discriminate].
  - rewrite chunk_unfold. reflexivity.
  - apply chunk_spec.
Qed.

Lemma chunk_splits_the_list_witness :
  let l := ["a"; "b"; "c"; "d"; "e"; "f"; "g"] in
  (List.length l < 8)%nat /\ (0 < 3)%nat /\
  chunk l 3 = [["a"; "b"; "c"]; ["d"; "e"; "f"]; ["g"]] /\
  chunk_calls 8 l 3 = Some (chunk l 3) /\
  concat (chunk l 3) = l.
Proof.
  cbv zeta.
  assert (H1 : (List.length ["a"; "b"; "c"; "d"; "e"; "f"; "g"] < 8)%nat)
    by (cbn; lia).
  assert (H2 : (0 < 3)%nat) by lia.
  split; [exact H1|]. split; [exact H2|]. split; [reflexivity|].
  pose proof (chunk_splits_the_list ["a"; "b"; "c"; "d"; "e"; "f"; "g"] 3)
    as (Hfuel & _ & Hn).
  split; [exact (Hfuel 8%nat H1)|exact (proj1 (Hn H2))].
Defined.

(** ** Tags and search *)

Lemma fold_filter_group_flat_map selected_item selected_tags prices acc :
  fold_left (filter_group selected_item selected_tags) prices acc =
  acc ++ flat_map (filter_group selected_item selected_tags []) prices.
Proof.
  revert acc. induction prices as [|[k items] prices IH]; intros acc;
    cbn [fold_left flat_map].
  - symmetry. apply app_nil_r.
  - rewrite IH, filter_group_app, (filter_group_app _ _ [] k items).
    cbn [app]. rewrite app_assoc. reflexivity.
Qed.

(** The loop over the catalog, group by group. *)
Lemma filtered_items_flat_map prices selected_item selected_tags :
  filtered_items prices selected_item selected_tags =
  flat_map (filter_group selected_item selected_tags []) prices.
Proof. unfold filtered_items. apply fold_filter_group_flat_map. Qed.

Lemma filter_group_sublist selected_item selected_tags k items :
  sublist (filter_group selected_item selected_tags [] (k, items)) items.
Proof.
  rewrite filter_group_app. cbn [app].
  destruct (negb (String.eqb selected_item "") &&
            negb (String.eqb k selected_item)); [apply sublist_nil_l|].
  destruct selected_tags; [reflexivity|apply sublist_filter_std].
Qed.

Lemma filter_group_other_key selected_item selected_tags k items :
  selected_item <> "" -> k <> selected_item ->
  filter_group selected_item selected_tags [] (k, items) = [].
Proof.
  intros H1 H2. rewrite filter_group_app. cbn [app].
  destruct (String.eqb_spec selected_item ""); [contradiction|].
  destruct (String.eqb_spec k selected_item); [contradiction|]. reflexivity.
Qed.

Lemma filtered_items_absent prices selected_item selected_tags :
  selected_item <> "" -> selected_item ∉ keys prices ->
  filtered_items prices selected_item selected_tags = [].
Proof.
  intros Hne Habs. rewrite filtered_items_flat_map.
  induction prices as [|[k items] prices IH]; cbn [flat_map]; [reflexivity|].
  cbn [keys map fst] in Habs. apply not_elem_of_cons in Habs as [Hk Habs].
  rewrite filter_group_other_key by auto. cbn [app]. apply IH, Habs.
Qed.

(** In a catalog without repeated keys, selecting an item and no tag
    gives the list of the item. *)
Lemma item_search_returns_group (prices : catalog) (selected_item : string)
    (items : list GroceryPrice.t) :
  NoDup (keys prices) -> selected_item <> "" ->
  getitem prices selected_item = Ok items ->
  filtered_items prices selected_item [] = items.
Proof.
  intros Hnd Hne. rewrite filtered_items_flat_map.
  induction prices as [|[k v] prices IH]; cbn [getitem flat_map];
    [discriminate|].
  cbn [keys map fst] in Hnd. apply NoDup_cons in Hnd as [Hk Hnd].
  destruct (String.eqb_spec k selected_item) as [->|Hk'].
  - intros [= ->]. rewrite filter_group_app. cbn [app].
    rewrite String.eqb_refl, andb_false_r.
    rewrite <- filtered_items_flat_map, filtered_items_absent by auto.
    apply app_nil_r.
  - intros H. rewrite filter_group_other_key by auto. cbn [app]. auto.
Qed.

Lemma size_list_to_set_le (l : list string) :
  (size (list_to_set l : gset string) <= List.length l)%nat.
Proof.
  induction l as [|x l IH]; [rewrite list_to_set_nil, size_empty; lia|].
  rewrite list_to_set_cons. cbn [List.length].
  pose proof (size_union_alt (C := gset string) {[x]} (list_to_set l)) as H.
  rewrite H, size_singleton.
  assert (size (list_to_set l ∖ {[x]} : gset string)
          <= size (list_to_set l : gset string))%nat
    by (apply subseteq_size, subseteq_difference_l; reflexivity).
  lia.
Qed.

Lemma size_list_to_set_NoDup (l : list string) :
  size (list_to_set l : gset string) = List.length l -> NoDup l.
Proof.
  induction l as [|x l IH]; [constructor|].
  rewrite list_to_set_cons. cbn [List.length]. intros H.
  destruct (decide (x ∈ l)) as [Hin|Hnin].
  - exfalso.
    assert (E : ({[x]} ∪ list_to_set l : gset string) = list_to_set l).
    { apply subseteq_union_1_L, singleton_subseteq_l, elem_of_list_to_set,
        Hin. }
    rewrite E in H. pose proof (size_list_to_set_le l). lia.
  - constructor; [exact Hnin|]. apply IH.
    rewrite size_union in H
      by (apply disjoint_singleton_l; rewrite elem_of_list_to_set; exact Hnin).
    rewrite size_singleton in H. lia.
Qed.

Lemma tags_match_dup item selected_tags :
  ~ NoDup selected_tags -> tags_match item selected_tags = false.
Proof.
  intros Hdup. destruct (tags_match item selected_tags) eqn:E; [|reflexivity].
  exfalso. apply Hdup, size_list_to_set_NoDup. apply tags_match_size in E.
  assert (Hle : (size (list_to_set (GroceryPrice.tags item) ∩
                        list_to_set selected_tags : gset string)
                <= size (list_to_set selected_tags : gset string))%nat)
    by (apply subseteq_size, intersection_subseteq_r).
  pose proof (size_list_to_set_le selected_tags). lia.
Qed.

Lemma tags_match_single item t :
  tags_match item [t] = true <-> t ∈ GroceryPrice.tags item.
Proof.
  rewrite tags_match_superset by (apply NoDup_singleton).
  split.
  - intros H. apply H. left.
  - intros H x Hx. apply list_elem_of_singleton in Hx as ->. exact H.
Qed.

Lemma elem_of_all_tags (prices : catalog) (t : string) :
  t ∈ all_tags prices <->
  exists k items r, (k, items) ∈ prices /\ r ∈ items /\
                    t ∈ GroceryPrice.tags r.
Proof.
  unfold all_tags. rewrite elem_of_list_to_set, list_elem_of_In, in_flat_map.
  split.
  - intros (r & Hr & Ht). apply in_flat_map in Hr as ([k items] & Hkv & Hr).
    exists k, items, r. rewrite !list_elem_of_In. auto.
  - intros (k & items & r & Hkv & Hr & Ht). exists r.
    split; [|apply list_elem_of_In, Ht].
    apply in_flat_map. exists (k, items).
    split; apply list_elem_of_In; assumption.
Qed.

(** X14: the tags offered in the search box are the tags that find
    something: searching all items for one tag returns at least one
    record exactly when the tag is the tag of some record. *)
Theorem offered_tags_find_records (prices : catalog) (t : string) :
  t ∈ all_tags prices <-> filtered_items prices "" [t] <> [].
Proof.
  rewrite elem_of_all_tags.
  assert (Hiff : filtered_items prices "" [t] <> [] <->
                 exists item, item ∈ filtered_items prices "" [t]).
  { destruct (filtered_items prices "" [t]) as [|x l].
    - split; [congruence|]. intros [item H]. apply elem_of_nil in H.
      contradiction.
    - split; [|discriminate]. intros _. exists x. left. }
  rewrite Hiff. unfold filtered_items.
  split.
  - intros (k & items & item & Hkv & Hitem & Ht).
    exists item. apply fold_filter_group_elem. right. exists k, items.
    split; [exact Hkv|].
    apply elem_of_filter_group; [discriminate|].
    split; [left; reflexivity|]. split; [exact Hitem|].
    apply tags_match_single, Ht.
  - intros [item H]. apply fold_filter_group_elem in H as [H|H];
      [apply elem_of_nil in H; contradiction|].
    destruct H as (k & items & Hkv & H).
    apply elem_of_filter_group in H as (_ & Hitem & Hm); [|discriminate].
    exists k, items, item. split; [exact Hkv|]. split; [exact Hitem|].
    apply tags_match_single, Hm.
Qed.

(** X15: after a load, a tag is offered in the search box exactly when it
    is a field of the options cell of a row that has a price: the tags of
    an item without any price are not offered. *)
Theorem offered_tags_come_from_priced_rows
    (float_of_str : string -> option float) (int_of_str : string -> option Z)
    (data : list (list string)) (prices : catalog) (t : string) :
  read_prices_from_sheet float_of_str int_of_str data = Ok prices ->
  (t ∈ all_tags prices <->
   exists row i cell options_cell,
     row ∈ skipn 1 data /\
     nth_error row (5 + i) = Some cell /\ cell <> "" /\
     nth_error row 1 = Some options_cell /\
     t ∈ split "|" options_cell).
Proof.
  intros H. rewrite elem_of_all_tags. split.
  - intros (k & items & r & Hkv & Hr & Ht).
    apply read_prices_from_rows in H as (header & Hh & Hinv).
    destruct (Hinv k items r Hkv Hr) as (_ & row & i & Hrow & Hrec).
    destruct Hrec as (c & oc & sc & dc & Hc & Hne & _ & Ho & Htags & _).
    exists row, i, c, oc. rewrite <- Htags. auto.
  - intros (row & i & cell & oc & Hrow & Hcell & Hne & Ho & Ht).
    assert (Hg : exists g, nth_error row 0 = Some g).
    { destruct row as [|g row]; [discriminate|]. exists g. reflexivity. }
    destruct Hg as [g Hg].
    destruct (read_prices_has_record float_of_str int_of_str data prices row
                g i cell H Hrow Hg Hcell Hne)
      as (header & r & Hh & (items & Hget & Hr) & Hrec).
    exists g, items, r. split; [apply getitem_elem, Hget|].
    split; [exact Hr|].
    destruct Hrec as (c & oc' & sc & dc & _ & _ & _ & Ho' & Htags & _).
    rewrite Htags. congruence.
Qed.

Lemma offered_tags_come_from_priced_rows_witness :
  read_prices_from_sheet decimal_float decimal_int eggs_sheet
    = Ok [("Milk", [tesco_milk; aldi_milk]); ("Eggs", [])] /\
  "dairy" ∈ all_tags [("Milk", [tesco_milk; aldi_milk]); ("Eggs", [])] /\
  "" ∉ all_tags [("Milk", [tesco_milk; aldi_milk]); ("Eggs", [])].
Proof.
  assert (H : read_prices_from_sheet decimal_float decimal_int eggs_sheet
              = Ok [("Milk", [tesco_milk; aldi_milk]); ("Eggs", [])])
    by (vm_compute; reflexivity).
  pose proof (offered_tags_come_from_priced_rows decimal_float decimal_int
                eggs_sheet [("Milk", [tesco_milk; aldi_milk]); ("Eggs", [])])
    as Hiff.
  split; [exact H|]. split.
  - apply (Hiff "dairy" H).
    exists ["Milk"; "dairy"; "1000"; "1000"; "ml"; "1.20"; ""], 0%nat,
      "1.20", "dairy".
    split; [cbn; left|]. split; [reflexivity|]. split; [discriminate|].
    split; [reflexivity|]. cbn. left.
  - intros Hin. apply (Hiff "" H) in Hin
      as (row & i & cell & oc & Hrow & Hcell & Hne & Ho & Ht).
    cbn in Hrow.
    apply elem_of_cons in Hrow as [->|Hrow];
      [|apply elem_of_cons in Hrow as [->|Hrow];
        [|apply list_elem_of_singleton in Hrow as ->]].
    + cbn in Ho. injection Ho as <-. cbn in Ht.
      apply list_elem_of_singleton in Ht. discriminate.
    + cbn in Ho. injection Ho as <-. cbn in Ht.
      apply list_elem_of_singleton in Ht. discriminate.
    + destruct i as [|[|i]]; cbn in Hcell;
        [injection Hcell as <-; contradiction
        |injection Hcell as <-; contradiction
        |destruct i; discriminate].
Defined.

(** X16: the records that the search keeps are a subsequence of the
    records of the catalog, item after item: no record is repeated, and
    the order of the catalog is kept. *)
Theorem filtered_items_keep_order (prices : catalog) (selected_item : string)
    (selected_tags : list string) :
  sublist (filtered_items prices selected_item selected_tags)
          (flat_map snd prices).
Proof.
  rewrite filtered_items_flat_map.
  induction prices as [|[k items] prices IH]; cbn [flat_map]; [constructor|].
  apply sublist_app; [apply filter_group_sublist|exact IH].
Qed.

(** X17: searching for an item that the catalog does not have is no
    error: no record is kept, and the ranking returns two empty lists. *)
Theorem search_absent_item (prices : catalog) (selected_item : string)
    (selected_tags : list string) :
  selected_item <> "" -> selected_item ∉ grocery_items prices ->
  filtered_items prices selected_item selected_tags = [] /\
  search prices selected_item selected_tags = Ok ([], []).
Proof.
  intros Hne Habs. unfold search.
  rewrite (filtered_items_absent prices selected_item selected_tags Hne Habs).
  split; reflexivity.
Qed.

Lemma search_absent_item_witness :
  "Bread" <> "" /\ ("Bread" ∉ grocery_items noodle_catalog) /\
  filtered_items noodle_catalog "Bread" ["noodles"] = [] /\
  search noodle_catalog "Bread" ["noodles"] = Ok ([], []).
Proof.
  assert (H1 : "Bread" <> "") by discriminate.
  assert (H2 : "Bread" ∉ grocery_items noodle_catalog).
  { cbn. intros H. repeat (apply elem_of_cons in H as [H|H]; [discriminate|]).
    apply elem_of_nil in H. exact H. }
  split; [exact H1|]. split; [exact H2|].
  exact (search_absent_item noodle_catalog "Bread" ["noodles"] H1 H2).
Defined.

(** X18: after a load, selecting an item of the select box and no tag
    shows the records of that item, all of them and in the order of the
    sheet, and nothing else. *)
Theorem selected_item_shows_its_records
    (float_of_str : string -> option float) (int_of_str : string -> option Z)
    (data : list (list string)) (prices : catalog) (selected_item : string) :
  read_prices_from_sheet float_of_str int_of_str data = Ok prices ->
  selected_item ∈ grocery_items prices -> selected_item <> "" ->
  exists items,
    getitem prices selected_item = Ok items /\
    filtered_items prices selected_item [] = items.
Proof.
  intros H Hin Hne.
  apply read_prices_keys in H as (names & _ & E).
  assert (Hnd : NoDup (keys prices)).
  { change (keys prices) with (grocery_items prices). rewrite E.
    apply first_occurrences_spec. }
  destruct (keys_getitem prices selected_item Hin) as [items Hget].
  exists items. split; [exact Hget|].
  apply item_search_returns_group; assumption.
Qed.

Lemma selected_item_shows_its_records_witness :
  read_prices_from_sheet decimal_float decimal_int eggs_sheet
    = Ok [("Milk", [tesco_milk; aldi_milk]); ("Eggs", [])] /\
  "Milk" ∈ grocery_items [("Milk", [tesco_milk; aldi_milk]); ("Eggs", [])] /\
  "Milk" <> "" /\
  exists items,
    getitem [("Milk", [tesco_milk; aldi_milk]); ("Eggs", [])] "Milk"
      = Ok items /\
    filtered_items [("Milk", [tesco_milk; aldi_milk]); ("Eggs", [])] "Milk" []
      = items.
Proof.
  assert (H : read_prices_from_sheet decimal_float decimal_int eggs_sheet
              = Ok [("Milk", [tesco_milk; aldi_milk]); ("Eggs", [])])
    by (vm_compute; reflexivity).
  assert (Hin : "Milk" ∈ grocery_items
                  [("Milk", [tesco_milk; aldi_milk]); ("Eggs", [])])
    by (cbn; left).
  assert (Hne : "Milk" <> "") by discriminate.
  split; [exact H|]. split; [exact Hin|]. split; [exact Hne|].
  exact (selected_item_shows_its_records decimal_float decimal_int eggs_sheet
           _ "Milk" H Hin Hne).
Defined.

(** X19: a selection that holds the same tag twice matches no record at
    all, whatever the tags of the records: the unique common tags are
    fewer than the selected ones. *)
Theorem repeated_tag_matches_nothing (prices : catalog)
    (selected_item : string) (selected_tags : list string) :
  ~ NoDup selected_tags ->
  filtered_items prices selected_item selected_tags = [].
Proof.
  intros Hdup. rewrite filtered_items_flat_map.
  assert (Hne : selected_tags <> []) by (intros ->; apply Hdup; constructor).
  induction prices as [|[k items] prices IH]; cbn [flat_map]; [reflexivity|].
  rewrite IH, app_nil_r, filter_group_app. cbn [app].
  destruct (negb (String.eqb selected_item "") &&
            negb (String.eqb k selected_item)); [reflexivity|].
  destruct selected_tags as [|t ts]; [contradiction|].
  apply filter_all_false. intros x. apply tags_match_dup, Hdup.
Qed.

Lemma repeated_tag_matches_nothing_witness :
  ~ NoDup ["noodles"; "noodles"] /\
  filtered_items noodle_catalog "" ["noodles"] <> [] /\
  filtered_items noodle_catalog "" ["noodles"; "noodles"] = [].
Proof.
  assert (H : ~ NoDup ["noodles"; "noodles"]).
  { intros Hnd. apply NoDup_cons in Hnd as [Hnin _]. apply Hnin. left. }
  split; [exact H|]. split; [vm_compute; discriminate|].
  exact (repeated_tag_matches_nothing noodle_catalog "" _ H).
Defined.

(** ** The grids of metrics *)

Section DisplayFacts.

Variable format_2f : float -> string.
Variable str_float : float -> string.
Variable str_int : Z -> string.

Local Abbreviation item_metric := (item_metric format_2f str_float str_int).
Local Abbreviation display := (display format_2f str_float str_int).

Lemma display_cons (items : list GroceryPrice.t) :
  items <> [] ->
  display items =
  map (fun '(item, col) => (col, item_metric item))
      (combine (firstn 3 items) (seq 0 3))
  :: display (skipn 3 items).
Proof.
  intros H. unfold display. rewrite chunk_cons by (assumption || lia).
  reflexivity.
Qed.

(** X20: the grid shows every record once and in order, three to a row:
    the record at position [j] of the list is in column [j mod 3], and no
    row of the grid is empty or has more than three metrics. *)
Theorem display_shows_every_item (items : list GroceryPrice.t) :
  concat (display items) =
  imap (fun j item => (j mod 3, item_metric item)%nat) items /\
  Forall (fun row => (0 < List.length row <= 3)%nat) (display items).
Proof.
  split.
  - pattern items. apply (chunk_ind 3); [lia|reflexivity|]. clear items.
    intros items Hne IH. rewrite display_cons by exact Hne.
    cbn [concat]. rewrite IH.
    destruct items as [|a [|b [|c rest]]]; [contradiction|reflexivity..|].
    cbn [firstn skipn seq combine map app imap]. do 3 f_equal.
    apply imap_ext. intros j x _. cbn [compose]. f_equal.
    replace (S (S (S j))) with (j + 1 * 3)%nat by lia.
    symmetry. apply Nat.Div0.mod_add.
  - unfold display. apply Forall_map.
    destruct (chunk_spec items 3) as (_ & Hf & _); [lia|].
    eapply Forall_impl; [exact Hf|]. intros row [H1 H2]. cbn beta.
    rewrite length_map, length_combine, length_seq. lia.
Qed.

End DisplayFacts.

(** ** Submissions that the forms accept *)

Lemma lstrip_spaces (s : string) :
  Forall (fun c => isspace c = true) (list_ascii_of_string s) -> lstrip s = "".
Proof.
  induction s as [|c s IH]; cbn [list_ascii_of_string lstrip]; [reflexivity|].
  intros H. apply Forall_cons in H as [Hc Hs]. rewrite Hc. apply IH, Hs.
Qed.

Lemma strip_spaces (s : string) :
  Forall (fun c => isspace c = true) (list_ascii_of_string s) -> strip s = "".
Proof.
  intros H. unfold strip. rewrite lstrip_spaces by exact H. reflexivity.
Qed.

Lemma rstrip_idem (s : string) : rstrip (rstrip s) = rstrip s.
Proof.
  induction s as [|c s IH]; [reflexivity|]. cbn [rstrip].
  destruct (rstrip s) as [|c' u] eqn:E.
  - destruct (isspace c) eqn:Hc; [reflexivity|]. cbn [rstrip]. rewrite Hc.
    reflexivity.
  - cbn [rstrip] in IH |- *. rewrite IH. reflexivity.
Qed.

Lemma lstrip_head (s : string) :
  match lstrip s with
  | EmptyString => True
  | String c _ => isspace c = false
  end.
Proof.
  induction s as [|c s IH]; cbn [lstrip]; [exact I|].
  destruct (isspace c) eqn:Hc; [exact IH|exact Hc].
Qed.

Lemma rstrip_head (c : ascii) (s : string) :
  isspace c = false -> exists u, rstrip (String c s) = String c u.
Proof.
  intros Hc. cbn [rstrip]. destruct (rstrip s); [rewrite Hc|]; eauto.
Qed.

(** Stripping twice is stripping once: the branch form strips the name
    when it looks it up and again when it adds the column. *)
Lemma strip_idem (s : string) : strip (strip s) = strip s.
Proof.
  unfold strip. pose proof (lstrip_head s) as H.
  destruct (lstrip s) as [|c t]; [reflexivity|].
  destruct (rstrip_head c t H) as [u E]. rewrite E.
  cbn [lstrip]. rewrite H, <- E. apply rstrip_idem.
Qed.



Lemma new_branch_form_accepted (name : string) (s : session) :
  name <> "" -> strip name ∉ columns (df s) ->
  new_branch_form true name s =
  {| worksheet := {| records := add_column (df s) (strip name);
                     reads := S (reads (worksheet s));
                     writes := S (writes (worksheet s)) |};
     df := add_column (df s) (strip name);
     shown := shown s ++ [st_success "Sheet updated successfully!"] |}.
Proof.
  intros Hne Hnin. unfold new_branch_form.
  destruct (String.eqb_spec name "") as [?|_]; [contradiction|].
  rewrite bool_decide_eq_false_2 by exact Hnin. rewrite strip_idem.
  reflexivity.
Qed.

(** X22: the branch form, given a name of ASCII characters that is not
    empty and whose stripped form is no column yet, hands the sheet the
    frame with that stripped name added as the last column, NaN in every
    row of it, and the other columns and rows as they were; it writes once
    and reports success. *)
Theorem new_branch_adds_column (name : string) (s : session) :
  name <> "" -> is_ascii name = true -> strip name ∉ columns (df s) ->
  let s' := new_branch_form true name s in
  columns (records (worksheet s')) = columns (df s) ++ [strip name] /\
  rows (records (worksheet s')) =
    map (fun r => r ++ [CFloat PyFloat.nan]) (rows (df s)) /\
  writes (worksheet s') = S (writes (worksheet s)) /\
  shown s' = shown s ++ [st_success "Sheet updated successfully!"].
Proof.
  intros Hne _ Hnin. cbv zeta. rewrite new_branch_form_accepted by assumption.
  repeat split; reflexivity.
Qed.

Lemma new_branch_adds_column_witness :
  " Aldi " <> "" /\ is_ascii " Aldi " = true /\
  (strip " Aldi " ∉ columns (df tesco_session)) /\
  columns (records (worksheet (new_branch_form true " Aldi " tesco_session)))
    = ["Grocery Item"; "Options"; "Size"; "Denominator"; "Unit"; "Tesco";
       "Aldi"] /\
  writes (worksheet (new_branch_form true " Aldi " tesco_session)) = 1%nat.
Proof.
  assert (H1 : " Aldi " <> "") by discriminate.
  assert (Ha : is_ascii " Aldi " = true) by reflexivity.
  assert (H2 : strip " Aldi " ∉ columns (df tesco_session)).
  { cbn. intros H. repeat (apply elem_of_cons in H as [H|H]; [discriminate|]).
    apply elem_of_nil in H. exact H. }
  split; [exact H1|]. split; [exact Ha|]. split; [exact H2|].
  destruct (new_branch_adds_column " Aldi " tesco_session H1 Ha H2)
    as (Hc & _ & Hw & _).
  split; [exact Hc|exact Hw].
Defined.

(** X23: a branch name made only of ASCII white space (spaces, tabs, line
    breaks) passes the test for an empty name, is stripped to the empty
    string, and, unless the frame has such a column already, is added as a
    column whose name is empty: the sheet is written and no error is
    shown. *)
Theorem blank_branch_name_is_accepted (name : string) (s : session) :
  name <> "" ->
  Forall (fun c => isspace c = true) (list_ascii_of_string name) ->
  "" ∉ columns (df s) ->
  let s' := new_branch_form true name s in
  columns (records (worksheet s')) = columns (df s) ++ [""] /\
  writes (worksheet s') = S (writes (worksheet s)) /\
  shown s' = shown s ++ [st_success "Sheet updated successfully!"].
Proof.
  intros Hne Hsp Hnin. cbv zeta.
  pose proof (strip_spaces name Hsp) as E.
  rewrite new_branch_form_accepted by (rewrite ?E; assumption).
  rewrite E. repeat split; reflexivity.
Qed.

Lemma blank_branch_name_is_accepted_witness :
  "  " <> "" /\
  Forall (fun c => isspace c = true) (list_ascii_of_string "  ") /\
  ("" ∉ columns (df tesco_session)) /\
  columns (records (worksheet (new_branch_form true "  " tesco_session)))
    = ["Grocery Item"; "Options"; "Size"; "Denominator"; "Unit"; "Tesco"; ""] /\
  writes (worksheet (new_branch_form true "  " tesco_session)) = 1%nat /\
  shown (new_branch_form true "  " tesco_session)
    = [st_success "Sheet updated successfully!"].
Proof.
  assert (H1 : "  " <> "") by discriminate.
  assert (H2 : Forall (fun c => isspace c = true) (list_ascii_of_string "  "))
    by (repeat constructor).
  assert (H3 : "" ∉ columns (df tesco_session)).
  { cbn. intros H. repeat (apply elem_of_cons in H as [H|H]; [discriminate|]).
    apply elem_of_nil in H. exact H. }
  split; [exact H1|]. split; [exact H2|]. split; [exact H3|].
  exact (blank_branch_name_is_accepted "  " tesco_session H1 H2 H3).
Defined.
